(** * EMI device locker: access control and the device-lock engine

    A shallow embedding of the Mongoose models (models/User.js,
    models/Device.js, models/Shop.js), the auth middleware
    (middleware/auth.js), the device controller (lockDevice, unlockDevice,
    bulkLockDevices, bulkUnlockDevices, registerDevice), the user
    controller's getUsers and the two routers that mount them.

    Conventions of the embedding
    - an ObjectId is the string that [toString()] prints;
    - a JavaScript Number that holds an amount or a counter is an integer [Z];
    - a Date is a timestamp [Z]; every [new Date()] of one request is the
      argument [now];
    - a collection is the list of its documents in natural order; [_id] is
      the key;
    - an [async] handler is a computation over the store that either yields
      a value, answers the request early ([return res.status(..).json(..)])
      or throws; what was written before a throw stays written. *)

From Stdlib Require Import String Ascii List ZArith Bool Lia DecimalString.
Import ListNotations.
Local Open Scope string_scope.
Local Open Scope Z_scope.

(** ** Documents *)

Definition ObjectId := string.

Inductive Role := superadmin | shopowner | user.

Definition Role_eqb (a b : Role) : bool :=
  match a, b with
  | superadmin, superadmin | shopowner, shopowner | user, user => true
  | _, _ => false
  end.

Module EmiDetails.
Record t := mk {
  totalAmount : Z;
  paidAmount : Z;
  remainingAmount : Z;
  monthlyEmi : Z
}.
End EmiDetails.

Module DeviceStatus.
Record t := mk {
  isLocked : bool;
  lastLockedAt : option Z;
  lastUnlockedAt : option Z;
  lockReason : option string
}.
End DeviceStatus.

Module User.
Record t := mk {
  _id : ObjectId;
  name : string;
  phone : string;
  email : option string;
  role : Role;
  shop : option ObjectId;
  deviceId : option string;
  imeiNumber : option string;
  emiDetails : EmiDetails.t;
  deviceStatus : DeviceStatus.t;
  isActive : bool
}.

Definition with_deviceStatus (ds : DeviceStatus.t) (u : t) : t :=
  mk (_id u) (name u) (phone u) (email u) (role u) (shop u) (deviceId u)
     (imeiNumber u) (emiDetails u) ds (isActive u).

Definition with_emiDetails (e : EmiDetails.t) (u : t) : t :=
  mk (_id u) (name u) (phone u) (email u) (role u) (shop u) (deviceId u)
     (imeiNumber u) e (deviceStatus u) (isActive u).

Definition with_device (did imei : string) (u : t) : t :=
  mk (_id u) (name u) (phone u) (email u) (role u) (shop u) (Some did)
     (Some imei) (emiDetails u) (deviceStatus u) (isActive u).
End User.

Module LockStatus.
Record t := mk {
  isLocked : bool;
  lockedAt : option Z;
  unlockedAt : option Z;
  lockReason : option string;
  lockedBy : option ObjectId
}.
End LockStatus.

Module ConnectionStatus.
Record t := mk {
  isOnline : bool;
  lastSeen : option Z;
  lastHeartbeat : option Z;
  connectionType : string
}.
End ConnectionStatus.

Module Device.
Record t := mk {
  _id : ObjectId;
  user : ObjectId;
  shop : ObjectId;
  deviceId : string;
  imeiNumber : string;
  lockStatus : LockStatus.t;
  connectionStatus : ConnectionStatus.t;
  isActive : bool
}.

Definition with_lockStatus (ls : LockStatus.t) (d : t) : t :=
  mk (_id d) (user d) (shop d) (deviceId d) (imeiNumber d) ls
     (connectionStatus d) (isActive d).
End Device.

Module Statistics.
Record t := mk {
  totalUsers : Z;
  activeUsers : Z;
  lockedDevices : Z;
  totalRevenue : Z
}.
End Statistics.

Module Shop.
Record t := mk {
  _id : ObjectId;
  name : string;
  statistics : Statistics.t;
  isActive : bool
}.

Definition with_statistics (st : Statistics.t) (sh : t) : t :=
  mk (_id sh) (name sh) st (isActive sh).
End Shop.

Module ActivityLog.
Record t := mk {
  user : ObjectId;
  shop : option ObjectId;
  action : string;
  description : string;
  category : string;
  performedBy : ObjectId
}.
End ActivityLog.

(** ** The entity store

    [aggregations] is not a collection: it records, in order, the shop of
    every [updateStatistics] invocation, so that statements about how often
    the aggregator runs can be made. *)

Record Store := mkStore {
  users : list User.t;
  devices : list Device.t;
  shops : list Shop.t;
  logs : list ActivityLog.t;
  aggregations : list ObjectId
}.

Definition set_users (us : list User.t) (s : Store) : Store :=
  mkStore us (devices s) (shops s) (logs s) (aggregations s).
Definition set_devices (ds : list Device.t) (s : Store) : Store :=
  mkStore (users s) ds (shops s) (logs s) (aggregations s).
Definition set_shops (hs : list Shop.t) (s : Store) : Store :=
  mkStore (users s) (devices s) hs (logs s) (aggregations s).
Definition set_logs (ls : list ActivityLog.t) (s : Store) : Store :=
  mkStore (users s) (devices s) (shops s) ls (aggregations s).
Definition set_aggregations (l : list ObjectId) (s : Store) : Store :=
  mkStore (users s) (devices s) (shops s) (logs s) l.

(** ** Responses *)

Record BulkSuccess := mkBulkSuccess {
  bs_deviceId : ObjectId;
  bs_deviceName : string;
  bs_userName : string
}.

Record BulkFailure := mkBulkFailure {
  bf_deviceId : ObjectId;
  bf_deviceName : string;
  bf_reason : string
}.

Record BulkResults := mkBulkResults {
  successful : list BulkSuccess;
  failed : list BulkFailure
}.

Record Pagination := mkPagination {
  currentPage : Z;
  totalPages : Z;
  totalItems : Z;
  itemsPerPage : Z;
  hasNextPage : bool;
  hasPrevPage : bool
}.

(** [responseDevice] copies fields of the in-memory device and of its
    populated user; the copy carries the two documents it is built from. *)
Inductive Data :=
| NoData
| DeviceData (device : Device.t) (owner : User.t)
| RegisteredData (device : Device.t)
| BulkData (results : BulkResults)
| UsersData (found : list User.t) (pagination : Pagination).

Record Response := mkResponse {
  status : nat;
  success : bool;
  message : string;
  data : Data
}.

Definition failure (code : nat) (msg : string) : Response :=
  mkResponse code false msg NoData.

(** ** Handler computations *)

Inductive Outcome (A : Type) :=
| Value (a : A)
| Reply (r : Response)
| Throw (msg : string).
Arguments Value {A} a.
Arguments Reply {A} r.
Arguments Throw {A} msg.

Definition M (A : Type) := Store -> Outcome A * Store.

Definition ret {A} (a : A) : M A := fun s => (Value a, s).

Definition bind {A B} (m : M A) (k : A -> M B) : M B :=
  fun s =>
    match m s with
    | (Value a, s') => k a s'
    | (Reply r, s') => (Reply r, s')
    | (Throw e, s') => (Throw e, s')
    end.

Definition reply {A} (r : Response) : M A := fun s => (Reply r, s).
Definition throw {A} (msg : string) : M A := fun s => (Throw msg, s).
Definition get : M Store := fun s => (Value s, s).
Definition modify (f : Store -> Store) : M unit := fun s => (Value tt, f s).

(** [try { body } catch (error) { handler error.message }] *)
Definition try_catch {A} (body : M A) (handler : string -> M A) : M A :=
  fun s =>
    match body s with
    | (Throw e, s') => handler e s'
    | other => other
    end.

Declare Scope handler_scope.
Delimit Scope handler_scope with handler.
Notation "x <- m ;; k" := (bind m (fun x => k))
  (at level 61, m at next level, right associativity) : handler_scope.
Notation "m ;;; k" := (bind m (fun _ => k))
  (at level 61, right associativity) : handler_scope.
Local Open Scope handler_scope.

(** The outer [try { ... } catch (error) { res.status(500).json(...) }] of a
    controller function. *)
Definition handler (serverError : string) (body : M Response)
  : Store -> Response * Store :=
  fun s =>
    match body s with
    | (Value r, s') => (r, s')
    | (Reply r, s') => (r, s')
    | (Throw _, s') => (failure 500 serverError, s')
    end.

(** ** Mongoose queries and saves *)

Definition by_id {A} (key : A -> ObjectId) (id : ObjectId) (x : A) : bool :=
  String.eqb (key x) id.

Definition User_findById (id : ObjectId) (s : Store) : option User.t :=
  find (by_id User._id id) (users s).

Definition Device_findById (id : ObjectId) (s : Store) : option Device.t :=
  find (by_id Device._id id) (devices s).

Definition Shop_findById (id : ObjectId) (s : Store) : option Shop.t :=
  find (by_id Shop._id id) (shops s).

(** Writing a document back: the stored document with the same [_id] is
    replaced, a new document is appended to the collection. *)
Fixpoint upsert {A} (key : A -> ObjectId) (doc : A) (l : list A) : list A :=
  match l with
  | [] => [doc]
  | x :: rest =>
      if String.eqb (key x) (key doc) then doc :: rest
      else x :: upsert key doc rest
  end.

(** *** models/User.js *)

(** A JavaScript number is truthy unless it is zero. *)
Definition truthy (n : Z) : bool := negb (n =? 0).

(** [n || 0] *)
Definition or0 (n : Z) : Z := if truthy n then n else 0.

(** [userSchema.pre('save')]: "Calculate remaining amount before saving". *)
Definition User_preSave (this : User.t) : User.t :=
  let e := User.emiDetails this in
  if truthy (EmiDetails.totalAmount e) && truthy (EmiDetails.paidAmount e)
  then User.with_emiDetails
         (EmiDetails.mk (EmiDetails.totalAmount e) (EmiDetails.paidAmount e)
            (EmiDetails.totalAmount e - EmiDetails.paidAmount e)
            (EmiDetails.monthlyEmi e))
         this
  else this.

(** [user.save()]. The password hook only acts when the password was
    modified, which no handler below does; the validators of the schema
    concern name, email, phone and password, which no handler below writes. *)
Definition User_save (this : User.t) : M User.t :=
  let saved := User_preSave this in
  modify (fun s => set_users (upsert User._id saved (users s)) s) ;;;
  ret saved.

(** *** models/Device.js *)

Definition lockReason_enum : list string :=
  ["emi_default"; "manual_lock"; "suspicious_activity"; "maintenance"].

Definition mem_string (x : string) (l : list string) : bool :=
  existsb (String.eqb x) l.

Definition is_digit (c : ascii) : bool :=
  let n := nat_of_ascii c in (48 <=? n)%nat && (n <=? 57)%nat.

Fixpoint all_chars (p : ascii -> bool) (x : string) : bool :=
  match x with
  | EmptyString => true
  | String c rest => p c && all_chars p rest
  end.

(** [/^\d{15}$/.test(imei)] *)
Definition imei_valid (imei : string) : bool :=
  (String.length imei =? 15)%nat && all_chars is_digit imei.

(** The validators that [save()] runs on a device: the required strings, the
    IMEI pattern and the enum of [lockStatus.lockReason] (an enum validator
    accepts an absent value). The result is the ValidationError message.
    Stored devices went through these validators when they were written. *)
Definition Device_validate (d : Device.t) : option string :=
  if String.eqb (Device.deviceId d) ""
  then Some "Device validation failed: deviceId: Device ID is required"
  else if String.eqb (Device.imeiNumber d) ""
  then Some "Device validation failed: imeiNumber: IMEI number is required"
  else if negb (imei_valid (Device.imeiNumber d))
  then Some "Device validation failed: imeiNumber: IMEI must be 15 digits"
  else match LockStatus.lockReason (Device.lockStatus d) with
       | None => None
       | Some r =>
           if mem_string r lockReason_enum then None
           else Some ("Device validation failed: lockStatus.lockReason: `"
                        ++ r ++ "` is not a valid enum value for path `lockStatus.lockReason`.")
       end.

(** The two unique indexes of the collection; they can only be violated by
    the insertion of a document that is not stored yet. *)
Definition Device_unique_clash (d : Device.t) (s : Store) : bool :=
  negb (existsb (fun x => String.eqb (Device._id x) (Device._id d)) (devices s))
  && existsb (fun x => String.eqb (Device.deviceId x) (Device.deviceId d)
                       || String.eqb (Device.imeiNumber x) (Device.imeiNumber d))
             (devices s).

Definition Device_save (this : Device.t) : M Device.t :=
  match Device_validate this with
  | Some msg => throw msg
  | None =>
      s <- get ;;
      if Device_unique_clash this s
      then throw "E11000 duplicate key error collection: devices"
      else modify (fun s => set_devices (upsert Device._id this (devices s)) s) ;;;
           ret this
  end.

(** [deviceSchema.methods.lockDevice]; [reason || 'emi_default'] replaces an
    empty reason by the default. *)
Definition Device_lockDevice (this : Device.t) (reason : string)
    (lockedBy : ObjectId) (now : Z) : M Device.t :=
  let ls := Device.lockStatus this in
  Device_save
    (Device.with_lockStatus
       (LockStatus.mk true (Some now) (LockStatus.unlockedAt ls)
          (Some (if String.eqb reason "" then "emi_default" else reason))
          (Some lockedBy))
       this).

(** [deviceSchema.methods.unlockDevice] *)
Definition Device_unlockDevice (this : Device.t) (now : Z) : M Device.t :=
  let ls := Device.lockStatus this in
  Device_save
    (Device.with_lockStatus
       (LockStatus.mk false (LockStatus.lockedAt ls) (Some now)
          (LockStatus.lockReason ls) (LockStatus.lockedBy ls))
       this).

(** *** models/Shop.js *)

Definition in_shop (shopId : ObjectId) (u : User.t) : bool :=
  match User.shop u with
  | Some h => String.eqb h shopId
  | None => false
  end.

Definition sumZ (l : list Z) : Z := fold_right Z.add 0 l.

Definition b2z (b : bool) : Z := if b then 1 else 0.

(** [User.aggregate([{ $match: { shop } }, { $group: { _id: null, ... } }])]:
    one group when some user matches, no group otherwise. *)
Definition User_aggregate (shopId : ObjectId) (s : Store) : list Statistics.t :=
  match filter (in_shop shopId) (users s) with
  | [] => []
  | matched =>
      [ Statistics.mk
          (sumZ (map (fun _ => 1) matched))
          (sumZ (map (fun u => b2z (User.isActive u)) matched))
          (sumZ (map (fun u => b2z (DeviceStatus.isLocked (User.deviceStatus u))) matched))
          (sumZ (map (fun u => EmiDetails.paidAmount (User.emiDetails u)) matched)) ]
  end.

(** [shop.save()]. The validators of the shop schema concern the name, the
    slug, the owner and the contact fields, which [updateStatistics] does
    not write. *)
Definition Shop_save (this : Shop.t) : M Shop.t :=
  modify (fun s => set_shops (upsert Shop._id this (shops s)) s) ;;;
  ret this.

(** [shopSchema.methods.updateStatistics] *)
Definition Shop_updateStatistics (this : Shop.t) : M Shop.t :=
  modify (fun s => set_aggregations (aggregations s ++ [Shop._id this])%list s) ;;;
  s <- get ;;
  match User_aggregate (Shop._id this) s with
  | st :: _ =>
      Shop_save
        (Shop.with_statistics
           (Statistics.mk (or0 (Statistics.totalUsers st))
              (or0 (Statistics.activeUsers st))
              (or0 (Statistics.lockedDevices st))
              (or0 (Statistics.totalRevenue st)))
           this)
  | [] => Shop_save this
  end.

(** ** Populated documents

    [.populate('shop')] and [.populate('user shop')] replace a reference by
    the referenced document as it is stored at the time of the query, or by
    [null] when there is none. *)

Module PopulatedUser.
Record t := mk {
  doc : User.t;
  shop : option Shop.t
}.
End PopulatedUser.

Module PopulatedDevice.
Record t := mk {
  doc : Device.t;
  user : option User.t;
  shop : option Shop.t
}.
End PopulatedDevice.

Definition User_populate (u : User.t) (s : Store) : PopulatedUser.t :=
  PopulatedUser.mk u
    (match User.shop u with
     | Some h => Shop_findById h s
     | None => None
     end).

Definition Device_populate (d : Device.t) (s : Store) : PopulatedDevice.t :=
  PopulatedDevice.mk d (User_findById (Device.user d) s)
    (Shop_findById (Device.shop d) s).

(** Reading a property of a populated reference; a [null] reference makes
    the read throw a TypeError. *)
Definition deref {A} (prop : string) (x : option A) : M A :=
  match x with
  | Some a => ret a
  | None => throw ("Cannot read properties of null (reading '" ++ prop ++ "')")
  end.

(** [currentUser.shop._id] *)
Definition shop_id (currentUser : PopulatedUser.t) : M ObjectId :=
  h <- deref "_id" (PopulatedUser.shop currentUser) ;;
  ret (Shop._id h).

Definition default (d : string) (x : option string) : string :=
  match x with
  | Some v => v
  | None => d
  end.

(** ** controllers/deviceController.js *)

(** [{ _id: deviceId }], with [shop] added for a shop owner. *)
Definition device_filter (deviceId : ObjectId) (shopFilter : option ObjectId)
    (d : Device.t) : bool :=
  String.eqb (Device._id d) deviceId
  && match shopFilter with
     | Some h => String.eqb (Device.shop d) h
     | None => true
     end.

(** The access-control prefix shared by lockDevice and unlockDevice. *)
Definition lock_scope (currentUser : PopulatedUser.t) (denied : string)
  : M (option ObjectId) :=
  match User.role (PopulatedUser.doc currentUser) with
  | shopowner => h <- shop_id currentUser ;; ret (Some h)
  | user => reply (failure 403 denied)
  | superadmin => ret None
  end.

Definition lockDevice (currentUser : PopulatedUser.t) (deviceId : ObjectId)
    (body_reason : option string) (now : Z) : Store -> Response * Store :=
  handler "Server error while locking device"
    (let reason := default "emi_default" body_reason in
     shopFilter <- lock_scope currentUser "Access denied. Users cannot lock devices." ;;
     s <- get ;;
     match find (device_filter deviceId shopFilter) (devices s) with
     | None => reply (failure 404 "Device not found")
     | Some d =>
         let device := Device_populate d s in
         if LockStatus.isLocked (Device.lockStatus d)
         then reply (failure 400 "Device is already locked")
         else
           locked <- Device_lockDevice d reason
                       (User._id (PopulatedUser.doc currentUser)) now ;;
           u <- deref "deviceStatus" (PopulatedDevice.user device) ;;
           saved <- User_save
                      (User.with_deviceStatus
                         (DeviceStatus.mk true (Some now)
                            (DeviceStatus.lastUnlockedAt (User.deviceStatus u))
                            (Some reason))
                         u) ;;
           h <- deref "updateStatistics" (PopulatedDevice.shop device) ;;
           Shop_updateStatistics h ;;;
           ret (mkResponse 200 true "Device locked successfully"
                  (DeviceData locked saved))
     end).

Definition unlockDevice (currentUser : PopulatedUser.t) (deviceId : ObjectId)
    (now : Z) : Store -> Response * Store :=
  handler "Server error while unlocking device"
    (shopFilter <- lock_scope currentUser "Access denied. Users cannot unlock devices." ;;
     s <- get ;;
     match find (device_filter deviceId shopFilter) (devices s) with
     | None => reply (failure 404 "Device not found")
     | Some d =>
         let device := Device_populate d s in
         if negb (LockStatus.isLocked (Device.lockStatus d))
         then reply (failure 400 "Device is not locked")
         else
           unlocked <- Device_unlockDevice d now ;;
           u <- deref "deviceStatus" (PopulatedDevice.user device) ;;
           saved <- User_save
                      (User.with_deviceStatus
                         (DeviceStatus.mk false
                            (DeviceStatus.lastLockedAt (User.deviceStatus u))
                            (Some now) None)
                         u) ;;
           h <- deref "updateStatistics" (PopulatedDevice.shop device) ;;
           Shop_updateStatistics h ;;;
           ret (mkResponse 200 true "Device unlocked successfully"
                  (DeviceData unlocked saved))
     end).

(** "Check access permissions" of registerDevice: [user] is the populated
    target of the registration. *)
Definition register_access (currentUser : PopulatedUser.t) (userId : ObjectId)
    (target : PopulatedUser.t) : M unit :=
  match User.role (PopulatedUser.doc currentUser) with
  | shopowner =>
      theirs <- shop_id target ;;
      mine <- shop_id currentUser ;;
      if negb (String.eqb theirs mine)
      then reply (failure 403 "Access denied. User not in your shop.")
      else ret tt
  | user =>
      if negb (String.eqb (User._id (PopulatedUser.doc currentUser)) userId)
      then reply (failure 403
                    "Access denied. You can only register your own device.")
      else ret tt
  | superadmin => ret tt
  end.

(** [{ $or: [{ deviceId }, { imeiNumber }] }] *)
Definition same_device (deviceId imeiNumber : string) (d : Device.t) : bool :=
  String.eqb (Device.deviceId d) deviceId
  || String.eqb (Device.imeiNumber d) imeiNumber.

(** [registerDevice]. The body has passed [validateDeviceRegistration], so
    its strings are trimmed; [newId] is the ObjectId that [new Device]
    generates. *)
Definition registerDevice (currentUser : PopulatedUser.t) (userId : ObjectId)
    (deviceId imeiNumber : string) (newId : ObjectId) (now : Z)
  : Store -> Response * Store :=
  handler "Server error while registering device"
    (s <- get ;;
     match User_findById userId s with
     | None => reply (failure 404 "User not found")
     | Some found =>
         let target := User_populate found s in
         register_access currentUser userId target ;;;
         match find (same_device deviceId imeiNumber) (devices s) with
         | Some _ => reply (failure 400 "Device with this ID or IMEI already exists")
         | None =>
             h <- shop_id target ;;
             device <- Device_save
                         (Device.mk newId userId h deviceId imeiNumber
                            (LockStatus.mk false None None (Some "emi_default") None)
                            (ConnectionStatus.mk true (Some now) (Some now) "offline")
                            true) ;;
             User_save (User.with_device deviceId imeiNumber found) ;;;
             match PopulatedUser.shop target with
             | Some sh => Shop_updateStatistics sh ;;; ret tt
             | None => ret tt
             end ;;;
             ret (mkResponse 201 true "Device registered successfully"
                    (RegisteredData device))
         end
     end).

(** *** Bulk operations *)

Fixpoint for_each {A B} (l : list A) (acc : B) (body : B -> A -> M B) : M B :=
  match l with
  | [] => ret acc
  | x :: rest => acc' <- body acc x ;; for_each rest acc' body
  end.

Definition push_successful (d : Device.t) (u : User.t) (r : BulkResults)
  : BulkResults :=
  mkBulkResults
    (successful r ++ [mkBulkSuccess (Device._id d) (Device.deviceId d) (User.name u)])
    (failed r).

Definition push_failed (d : Device.t) (reason : string) (r : BulkResults)
  : BulkResults :=
  mkBulkResults (successful r)
    (failed r ++ [mkBulkFailure (Device._id d) (Device.deviceId d) reason]).

Definition show_nat (n : nat) : string :=
  NilZero.string_of_uint (Nat.to_uint n).

Definition bulk_message (verb : string) (r : BulkResults) : string :=
  "Bulk " ++ verb ++ " operation completed. "
    ++ show_nat (List.length (successful r)) ++ " devices " ++ verb ++ "ed, "
    ++ show_nat (List.length (failed r)) ++ " failed.".

(** [[...new Set(ids)]]: the distinct ids in order of first occurrence. *)
Definition Set_add (seen : list string) (x : string) : list string :=
  if mem_string x seen then seen else (seen ++ [x])%list.

Definition Set_of (ids : list string) : list string :=
  fold_left Set_add ids [].

(** [{ _id: { $in: deviceIds } }], with [shop] added for a shop owner. *)
Definition bulk_filter (deviceIds : list ObjectId) (shopFilter : option ObjectId)
    (d : Device.t) : bool :=
  mem_string (Device._id d) deviceIds
  && match shopFilter with
     | Some h => String.eqb (Device.shop d) h
     | None => true
     end.

(** The prefix shared by the two bulk handlers, up to the query. *)
Definition bulk_scope (currentUser : PopulatedUser.t) (deviceIds : list ObjectId)
  : M (list PopulatedDevice.t) :=
  match deviceIds with
  | [] => reply (failure 400 "Device IDs array is required")
  | _ =>
      shopFilter <-
        match User.role (PopulatedUser.doc currentUser) with
        | user => reply (failure 403
                           "Access denied. Users cannot perform bulk operations.")
        | shopowner => h <- shop_id currentUser ;; ret (Some h)
        | superadmin => ret None
        end ;;
      s <- get ;;
      match filter (bulk_filter deviceIds shopFilter) (devices s) with
      | [] => reply (failure 404 "No devices found")
      | found => ret (map (fun d => Device_populate d s) found)
      end
  end.

(** [d => d.shop._id.toString()], pushed on the mapped array. *)
Definition collect_shop_id (ids : list ObjectId) (d : PopulatedDevice.t)
  : M (list ObjectId) :=
  h <- deref "_id" (PopulatedDevice.shop d) ;; ret (ids ++ [Shop._id h])%list.

(** The body of [for (const shopId of shopIds)]. *)
Definition recompute_shop (_ : unit) (shopId : ObjectId) : M unit :=
  s <- get ;;
  match Shop_findById shopId s with
  | Some h => Shop_updateStatistics h ;;; ret tt
  | None => ret tt
  end.

(** "Update shop statistics for affected shops" *)
Definition update_affected_shops (found : list PopulatedDevice.t) : M unit :=
  shopIds <- for_each found [] collect_shop_id ;;
  for_each (Set_of shopIds) tt recompute_shop.

Definition bulkLock_step (currentUser : PopulatedUser.t) (reason : string)
    (now : Z) (results : BulkResults) (device : PopulatedDevice.t)
  : M BulkResults :=
  let d := PopulatedDevice.doc device in
  try_catch
    (if negb (LockStatus.isLocked (Device.lockStatus d))
     then
       Device_lockDevice d reason (User._id (PopulatedUser.doc currentUser)) now ;;;
       u <- deref "deviceStatus" (PopulatedDevice.user device) ;;
       User_save
         (User.with_deviceStatus
            (DeviceStatus.mk true (Some now)
               (DeviceStatus.lastUnlockedAt (User.deviceStatus u)) (Some reason))
            u) ;;;
       ret (push_successful d u results)
     else ret (push_failed d "Already locked" results))
    (fun msg => ret (push_failed d msg results)).

Definition bulkLockDevices (currentUser : PopulatedUser.t)
    (deviceIds : list ObjectId) (body_reason : option string) (now : Z)
  : Store -> Response * Store :=
  handler "Server error during bulk lock operation"
    (let reason := default "bulk_operation" body_reason in
     found <- bulk_scope currentUser deviceIds ;;
     results <- for_each found (mkBulkResults [] [])
                  (bulkLock_step currentUser reason now) ;;
     update_affected_shops found ;;;
     ret (mkResponse 200 true (bulk_message "lock" results) (BulkData results))).

Definition bulkUnlock_step (now : Z) (results : BulkResults)
    (device : PopulatedDevice.t) : M BulkResults :=
  let d := PopulatedDevice.doc device in
  try_catch
    (if LockStatus.isLocked (Device.lockStatus d)
     then
       Device_unlockDevice d now ;;;
       u <- deref "deviceStatus" (PopulatedDevice.user device) ;;
       User_save
         (User.with_deviceStatus
            (DeviceStatus.mk false
               (DeviceStatus.lastLockedAt (User.deviceStatus u)) (Some now) None)
            u) ;;;
       ret (push_successful d u results)
     else ret (push_failed d "Not locked" results))
    (fun msg => ret (push_failed d msg results)).

Definition bulkUnlockDevices (currentUser : PopulatedUser.t)
    (deviceIds : list ObjectId) (now : Z) : Store -> Response * Store :=
  handler "Server error during bulk unlock operation"
    (found <- bulk_scope currentUser deviceIds ;;
     results <- for_each found (mkBulkResults [] []) (bulkUnlock_step now) ;;
     update_affected_shops found ;;;
     ret (mkResponse 200 true (bulk_message "unlock" results) (BulkData results))).

(** ** middleware/auth.js *)

(** What the bearer token of a request decodes to; [jwt.verify] throws
    JsonWebTokenError or TokenExpiredError on the two middle cases. *)
Inductive Credential :=
| NoToken
| MalformedToken
| ExpiredToken
| Token (userId : ObjectId).

Definition verifyToken (credential : Credential) (path : string)
  : M PopulatedUser.t :=
  match credential with
  | NoToken => reply (failure 401 "Access denied. No token provided.")
  | MalformedToken => reply (failure 401 "Invalid token.")
  | ExpiredToken => reply (failure 401 "Token expired.")
  | Token userId =>
      s <- get ;;
      match User_findById userId s with
      | None => reply (failure 401 "Invalid token. User not found.")
      | Some u =>
          if negb (User.isActive u)
          then reply (failure 401 "Account is deactivated.")
          else if negb (String.prefix "/api/mobile" path)
                  && Role_eqb (User.role u) user
          then reply (failure 403
                        "Web platform access restricted to admin users only")
          else ret (User_populate u s)
      end
  end.

(** [authorize(...roles)]; it runs after [verifyToken], so [req.user] is set. *)
Definition authorize (roles : list Role) (reqUser : PopulatedUser.t) : M unit :=
  if existsb (Role_eqb (User.role (PopulatedUser.doc reqUser))) roles
  then ret tt
  else reply (failure 403 "Access denied. Insufficient permissions.").

(** ** middleware/validation.js *)

Definition is_hex (c : ascii) : bool :=
  let n := nat_of_ascii c in
  ((48 <=? n) && (n <=? 57) || (65 <=? n) && (n <=? 70)
   || (97 <=? n) && (n <=? 102))%nat.

Definition isMongoId (x : string) : bool :=
  (String.length x =? 24)%nat && all_chars is_hex x.

Definition validateObjectId (param : string) : M unit :=
  if isMongoId param then ret tt else reply (failure 400 "Validation failed").

Record Query := mkQuery {
  q_page : option Z;
  q_limit : option Z;
  q_search : option string;
  q_role : option string;
  q_status : option string;
  q_sortBy : option string;
  q_sortOrder : option string
}.

Definition optional {A} (ok : A -> bool) (x : option A) : bool :=
  match x with
  | Some v => ok v
  | None => true
  end.

Definition validatePagination (q : Query) : M unit :=
  if optional (fun p => 1 <=? p) (q_page q)
     && optional (fun l => (1 <=? l) && (l <=? 100)) (q_limit q)
     && optional (fun f => negb (String.eqb f "")) (q_sortBy q)
     && optional (fun o => mem_string o ["asc"; "desc"; "1"; "-1"]) (q_sortOrder q)
  then ret tt
  else reply (failure 400 "Validation failed").

(** [logActivity(action, category, description)]: the wrapped [res.json]
    writes a log entry when the status of the answer is below 400. *)
Definition logActivity (action category description : string)
    (reqUser : PopulatedUser.t) (next : Store -> Response * Store)
  : Store -> Response * Store :=
  fun s =>
    let '(r, s') := next s in
    if (status r <? 400)%nat
    then (r, set_logs
               (logs s' ++
                [ActivityLog.mk (User._id (PopulatedUser.doc reqUser))
                   (option_map Shop._id (PopulatedUser.shop reqUser))
                   action description category
                   (User._id (PopulatedUser.doc reqUser))])%list
               s')
    else (r, s').

(** Running a chain of middleware in front of a handler: a middleware that
    answers ends the request. *)
Definition middleware {A} (m : M A) (next : A -> Store -> Response * Store)
  : Store -> Response * Store :=
  fun s =>
    match m s with
    | (Value a, s') => next a s'
    | (Reply r, s') => (r, s')
    | (Throw _, s') => (failure 500 "Server error during authentication.", s')
    end.

(** ** controllers/userController.js: getUsers *)

Definition Role_name (r : Role) : string :=
  match r with
  | superadmin => "superadmin"
  | shopowner => "shopowner"
  | user => "user"
  end.

Section GetUsers.

(** [{ $regex: pattern, $options: 'i' }] on a string field, and the order
    that [.sort({ [sortBy]: direction })] puts a result in, are the
    database's. *)
Variable regex_i : string -> string -> bool.
Variable sort_users : string -> bool -> list User.t -> list User.t.

Definition getUsers_filter (currentUser : User.t) (shopFilter : option ObjectId)
    (q : Query) (u : User.t) : bool :=
  let search := default "" (q_search q) in
  let role := default "" (q_role q) in
  let status := default "" (q_status q) in
  match User.role currentUser with
  | shopowner =>
      match User.shop u, shopFilter with
      | Some h, Some mine => String.eqb h mine
      | _, _ => false
      end
  | user => String.eqb (User._id u) (User._id currentUser)
  | superadmin => true
  end
  && (if String.eqb search "" then true
      else regex_i search (User.name u) || regex_i search (User.phone u)
           || match User.email u with
              | Some e => regex_i search e
              | None => false
              end)
  && (if String.eqb role ""
      then match User.role currentUser with
           | shopowner => negb (Role_eqb (User.role u) superadmin)
           | _ => true
           end
      else String.eqb (Role_name (User.role u)) role)
  && (if String.eqb status "active" then User.isActive u
      else if String.eqb status "inactive" then negb (User.isActive u)
      else true).

Definition getUsers (currentUser : PopulatedUser.t) (q : Query)
  : Store -> Response * Store :=
  handler "Server error while fetching users"
    (let page := match q_page q with Some p => p | None => 1 end in
     let limit := match q_limit q with Some l => l | None => 20 end in
     let sortBy := default "createdAt" (q_sortBy q) in
     let sortOrder := default "desc" (q_sortOrder q) in
     shopFilter <-
       match User.role (PopulatedUser.doc currentUser) with
       | shopowner => h <- shop_id currentUser ;; ret (Some h)
       | _ => ret None
       end ;;
     s <- get ;;
     let matching :=
       filter (getUsers_filter (PopulatedUser.doc currentUser) shopFilter q)
              (users s) in
     let skip := (page - 1) * limit in
     let found :=
       firstn (Z.to_nat limit)
         (skipn (Z.to_nat skip)
            (sort_users sortBy (String.eqb sortOrder "desc") matching)) in
     let total := Z.of_nat (List.length matching) in
     let pages := (total + limit - 1) / limit in
     ret (mkResponse 200 true ""
            (UsersData found
               (mkPagination page pages total limit (page <? pages) (1 <? page))))).

(** ** routes/users.js: GET / *)
Definition users_list_route (credential : Credential) (path : string)
    (q : Query) : Store -> Response * Store :=
  middleware (verifyToken credential path) (fun reqUser =>
  middleware (validatePagination q) (fun _ =>
  logActivity "users_viewed" "user" "Viewed users list" reqUser
    (getUsers reqUser q))).

End GetUsers.

(** ** routes/devices.js *)

(** POST /:deviceId/lock *)
Definition device_lock_route (credential : Credential) (path : string)
    (deviceId : string) (body_reason : option string) (now : Z)
  : Store -> Response * Store :=
  middleware (verifyToken credential path) (fun reqUser =>
  middleware (authorize [shopowner; superadmin] reqUser) (fun _ =>
  middleware (validateObjectId deviceId) (fun _ =>
  logActivity "device_locked" "device" "Locked device" reqUser
    (lockDevice reqUser deviceId body_reason now)))).

(** POST /:deviceId/unlock *)
Definition device_unlock_route (credential : Credential) (path : string)
    (deviceId : string) (now : Z) : Store -> Response * Store :=
  middleware (verifyToken credential path) (fun reqUser =>
  middleware (authorize [shopowner; superadmin] reqUser) (fun _ =>
  middleware (validateObjectId deviceId) (fun _ =>
  logActivity "device_unlocked" "device" "Unlocked device" reqUser
    (unlockDevice reqUser deviceId now)))).

(** * More of the controllers and middleware *)

(** ** Answers with a payload

    The handlers below answer with a document; an early answer of such a
    handler is a failure without payload. *)

Record Answer (D : Type) := mkAnswer {
  a_status : nat;
  a_success : bool;
  a_message : string;
  a_data : option D
}.
Arguments mkAnswer {D} _ _ _ _.
Arguments a_status {D} _.
Arguments a_success {D} _.
Arguments a_message {D} _.
Arguments a_data {D} _.

Definition no_payload {D} (r : Response) : Answer D :=
  mkAnswer (status r) (success r) (message r) None.

(** [res.json({ success: true, data: { ... } })] *)
Definition found_payload {D} (d : D) : Answer D := mkAnswer 200 true "" (Some d).

Definition handler_of {D} (serverError : string) (body : M (Answer D))
  : Store -> Answer D * Store :=
  fun s =>
    match body s with
    | (Value a, s') => (a, s')
    | (Reply r, s') => (no_payload r, s')
    | (Throw _, s') => (no_payload (failure 500 serverError), s')
    end.

(** ** models/ActivityLog.js: createLog *)

(** The object that a controller passes to [createLog]; a field that the
    controller leaves out is [None]. *)
Record LogData := mkLogData {
  log_user : option ObjectId;
  log_shop : option ObjectId;
  log_action : string;
  log_description : string;
  log_category : string;
  log_performedBy : option ObjectId
}.

Definition action_enum : list string :=
  [ "device_locked"; "device_unlocked"; "device_registered"; "device_viewed";
    "devices_viewed"; "bulk_lock"; "bulk_unlock";
    "user_login"; "user_logout"; "user_created"; "user_updated";
    "user_deleted"; "user_viewed"; "users_viewed";
    "shop_created"; "shop_updated"; "shop_deleted"; "shop_viewed";
    "shops_viewed"; "shop_stats_viewed";
    "emi_payment"; "emi_default";
    "admin_action"; "dashboard_viewed"; "logs_viewed"; "system_health_viewed";
    "security_alert" ].

Definition category_enum : list string :=
  ["device"; "user"; "shop"; "payment"; "security"; "admin"].

(** [new this(logData)] followed by the validators of [save()]: [user],
    [action], [description], [performedBy] and [category] are required,
    [action] and [category] are enums. *)
Definition ActivityLog_new (l : LogData) : string + ActivityLog.t :=
  match log_user l, log_performedBy l with
  | None, _ => inl "ActivityLog validation failed: user: User is required"
  | _, None =>
      inl "ActivityLog validation failed: performedBy: Performed by is required"
  | Some u, Some p =>
      if String.eqb (log_action l) ""
      then inl "ActivityLog validation failed: action: Action is required"
      else if negb (mem_string (log_action l) action_enum)
      then inl "ActivityLog validation failed: action: not a valid enum value"
      else if String.eqb (log_description l) ""
      then inl "ActivityLog validation failed: description: Description is required"
      else if String.eqb (log_category l) ""
      then inl "ActivityLog validation failed: category: Category is required"
      else if negb (mem_string (log_category l) category_enum)
      then inl "ActivityLog validation failed: category: not a valid enum value"
      else inr (ActivityLog.mk u (log_shop l) (log_action l) (log_description l)
                  (log_category l) p)
  end.

(** [activityLogSchema.statics.createLog]: the error of [save()] is logged
    and thrown again. *)
Definition ActivityLog_createLog (l : LogData) : M unit :=
  match ActivityLog_new l with
  | inl msg => throw msg
  | inr entry => modify (fun s => set_logs (logs s ++ [entry])%list s)
  end.

(** ** Deleting documents *)

(** [Model.deleteMany(filter)] *)
Definition User_deleteMany (p : User.t -> bool) : M unit :=
  modify (fun s => set_users (filter (fun u => negb (p u)) (users s)) s).

Definition Device_deleteMany (p : Device.t -> bool) : M unit :=
  modify (fun s => set_devices (filter (fun d => negb (p d)) (devices s)) s).

(** [Model.findByIdAndDelete(id)] removes the document with that [_id]. *)
Fixpoint remove_first {A} (p : A -> bool) (l : list A) : list A :=
  match l with
  | [] => []
  | x :: rest => if p x then rest else x :: remove_first p rest
  end.

Definition User_findByIdAndDelete (id : ObjectId) : M unit :=
  modify (fun s => set_users (remove_first (by_id User._id id) (users s)) s).

Definition Shop_findByIdAndDelete (id : ObjectId) : M unit :=
  modify (fun s => set_shops (remove_first (by_id Shop._id id) (shops s)) s).

(** ** middleware/auth.js: ownership checks *)

(** [verifyShopOwnership]; [shopId] is [req.params.shopId]. *)
Definition verifyShopOwnership (reqUser : PopulatedUser.t) (shopId : string)
  : M unit :=
  match User.role (PopulatedUser.doc reqUser) with
  | superadmin => ret tt
  | shopowner =>
      match PopulatedUser.shop reqUser with
      | Some h =>
          if negb (String.eqb (Shop._id h) shopId)
          then reply (failure 403
                        "Access denied. You can only access your own shop.")
          else ret tt
      | None => reply (failure 403
                         "Access denied. You can only access your own shop.")
      end
  | user => reply (failure 403
                     "Access denied. Users cannot access shop management.")
  end.

(** [targetUser.shop.toString()]: the reference is not populated. *)
Definition shop_ref (u : User.t) : M ObjectId :=
  match User.shop u with
  | Some h => ret h
  | None => throw "Cannot read properties of undefined (reading 'toString')"
  end.

(** [verifyUserAccess]; [userId] is [req.params.userId]. *)
Definition verifyUserAccess (currentUser : PopulatedUser.t) (userId : string)
  : M unit :=
  try_catch
    (match User.role (PopulatedUser.doc currentUser) with
     | superadmin => ret tt
     | shopowner =>
         s <- get ;;
         match User_findById userId s with
         | None => reply (failure 404 "User not found.")
         | Some targetUser =>
             theirs <- shop_ref targetUser ;;
             mine <- shop_id currentUser ;;
             if negb (String.eqb theirs mine)
             then reply (failure 403
                           "Access denied. You can only access users in your shop.")
             else ret tt
         end
     | user =>
         if negb (String.eqb (User._id (PopulatedUser.doc currentUser)) userId)
         then reply (failure 403
                       "Access denied. You can only access your own data.")
         else ret tt
     end)
    (fun _ => reply (failure 500 "Server error during user verification.")).

(** ** controllers/userController.js: getUserById and deleteUser *)

(** [{ _id: userId }], with [shop] added for a shop owner. *)
Definition user_filter (userId : ObjectId) (shopFilter : option ObjectId)
    (u : User.t) : bool :=
  String.eqb (User._id u) userId
  && match shopFilter with
     | Some h => in_shop h u
     | None => true
     end.

Definition getUserById (currentUser : PopulatedUser.t) (userId : ObjectId)
  : Store -> Answer PopulatedUser.t * Store :=
  handler_of "Server error while fetching user"
    (shopFilter <-
       match User.role (PopulatedUser.doc currentUser) with
       | shopowner => h <- shop_id currentUser ;; ret (Some h)
       | user =>
           if negb (String.eqb (User._id (PopulatedUser.doc currentUser)) userId)
           then reply (failure 403 "Access denied")
           else ret None
       | superadmin => ret None
       end ;;
     s <- get ;;
     match find (user_filter userId shopFilter) (users s) with
     | None => reply (failure 404 "User not found")
     | Some u => ret (found_payload (User_populate u s))
     end).

Definition deleteUser (currentUser : PopulatedUser.t) (userId : ObjectId)
  : Store -> Response * Store :=
  handler "Server error while deleting user"
    (shopFilter <-
       match User.role (PopulatedUser.doc currentUser) with
       | user => reply (failure 403 "Access denied. Users cannot delete accounts.")
       | shopowner => h <- shop_id currentUser ;; ret (Some h)
       | superadmin => ret None
       end ;;
     s <- get ;;
     match find (user_filter userId shopFilter) (users s) with
     | None => reply (failure 404 "User not found")
     | Some u =>
         if Role_eqb (User.role (PopulatedUser.doc currentUser)) shopowner
            && Role_eqb (User.role u) superadmin
         then reply (failure 403 "Access denied. Cannot delete superadmin.")
         else
           Device_deleteMany (fun d => String.eqb (Device.user d) userId) ;;;
           User_findByIdAndDelete userId ;;;
           match User.shop u with
           | Some shopId => recompute_shop tt shopId
           | None => ret tt
           end ;;;
           ActivityLog_createLog
             (mkLogData (Some userId) (User.shop u) "user_deleted"
                ("User deleted: " ++ User.name u ++ " (" ++ User.phone u ++ ")")
                "user" (Some (User._id (PopulatedUser.doc currentUser)))) ;;;
           ret (mkResponse 200 true "User deleted successfully" NoData)
     end).

(** ** controllers/shopController.js: getShopById and deleteShop *)

(** The access check shared by the handlers of one shop. *)
Definition own_shop_only (currentUser : PopulatedUser.t) (shopId : string)
    (denied : string) : M unit :=
  match User.role (PopulatedUser.doc currentUser) with
  | shopowner =>
      mine <- shop_id currentUser ;;
      if negb (String.eqb mine shopId)
      then reply (failure 403 denied)
      else ret tt
  | _ => ret tt
  end.

Definition getShopById (currentUser : PopulatedUser.t) (shopId : ObjectId)
  : Store -> Answer Shop.t * Store :=
  handler_of "Server error while fetching shop"
    (own_shop_only currentUser shopId
       "Access denied. You can only view your own shop." ;;;
     s <- get ;;
     match Shop_findById shopId s with
     | None => reply (failure 404 "Shop not found")
     | Some shop =>
         refreshed <- Shop_updateStatistics shop ;;
         ret (found_payload refreshed)
     end).

Definition deleteShop (currentUser : PopulatedUser.t) (shopId : ObjectId)
  : Store -> Response * Store :=
  handler "Server error while deleting shop"
    (if negb (Role_eqb (User.role (PopulatedUser.doc currentUser)) superadmin)
     then reply (failure 403 "Access denied. Only superadmin can delete shops.")
     else
       s <- get ;;
       match Shop_findById shopId s with
       | None => reply (failure 404 "Shop not found")
       | Some shop =>
           User_deleteMany (in_shop shopId) ;;;
           Shop_findByIdAndDelete shopId ;;;
           ActivityLog_createLog
             (mkLogData None (Some shopId) "shop_deleted"
                ("Shop deleted: " ++ Shop.name shop) "shop"
                (Some (User._id (PopulatedUser.doc currentUser)))) ;;;
           ret (mkResponse 200 true "Shop deleted successfully" NoData)
       end).

(** ** controllers/deviceController.js: getDeviceById *)

(** [{ _id: deviceId }], with [shop] added for a shop owner and [user] for a
    user. *)
Definition device_view_filter (currentUser : User.t) (deviceId : ObjectId)
    (shopFilter : option ObjectId) (d : Device.t) : bool :=
  String.eqb (Device._id d) deviceId
  && match User.role currentUser with
     | shopowner =>
         match shopFilter with
         | Some h => String.eqb (Device.shop d) h
         | None => true
         end
     | user => String.eqb (Device.user d) (User._id currentUser)
     | superadmin => true
     end.

Definition getDeviceById (currentUser : PopulatedUser.t) (deviceId : ObjectId)
  : Store -> Answer PopulatedDevice.t * Store :=
  handler_of "Server error while fetching device"
    (shopFilter <-
       match User.role (PopulatedUser.doc currentUser) with
       | shopowner => h <- shop_id currentUser ;; ret (Some h)
       | _ => ret None
       end ;;
     s <- get ;;
     match find (device_view_filter (PopulatedUser.doc currentUser) deviceId
                   shopFilter) (devices s) with
     | None => reply (failure 404 "Device not found")
     | Some d => ret (found_payload (Device_populate d s))
     end).

(** ** routes/users.js: DELETE /:userId, and routes/shops.js: DELETE /:shopId *)

Definition user_delete_route (credential : Credential) (path : string)
    (userId : string) : Store -> Response * Store :=
  middleware (verifyToken credential path) (fun reqUser =>
  middleware (authorize [shopowner; superadmin] reqUser) (fun _ =>
  middleware (validateObjectId userId) (fun _ =>
  middleware (verifyUserAccess reqUser userId) (fun _ =>
  logActivity "user_deleted" "user" "Deleted user" reqUser
    (deleteUser reqUser userId))))).

Definition shop_delete_route (credential : Credential) (path : string)
    (shopId : string) : Store -> Response * Store :=
  middleware (verifyToken credential path) (fun reqUser =>
  middleware (authorize [superadmin] reqUser) (fun _ =>
  middleware (validateObjectId shopId) (fun _ =>
  logActivity "shop_deleted" "shop" "Deleted shop" reqUser
    (deleteShop reqUser shopId)))).

(** * Vocabulary of the statements *)

Definition users_of_shop (shopId : ObjectId) (s : Store) : list User.t :=
  filter (in_shop shopId) (users s).

Definition recomputed (shopId : ObjectId) (s : Store) : Statistics.t :=
  Statistics.mk
    (Z.of_nat (List.length (users_of_shop shopId s)))
    (Z.of_nat (List.length (filter User.isActive (users_of_shop shopId s))))
    (Z.of_nat (List.length
       (filter (fun u => DeviceStatus.isLocked (User.deviceStatus u))
               (users_of_shop shopId s))))
    (sumZ (map (fun u => EmiDetails.paidAmount (User.emiDetails u))
               (users_of_shop shopId s))).

Definition locked_device (d : Device.t) (reason : string) (by_ : ObjectId)
    (now : Z) : Device.t :=
  Device.with_lockStatus
    (LockStatus.mk true (Some now) (LockStatus.unlockedAt (Device.lockStatus d))
       (Some (if String.eqb reason "" then "emi_default" else reason))
       (Some by_))
    d.

Definition locked_user (u : User.t) (reason : string) (now : Z) : User.t :=
  User_preSave
    (User.with_deviceStatus
       (DeviceStatus.mk true (Some now)
          (DeviceStatus.lastUnlockedAt (User.deviceStatus u)) (Some reason))
       u).

Definition unlocked_device (d : Device.t) (now : Z) : Device.t :=
  Device.with_lockStatus
    (LockStatus.mk false (LockStatus.lockedAt (Device.lockStatus d)) (Some now)
       (LockStatus.lockReason (Device.lockStatus d))
       (LockStatus.lockedBy (Device.lockStatus d)))
    d.

Definition unlocked_user (u : User.t) (now : Z) : User.t :=
  User_preSave
    (User.with_deviceStatus
       (DeviceStatus.mk false (DeviceStatus.lastLockedAt (User.deviceStatus u))
          (Some now) None)
       u).

Inductive LockOp :=
| Lock (body_reason : option string)
| Unlock.

Definition run_op (op : LockOp) (currentUser : PopulatedUser.t)
    (deviceId : ObjectId) (now : Z) : Store -> Response * Store :=
  match op with
  | Lock body_reason => lockDevice currentUser deviceId body_reason now
  | Unlock => unlockDevice currentUser deviceId now
  end.

Definition target_state (op : LockOp) : bool :=
  match op with
  | Lock _ => true
  | Unlock => false
  end.

Definition effective_reason (body_reason : option string) : string :=
  let reason := default "emi_default" body_reason in
  if String.eqb reason "" then "emi_default" else reason.

(** The scope of a bulk request: the shop of a shop owner, everything for
    the super-administrator. *)
Definition caller_scope (cu : PopulatedUser.t) : option ObjectId :=
  match User.role (PopulatedUser.doc cu) with
  | shopowner => option_map Shop._id (PopulatedUser.shop cu)
  | _ => None
  end.

(** The devices that a bulk request processes. *)
Definition processed (cu : PopulatedUser.t) (ids : list ObjectId) (s : Store)
  : list Device.t :=
  filter (bulk_filter ids (caller_scope cu)) (devices s).


(** The answer that a user-role caller gets from the lock route. *)
Definition lock_denial (path : string) : Response :=
  if String.prefix "/api/mobile" path
  then failure 403 "Access denied. Insufficient permissions."
  else failure 403 "Web platform access restricted to admin users only".

(** The store between the two writes of a lock and the recount. *)
Definition after_lock_writes (d' : Device.t) (u' : User.t) (s : Store) : Store :=
  mkStore (upsert User._id u' (users s)) (upsert Device._id d' (devices s))
    (shops s) (logs s) (aggregations s).

(** A reason that the schema of the device accepts, as [lockDevice] stores
    it. *)
Definition reason_accepted (body_reason : option string) : bool :=
  mem_string (effective_reason body_reason) lockReason_enum.

(** What a run of the tail of lock and unlock can have written: the device
    with the requested id, then the user that owns it, then the statistics
    of a shop. *)
Definition touched_only (id : ObjectId) (s s' : Store) : Prop :=
  logs s' = logs s
  /\ map Device._id (devices s') = map Device._id (devices s)
  /\ map User._id (users s') = map User._id (users s)
  /\ map Shop._id (shops s') = map Shop._id (shops s)
  /\ (forall id', id' <> id -> Device_findById id' s' = Device_findById id' s)
  /\ (forall uid,
        (forall d, In d (devices s) -> Device._id d = id -> Device.user d <> uid) ->
        User_findById uid s' = User_findById uid s).




Definition run_bulk (op : LockOp) (currentUser : PopulatedUser.t)
    (deviceIds : list ObjectId) (now : Z) : Store -> Response * Store :=
  match op with
  | Lock body_reason => bulkLockDevices currentUser deviceIds body_reason now
  | Unlock => bulkUnlockDevices currentUser deviceIds now
  end.


Definition registered_device (newId userId shopId : ObjectId)
    (deviceId imeiNumber : string) (now : Z) : Device.t :=
  Device.mk newId userId shopId deviceId imeiNumber
    (LockStatus.mk false None None (Some "emi_default") None)
    (ConnectionStatus.mk true (Some now) (Some now) "offline") true.

Definition deletion_entry (actor : ObjectId) (u : User.t) : ActivityLog.t :=
  ActivityLog.mk (User._id u) (User.shop u) "user_deleted"
    ("User deleted: " ++ User.name u ++ " (" ++ User.phone u ++ ")")
    "user" actor.

(** The spelling in which an ObjectId is stored and printed: 24 hexadecimal
    digits in lower case. A query by [_id] casts the string of the request
    to an ObjectId before it compares; on a string in this spelling the cast
    changes nothing, so that the query compares the strings as they are.
    Another spelling of the same id (upper-case digits) is a different
    string and the same ObjectId, and a string that is no ObjectId makes the
    query throw: the statements that conclude from an id that is not among
    the stored ones are made for ids in this spelling. *)
Definition is_lower_hex (c : ascii) : bool :=
  let n := nat_of_ascii c in
  ((48 <=? n) && (n <=? 57) || (97 <=? n) && (n <=? 102))%nat.

Definition canonical (id : string) : bool :=
  (String.length id =? 24)%nat && all_chars is_lower_hex id.

(** ** A sample tenant

    One shop with five users (its owner and four customers) and two
    devices, and the super-administrator. Customers 2 and 4 are deactivated,
    customer 1 has a locked device. *)

Module Sample.
Definition shopA_id : ObjectId := "64b000000000000000000001".
Definition root_id : ObjectId := "64a000000000000000000001".
Definition owner_id : ObjectId := "64a000000000000000000002".

Definition customer_id (n : nat) : ObjectId :=
  "64c00000000000000000000" ++ show_nat n.
Definition device_id (n : nat) : ObjectId :=
  "64d00000000000000000000" ++ show_nat n.

Definition unlocked : DeviceStatus.t := DeviceStatus.mk false None None None.

Definition root : User.t :=
  User.mk root_id "Root" "9000000001" None superadmin None None None
    (EmiDetails.mk 0 0 0 0) unlocked true.

Definition owner : User.t :=
  User.mk owner_id "Asha" "9000000002" None shopowner (Some shopA_id) None None
    (EmiDetails.mk 0 0 0 0) unlocked true.

Definition customer (n : nat) (active locked : bool) (total paid : Z) : User.t :=
  User.mk (customer_id n) ("Customer " ++ show_nat n)
    ("910000000" ++ show_nat n) None user (Some shopA_id) None None
    (EmiDetails.mk total paid (total - paid) 5000)
    (DeviceStatus.mk locked (if locked then Some 100 else None) None
       (if locked then Some "emi_default" else None))
    active.

Definition customers : list User.t :=
  [ customer 1 true true 50000 10000;
    customer 2 false false 60000 12000;
    customer 3 true false 70000 14000;
    customer 4 false false 80000 16000 ].

Definition device (n : nat) (locked : bool) : Device.t :=
  Device.mk (device_id n) (customer_id n) shopA_id
    ("DEV-" ++ show_nat n) ("35693803564380" ++ show_nat n)
    (LockStatus.mk locked (if locked then Some 100 else None) None
       (Some "emi_default") (if locked then Some owner_id else None))
    (ConnectionStatus.mk true (Some 90) (Some 90) "wifi") true.

Definition shopA : Shop.t :=
  Shop.mk shopA_id "Asha Mobiles" (Statistics.mk 4 4 0 1000) true.

Definition store : Store :=
  mkStore (root :: owner :: customers) [device 1 true; device 3 false]
    [shopA] [] [].

(** The same shop when none of the users belongs to it any more. *)
Definition deserted : Store :=
  mkStore [root] [] [shopA] [] [].

Definition as_root : PopulatedUser.t := User_populate root store.
Definition as_owner : PopulatedUser.t := User_populate owner store.
End Sample.

(** ** A neighbouring tenant

    The sample tenant together with a second shop, its owner, one customer
    and one unlocked device. *)

Module Neighbour.
Definition shopB_id : ObjectId := "64b000000000000000000002".
Definition ownerB_id : ObjectId := "64a000000000000000000003".
Definition customerB_id : ObjectId := "64c000000000000000000007".
Definition deviceB_id : ObjectId := "64d000000000000000000007".

Definition ownerB : User.t :=
  User.mk ownerB_id "Bela" "9000000003" None shopowner (Some shopB_id) None None
    (EmiDetails.mk 0 0 0 0) Sample.unlocked true.

Definition customerB : User.t :=
  User.mk customerB_id "Customer 7" "9100000007" None user (Some shopB_id)
    (Some "DEV-7") (Some "356938035643807") (EmiDetails.mk 40000 8000 32000 4000)
    Sample.unlocked true.

Definition deviceB : Device.t :=
  Device.mk deviceB_id customerB_id shopB_id "DEV-7" "356938035643807"
    (LockStatus.mk false None None (Some "emi_default") None)
    (ConnectionStatus.mk true (Some 90) (Some 90) "wifi") true.

Definition shopB : Shop.t :=
  Shop.mk shopB_id "Bela Electronics" (Statistics.mk 2 2 0 8000) true.

Definition store : Store :=
  mkStore (users Sample.store ++ [ownerB; customerB])
    (devices Sample.store ++ [deviceB]) [Sample.shopA; shopB] [] [].

Definition as_root : PopulatedUser.t := User_populate Sample.root store.
Definition as_owner : PopulatedUser.t := User_populate Sample.owner store.
Definition as_ownerB : PopulatedUser.t := User_populate ownerB store.
End Neighbour.

(** A new customer who owes 1000 and has paid nothing yet; the schema
    default of [remainingAmount] is 0. *)
Definition newcomer : User.t :=
  User.mk "64c000000000000000000009" "Newcomer" "9100000009" None user
    (Some Sample.shopA_id) None None (EmiDetails.mk 1000 0 0 100)
    Sample.unlocked true.

(** * Properties *)

(** ** Collections *)

Section Collections.
Context {A : Type} (key : A -> ObjectId).

Lemma find_by_id_key (id : ObjectId) (l : list A) (x : A) :
  find (by_id key id) l = Some x -> key x = id.
Proof.
  intros H. apply find_some in H. destruct H as [_ H].
  now apply String.eqb_eq in H.
Qed.

Lemma find_upsert_same (doc : A) (l : list A) :
  find (by_id key (key doc)) (upsert key doc l) = Some doc.
Proof.
  induction l as [|x l IH]; simpl.
  - unfold by_id. now rewrite String.eqb_refl.
  - destruct (String.eqb (key x) (key doc)) eqn:E; simpl.
    + unfold by_id. now rewrite String.eqb_refl.
    + unfold by_id at 1. now rewrite E.
Qed.

Lemma find_upsert_other (id : ObjectId) (doc : A) (l : list A) :
  key doc <> id ->
  find (by_id key id) (upsert key doc l) = find (by_id key id) l.
Proof.
  intros Hne. induction l as [|x l IH]; simpl.
  - unfold by_id. apply String.eqb_neq in Hne. now rewrite Hne.
  - destruct (String.eqb (key x) (key doc)) eqn:E; simpl.
    + apply String.eqb_eq in E. unfold by_id.
      rewrite E. apply String.eqb_neq in Hne. now rewrite Hne.
    + now rewrite IH.
Qed.

Lemma upsert_stored (doc : A) (l : list A) :
  find (by_id key (key doc)) l = Some doc -> upsert key doc l = l.
Proof.
  induction l as [|x l IH]; simpl; [discriminate|].
  unfold by_id at 1. destruct (String.eqb (key x) (key doc)) eqn:E.
  - now intros [= ->].
  - intros H. now rewrite IH.
Qed.

Lemma find_upsert_is_some (id : ObjectId) (doc : A) (l : list A) :
  find (by_id key id) l <> None -> find (by_id key id) (upsert key doc l) <> None.
Proof.
  intros H. destruct (String.eqb (key doc) id) eqn:E.
  - apply String.eqb_eq in E. subst id. now rewrite find_upsert_same.
  - apply String.eqb_neq in E. now rewrite find_upsert_other.
Qed.
End Collections.

(** ** Counting *)

Lemma or0_id (n : Z) : or0 n = n.
Proof.
  unfold or0, truthy. destruct (n =? 0) eqn:E; simpl; [|reflexivity].
  apply Z.eqb_eq in E. now subst.
Qed.

Lemma sumZ_ones {A} (l : list A) :
  sumZ (map (fun _ => 1) l) = Z.of_nat (List.length l).
Proof.
  induction l as [|x l IH]; [reflexivity|].
  cbn [map sumZ fold_right List.length]. fold (sumZ (map (fun _ : A => 1) l)).
  rewrite IH. lia.
Qed.

Lemma sumZ_count {A} (p : A -> bool) (l : list A) :
  sumZ (map (fun x => b2z (p x)) l) = Z.of_nat (List.length (filter p l)).
Proof.
  induction l as [|x l IH]; [reflexivity|].
  cbn [map sumZ fold_right filter].
  fold (sumZ (map (fun x => b2z (p x)) l)). rewrite IH.
  destruct (p x); cbn [b2z List.length]; lia.
Qed.

Lemma filter_negb_length {A} (p : A -> bool) (l : list A) :
  (List.length (filter p l) + List.length (filter (fun x => negb (p x)) l)
   = List.length l)%nat.
Proof.
  induction l as [|x l IH]; [reflexivity|].
  cbn [filter]. destruct (p x); cbn [negb List.length]; lia.
Qed.

(** ** The statistics aggregator *)

Lemma User_aggregate_eq (shopId : ObjectId) (s : Store) :
  User_aggregate shopId s =
    match users_of_shop shopId s with
    | [] => []
    | _ => [recomputed shopId s]
    end.
Proof.
  unfold User_aggregate, recomputed, users_of_shop.
  destruct (filter (in_shop shopId) (users s)) as [|u us]; [reflexivity|].
  now rewrite sumZ_ones, !sumZ_count.
Qed.

Lemma Shop_updateStatistics_some (this : Shop.t) (s : Store) :
  users_of_shop (Shop._id this) s <> [] ->
  Shop_updateStatistics this s =
    (Value (Shop.with_statistics (recomputed (Shop._id this) s) this),
     mkStore (users s) (devices s)
       (upsert Shop._id
          (Shop.with_statistics (recomputed (Shop._id this) s) this) (shops s))
       (logs s) (aggregations s ++ [Shop._id this])).
Proof.
  intros Hne.
  unfold Shop_updateStatistics, bind, modify, get, Shop_save.
  cbn [aggregations users set_aggregations].
  assert (E : User_aggregate (Shop._id this)
                (mkStore (users s) (devices s) (shops s) (logs s)
                   (aggregations s ++ [Shop._id this]))
              = [recomputed (Shop._id this) s]).
  { rewrite User_aggregate_eq. unfold recomputed, users_of_shop in *.
    cbn [users]. destruct (filter _ (users s)); [congruence|reflexivity]. }
  unfold set_aggregations. rewrite E.
  destruct (recomputed (Shop._id this) s) as [a b c d].
  cbn [Statistics.totalUsers Statistics.activeUsers Statistics.lockedDevices
       Statistics.totalRevenue].
  rewrite !or0_id. reflexivity.
Qed.

Lemma Shop_updateStatistics_none (this : Shop.t) (s : Store) :
  users_of_shop (Shop._id this) s = [] ->
  Shop_updateStatistics this s =
    (Value this,
     mkStore (users s) (devices s) (upsert Shop._id this (shops s))
       (logs s) (aggregations s ++ [Shop._id this])).
Proof.
  intros He.
  unfold Shop_updateStatistics, bind, modify, get, Shop_save.
  assert (E : User_aggregate (Shop._id this)
                (set_aggregations (aggregations s ++ [Shop._id this]) s) = []).
  { rewrite User_aggregate_eq. unfold users_of_shop in *. cbn [users set_aggregations].
    now rewrite He. }
  rewrite E. reflexivity.
Qed.

(** ** Shop statistics *)

(** C7. A shop with five users, two of them deactivated and one with a
    locked device: [updateStatistics] persists
    [{totalUsers: 5, activeUsers: 3, lockedDevices: 1, totalRevenue: sum of
    the users' paidAmount}] as the statistics of the shop. *)
Theorem C7_recompute_five_users (this : Shop.t) (s : Store) :
  let mine := users_of_shop (Shop._id this) s in
  List.length mine = 5%nat ->
  List.length (filter (fun u => negb (User.isActive u)) mine) = 2%nat ->
  List.length (filter (fun u => DeviceStatus.isLocked (User.deviceStatus u)) mine)
    = 1%nat ->
  exists saved s',
    Shop_updateStatistics this s = (Value saved, s')
    /\ Shop_findById (Shop._id this) s' = Some saved
    /\ Shop.statistics saved =
         Statistics.mk 5 3 1
           (sumZ (map (fun u => EmiDetails.paidAmount (User.emiDetails u)) mine)).
Proof.
  intros mine Hall Hinactive Hlocked.
  assert (Hne : mine <> []) by (intros E; rewrite E in Hall; discriminate).
  eexists. eexists. split; [apply Shop_updateStatistics_some; exact Hne|].
  split.
  - unfold Shop_findById. cbn [shops].
    exact (find_upsert_same Shop._id
             (Shop.with_statistics (recomputed (Shop._id this) s) this) (shops s)).
  - cbn [Shop.statistics Shop.with_statistics]. unfold recomputed.
    fold mine. rewrite Hall, Hlocked.
    pose proof (filter_negb_length User.isActive mine) as Hsplit.
    rewrite Hinactive, Hall in Hsplit.
    replace (List.length (filter User.isActive mine)) with 3%nat by lia.
    reflexivity.
Qed.

Lemma C7_recompute_five_users_witness :
  exists saved s',
    Shop_updateStatistics Sample.shopA Sample.store = (Value saved, s')
    /\ Shop_findById Sample.shopA_id s' = Some saved
    /\ Shop.statistics saved = Statistics.mk 5 3 1 52000.
Proof.
  exact (C7_recompute_five_users Sample.shopA Sample.store
           eq_refl eq_refl eq_refl).
Defined.

(** C10. When [updateStatistics] runs for a shop that no user belongs to,
    the stored shop, its statistics included, stays exactly as it was: the
    snapshot is written back, not reset to zeros. *)
Theorem C10_no_users_keeps_snapshot (this : Shop.t) (s : Store) :
  Shop_findById (Shop._id this) s = Some this ->
  users_of_shop (Shop._id this) s = [] ->
  exists s',
    Shop_updateStatistics this s = (Value this, s')
    /\ shops s' = shops s
    /\ Shop_findById (Shop._id this) s' = Some this
    /\ users s' = users s /\ devices s' = devices s.
Proof.
  intros Hstored Hnone.
  eexists. split; [apply Shop_updateStatistics_none; exact Hnone|].
  assert (E : upsert Shop._id this (shops s) = shops s)
    by (apply upsert_stored; exact Hstored).
  unfold Shop_findById. cbn [shops users devices]. rewrite E.
  repeat split; try reflexivity. exact Hstored.
Qed.

Lemma C10_no_users_keeps_snapshot_witness :
  exists s',
    Shop_updateStatistics Sample.shopA Sample.deserted = (Value Sample.shopA, s')
    /\ shops s' = [Sample.shopA]
    /\ Shop_findById Sample.shopA_id s' = Some Sample.shopA
    /\ users s' = users Sample.deserted /\ devices s' = devices Sample.deserted.
Proof.
  exact (C10_no_users_keeps_snapshot Sample.shopA Sample.deserted
           eq_refl eq_refl).
Defined.

(** ** Saving a user: the remaining amount *)

Lemma User_preSave_id (u : User.t) : User._id (User_preSave u) = User._id u.
Proof. unfold User_preSave. now destruct (_ && _). Qed.

Lemma User_preSave_deviceStatus (u : User.t) :
  User.deviceStatus (User_preSave u) = User.deviceStatus u.
Proof. unfold User_preSave. now destruct (_ && _). Qed.

Lemma User_save_eq (this : User.t) (s : Store) :
  User_save this s =
    (Value (User_preSave this),
     set_users (upsert User._id (User_preSave this) (users s)) s).
Proof. reflexivity. Qed.

Lemma User_save_stored (this : User.t) (s : Store) :
  User_findById (User._id this) (snd (User_save this s))
  = Some (User_preSave this).
Proof.
  rewrite User_save_eq. unfold User_findById. cbn [snd users set_users].
  rewrite <- (User_preSave_id this).
  exact (find_upsert_same User._id (User_preSave this) (users s)).
Qed.

(** When both amounts are non-zero the hook does recompute. *)
Lemma User_save_recomputes (this : User.t) (s : Store) :
  EmiDetails.totalAmount (User.emiDetails this) <> 0 ->
  EmiDetails.paidAmount (User.emiDetails this) <> 0 ->
  EmiDetails.remainingAmount (User.emiDetails (User_preSave this))
  = EmiDetails.totalAmount (User.emiDetails this)
    - EmiDetails.paidAmount (User.emiDetails this).
Proof.
  intros Ht Hp. unfold User_preSave, truthy.
  apply Z.eqb_neq in Ht, Hp. now rewrite Ht, Hp.
Qed.

(** C4. What the code does where the claim fails: when [totalAmount] or
    [paidAmount] is zero the pre-save hook is skipped, and the user is
    persisted with the [remainingAmount] it had before, whatever
    [totalAmount - paidAmount] is. *)
Theorem C4_zero_amount_skips_recomputation (this : User.t) (s : Store) :
  EmiDetails.totalAmount (User.emiDetails this) = 0
  \/ EmiDetails.paidAmount (User.emiDetails this) = 0 ->
  exists saved s',
    User_save this s = (Value saved, s')
    /\ User_findById (User._id this) s' = Some saved
    /\ EmiDetails.remainingAmount (User.emiDetails saved)
       = EmiDetails.remainingAmount (User.emiDetails this).
Proof.
  intros Hzero.
  exists (User_preSave this), (snd (User_save this s)).
  split; [reflexivity|]. split; [apply User_save_stored|].
  unfold User_preSave, truthy.
  destruct Hzero as [-> | ->]; cbn [Z.eqb negb andb]; [reflexivity|].
  now rewrite andb_false_r.
Qed.

Lemma C4_zero_amount_skips_recomputation_witness :
  exists saved s',
    User_save newcomer Sample.store = (Value saved, s')
    /\ User_findById (User._id newcomer) s' = Some saved
    /\ EmiDetails.remainingAmount (User.emiDetails saved) = 0.
Proof.
  exact (C4_zero_amount_skips_recomputation newcomer Sample.store
           (or_intror eq_refl)).
Defined.

(** The persisted [remainingAmount] of the newcomer is not
    [totalAmount - paidAmount]. *)
Lemma newcomer_remaining_wrong :
  let saved := fst (User_save newcomer Sample.store) in
  saved = Value (User_preSave newcomer)
  /\ EmiDetails.remainingAmount (User.emiDetails (User_preSave newcomer)) = 0
  /\ EmiDetails.totalAmount (User.emiDetails (User_preSave newcomer))
     - EmiDetails.paidAmount (User.emiDetails (User_preSave newcomer)) = 1000.
Proof. repeat split. Qed.

(** ** Steps of the handlers *)

Lemma Shop_updateStatistics_frame (this : Shop.t) (s : Store) :
  exists saved,
    Shop_updateStatistics this s =
      (Value saved,
       mkStore (users s) (devices s) (upsert Shop._id saved (shops s))
         (logs s) (aggregations s ++ [Shop._id this]))
    /\ Shop._id saved = Shop._id this.
Proof.
  destruct (users_of_shop (Shop._id this) s) as [|u us] eqn:E.
  - exists this. split; [now apply Shop_updateStatistics_none|reflexivity].
  - eexists. split; [apply Shop_updateStatistics_some; congruence|reflexivity].
Qed.

Lemma Device_save_cases (this : Device.t) (s : Store) :
  (Device_save this s = (Value this, set_devices (upsert Device._id this (devices s)) s)
   /\ Device_validate this = None)
  \/ exists msg, Device_save this s = (Throw msg, s).
Proof.
  unfold Device_save. destruct (Device_validate this) as [msg|].
  - right. now exists msg.
  - unfold bind, get, modify, throw, ret.
    destruct (Device_unique_clash this s).
    + right. eexists. reflexivity.
    + left. now split.
Qed.

Lemma lock_scope_cases (cu : PopulatedUser.t) (denied : string) (s : Store) :
  (exists f, lock_scope cu denied s = (Value f, s)
             /\ User.role (PopulatedUser.doc cu) <> user)
  \/ (lock_scope cu denied s = (Reply (failure 403 denied), s)
      /\ User.role (PopulatedUser.doc cu) = user)
  \/ (exists msg, lock_scope cu denied s = (Throw msg, s)).
Proof.
  unfold lock_scope, shop_id, deref, bind, ret, reply, throw.
  destruct (User.role (PopulatedUser.doc cu)) eqn:R.
  - left. eexists. split; [reflexivity|discriminate].
  - destruct (PopulatedUser.shop cu).
    + left. eexists. split; [reflexivity|discriminate].
    + right. right. eexists. reflexivity.
  - right. left. now split.
Qed.

(** What a lock that answers 200 has found and written. *)
Lemma lockDevice_200 (cu : PopulatedUser.t) (id : ObjectId)
    (body_reason : option string) (now : Z) (s s' : Store) (r : Response) :
  lockDevice cu id body_reason now s = (r, s') ->
  status r = 200%nat ->
  exists f d u h saved,
    let reason := default "emi_default" body_reason in
    let d' := locked_device d reason (User._id (PopulatedUser.doc cu)) now in
    find (device_filter id f) (devices s) = Some d
    /\ lock_scope cu "Access denied. Users cannot lock devices." s = (Value f, s)
    /\ LockStatus.isLocked (Device.lockStatus d) = false
    /\ User_findById (Device.user d) s = Some u
    /\ Shop_findById (Device.shop d) s = Some h
    /\ Device_validate d' = None
    /\ r = mkResponse 200 true "Device locked successfully"
             (DeviceData d' (locked_user u reason now))
    /\ s' = mkStore (upsert User._id (locked_user u reason now) (users s))
              (upsert Device._id d' (devices s))
              (upsert Shop._id saved (shops s))
              (logs s) (aggregations s ++ [Shop._id h]).
Proof.
  unfold lockDevice, handler, bind at 1.
  destruct (lock_scope_cases cu "Access denied. Users cannot lock devices." s)
    as [[f [Hscope _]] | [[-> _] | [msg ->]]];
    [rewrite Hscope | intros [= <- <-]; discriminate | intros [= <- <-]; discriminate].
  unfold bind at 1, get.
  destruct (find (device_filter id f) (devices s)) as [d|] eqn:Hfind;
    [| intros [= <- <-]; discriminate].
  destruct (LockStatus.isLocked (Device.lockStatus d)) eqn:Hlocked;
    [intros [= <- <-]; discriminate|].
  unfold bind at 1, Device_lockDevice.
  fold (locked_device d (default "emi_default" body_reason)
          (User._id (PopulatedUser.doc cu)) now).
  destruct (Device_save_cases
              (locked_device d (default "emi_default" body_reason)
                 (User._id (PopulatedUser.doc cu)) now) s)
    as [[-> Hvalid] | [msg ->]]; [| intros [= <- <-]; discriminate].
  unfold bind at 1, deref. cbn [Device_populate PopulatedDevice.user PopulatedDevice.shop].
  destruct (User_findById (Device.user d) s) as [u|] eqn:Hu;
    [| intros [= <- <-]; discriminate].
  unfold ret at 1. unfold bind at 1. rewrite User_save_eq.
  fold (locked_user u (default "emi_default" body_reason) now).
  unfold bind at 1.
  destruct (Shop_findById (Device.shop d) s) as [h|] eqn:Hh;
    [| intros [= <- <-]; discriminate].
  unfold ret at 1. unfold bind at 1.
  match goal with
  | |- context [Shop_updateStatistics h ?st] =>
      destruct (Shop_updateStatistics_frame h st) as [saved [-> _]]
  end.
  unfold ret. intros [= <- <-] _.
  exists f, d, u, h, saved. cbn zeta. repeat split; assumption.
Qed.

(** What an unlock that answers 200 has found and written. *)
Lemma unlockDevice_200 (cu : PopulatedUser.t) (id : ObjectId) (now : Z)
    (s s' : Store) (r : Response) :
  unlockDevice cu id now s = (r, s') ->
  status r = 200%nat ->
  exists f d u h saved,
    find (device_filter id f) (devices s) = Some d
    /\ lock_scope cu "Access denied. Users cannot unlock devices." s = (Value f, s)
    /\ LockStatus.isLocked (Device.lockStatus d) = true
    /\ User_findById (Device.user d) s = Some u
    /\ Shop_findById (Device.shop d) s = Some h
    /\ r = mkResponse 200 true "Device unlocked successfully"
             (DeviceData (unlocked_device d now) (unlocked_user u now))
    /\ s' = mkStore (upsert User._id (unlocked_user u now) (users s))
              (upsert Device._id (unlocked_device d now) (devices s))
              (upsert Shop._id saved (shops s))
              (logs s) (aggregations s ++ [Shop._id h]).
Proof.
  unfold unlockDevice, handler, bind at 1.
  destruct (lock_scope_cases cu "Access denied. Users cannot unlock devices." s)
    as [[f [Hscope _]] | [[-> _] | [msg ->]]];
    [rewrite Hscope | intros [= <- <-]; discriminate | intros [= <- <-]; discriminate].
  unfold bind at 1, get.
  destruct (find (device_filter id f) (devices s)) as [d|] eqn:Hfind;
    [| intros [= <- <-]; discriminate].
  destruct (LockStatus.isLocked (Device.lockStatus d)) eqn:Hlocked;
    cbn [negb]; [| intros [= <- <-]; discriminate].
  unfold bind at 1, Device_unlockDevice. fold (unlocked_device d now).
  destruct (Device_save_cases (unlocked_device d now) s)
    as [[-> Hvalid] | [msg ->]]; [| intros [= <- <-]; discriminate].
  unfold bind at 1, deref.
  cbn [Device_populate PopulatedDevice.user PopulatedDevice.shop].
  destruct (User_findById (Device.user d) s) as [u|] eqn:Hu;
    [| intros [= <- <-]; discriminate].
  unfold ret at 1. unfold bind at 1. rewrite User_save_eq.
  fold (unlocked_user u now).
  unfold bind at 1.
  destruct (Shop_findById (Device.shop d) s) as [h|] eqn:Hh;
    [| intros [= <- <-]; discriminate].
  unfold ret at 1. unfold bind at 1.
  match goal with
  | |- context [Shop_updateStatistics h ?st] =>
      destruct (Shop_updateStatistics_frame h st) as [saved [-> _]]
  end.
  unfold ret. intros [= <- <-] _.
  exists f, d, u, h, saved. repeat split; assumption.
Qed.

Lemma device_filter_id (id : ObjectId) (f : option ObjectId) (l : list Device.t)
    (d : Device.t) :
  find (device_filter id f) l = Some d -> Device._id d = id.
Proof.
  intros H. apply find_some in H. destruct H as [_ H].
  unfold device_filter in H. apply andb_true_iff in H.
  now apply String.eqb_eq.
Qed.

Lemma stored_after_upsert_device (d : Device.t) (us : list User.t)
    (ds : list Device.t) (hs : list Shop.t) (ls : list ActivityLog.t)
    (ag : list ObjectId) :
  Device_findById (Device._id d) (mkStore us (upsert Device._id d ds) hs ls ag)
  = Some d.
Proof. exact (find_upsert_same Device._id d ds). Qed.

Lemma stored_after_upsert_user (u : User.t) (us : list User.t)
    (ds : list Device.t) (hs : list Shop.t) (ls : list ActivityLog.t)
    (ag : list ObjectId) :
  User_findById (User._id u) (mkStore (upsert User._id u us) ds hs ls ag)
  = Some u.
Proof. exact (find_upsert_same User._id u us). Qed.

Lemma locked_user_id (u : User.t) (reason : string) (now : Z) :
  User._id (locked_user u reason now) = User._id u.
Proof. unfold locked_user. now rewrite User_preSave_id. Qed.

Lemma unlocked_user_id (u : User.t) (now : Z) :
  User._id (unlocked_user u now) = User._id u.
Proof. unfold unlocked_user. now rewrite User_preSave_id. Qed.

(** ** Single lock and unlock *)

(** C1. After a single lock or unlock that completes successfully, the
    stored device and the stored user that owns it carry the same
    [isLocked]: [lockStatus.isLocked] of the device equals
    [deviceStatus.isLocked] of the user, both being the state the operation
    moves to. *)
Theorem C1_lock_state_mirrored (op : LockOp) (cu : PopulatedUser.t)
    (id : ObjectId) (now : Z) (s s' : Store) (r : Response) :
  run_op op cu id now s = (r, s') ->
  status r = 200%nat ->
  exists d u,
    Device_findById id s' = Some d
    /\ User_findById (Device.user d) s' = Some u
    /\ LockStatus.isLocked (Device.lockStatus d)
       = DeviceStatus.isLocked (User.deviceStatus u)
    /\ LockStatus.isLocked (Device.lockStatus d) = target_state op.
Proof.
  destruct op as [body_reason|]; cbn [run_op target_state]; intros Hrun Hok.
  - destruct (lockDevice_200 _ _ _ _ _ _ _ Hrun Hok)
      as (f & d & u & h & saved & Hfind & _ & _ & Hu & _ & _ & _ & ->).
    pose proof (device_filter_id _ _ _ _ Hfind) as Hid.
    pose proof (find_by_id_key User._id _ _ _ Hu) as Huid.
    eexists. eexists. split; [|split; [|split]].
    + rewrite <- Hid. apply (stored_after_upsert_device (locked_device d _ _ now)).
    + cbn [locked_device Device.user Device.with_lockStatus].
      rewrite <- Huid.
      rewrite <- (locked_user_id u (default "emi_default" body_reason) now).
      apply stored_after_upsert_user.
    + unfold locked_user. now rewrite User_preSave_deviceStatus.
    + reflexivity.
  - destruct (unlockDevice_200 _ _ _ _ _ _ Hrun Hok)
      as (f & d & u & h & saved & Hfind & _ & _ & Hu & _ & _ & ->).
    pose proof (device_filter_id _ _ _ _ Hfind) as Hid.
    pose proof (find_by_id_key User._id _ _ _ Hu) as Huid.
    eexists. eexists. split; [|split; [|split]].
    + rewrite <- Hid. apply (stored_after_upsert_device (unlocked_device d now)).
    + cbn [unlocked_device Device.user Device.with_lockStatus].
      rewrite <- Huid.
      rewrite <- (unlocked_user_id u now).
      apply stored_after_upsert_user.
    + unfold unlocked_user. now rewrite User_preSave_deviceStatus.
    + reflexivity.
Qed.

Lemma C1_lock_state_mirrored_witness :
  let locked := run_op (Lock None) Sample.as_owner (Sample.device_id 3) 200
                  Sample.store in
  let unlocked := run_op Unlock Sample.as_root (Sample.device_id 1) 300
                    Sample.store in
  (exists d u,
     Device_findById (Sample.device_id 3) (snd locked) = Some d
     /\ User_findById (Device.user d) (snd locked) = Some u
     /\ LockStatus.isLocked (Device.lockStatus d)
        = DeviceStatus.isLocked (User.deviceStatus u)
     /\ LockStatus.isLocked (Device.lockStatus d) = true)
  /\ (exists d u,
     Device_findById (Sample.device_id 1) (snd unlocked) = Some d
     /\ User_findById (Device.user d) (snd unlocked) = Some u
     /\ LockStatus.isLocked (Device.lockStatus d)
        = DeviceStatus.isLocked (User.deviceStatus u)
     /\ LockStatus.isLocked (Device.lockStatus d) = false).
Proof.
  split.
  - apply (C1_lock_state_mirrored (Lock None) Sample.as_owner
             (Sample.device_id 3) 200 Sample.store _
             (fst (run_op (Lock None) Sample.as_owner (Sample.device_id 3) 200
                     Sample.store)));
      vm_compute; reflexivity.
  - apply (C1_lock_state_mirrored Unlock Sample.as_root
             (Sample.device_id 1) 300 Sample.store _
             (fst (run_op Unlock Sample.as_root (Sample.device_id 1) 300
                     Sample.store)));
      vm_compute; reflexivity.
Defined.

(** ** Lock followed by unlock *)

Lemma lock_scope_value (cu : PopulatedUser.t) (denied denied' : string)
    (s s0 s1 : Store) (f : option ObjectId) :
  lock_scope cu denied s = (Value f, s0) ->
  lock_scope cu denied' s1 = (Value f, s1).
Proof.
  unfold lock_scope, shop_id, deref, bind, ret, reply, throw.
  destruct (User.role (PopulatedUser.doc cu)); try discriminate.
  - now intros [= <- _].
  - destruct (PopulatedUser.shop cu); [|discriminate]. now intros [= <- _].
Qed.

Lemma find_filter_upsert (id : ObjectId) (f : option ObjectId)
    (l : list Device.t) (d d' : Device.t) :
  find (device_filter id f) l = Some d ->
  device_filter id f d' = true ->
  find (device_filter id f) (upsert Device._id d' l) = Some d'.
Proof.
  intros Hfind Hd'.
  assert (Hid' : Device._id d' = id).
  { unfold device_filter in Hd'. apply andb_true_iff in Hd'.
    now apply String.eqb_eq. }
  induction l as [|x l IH]; [discriminate|].
  cbn [find upsert] in *.
  destruct (String.eqb (Device._id x) (Device._id d')) eqn:E.
  - cbn [find]. now rewrite Hd'.
  - cbn [find]. destruct (device_filter id f x) eqn:Hx.
    + exfalso. unfold device_filter in Hx. apply andb_true_iff in Hx.
      destruct Hx as [Hx _]. apply String.eqb_eq in Hx.
      apply String.eqb_neq in E. congruence.
    + now apply IH.
Qed.

Lemma find_stored_id (p : Device.t -> bool) (l : list Device.t) (d : Device.t) :
  find p l = Some d ->
  existsb (fun x => String.eqb (Device._id x) (Device._id d)) l = true.
Proof.
  intros H. apply find_some in H. apply existsb_exists.
  exists d. split; [tauto|apply String.eqb_refl].
Qed.

Lemma Device_save_stored (this : Device.t) (s : Store) :
  Device_validate this = None ->
  existsb (fun x => String.eqb (Device._id x) (Device._id this)) (devices s) = true ->
  Device_save this s
  = (Value this, set_devices (upsert Device._id this (devices s)) s).
Proof.
  intros Hvalid Hstored. unfold Device_save, Device_unique_clash.
  rewrite Hvalid. unfold bind, get. now rewrite Hstored.
Qed.

(** An unlock whose preconditions hold answers 200. *)
Lemma unlockDevice_runs (cu : PopulatedUser.t) (id : ObjectId) (now : Z)
    (s : Store) (f : option ObjectId) (d : Device.t) (u : User.t) (h : Shop.t) :
  lock_scope cu "Access denied. Users cannot unlock devices." s = (Value f, s) ->
  find (device_filter id f) (devices s) = Some d ->
  LockStatus.isLocked (Device.lockStatus d) = true ->
  Device_validate d = None ->
  User_findById (Device.user d) s = Some u ->
  Shop_findById (Device.shop d) s = Some h ->
  exists saved,
    unlockDevice cu id now s =
      (mkResponse 200 true "Device unlocked successfully"
         (DeviceData (unlocked_device d now) (unlocked_user u now)),
       mkStore (upsert User._id (unlocked_user u now) (users s))
         (upsert Device._id (unlocked_device d now) (devices s))
         (upsert Shop._id saved (shops s))
         (logs s) (aggregations s ++ [Shop._id h])).
Proof.
  intros Hscope Hfind Hlocked Hvalid Hu Hh.
  unfold unlockDevice, handler, bind at 1. rewrite Hscope.
  unfold bind at 1, get. rewrite Hfind, Hlocked. cbn [negb].
  unfold bind at 1, Device_unlockDevice. fold (unlocked_device d now).
  rewrite Device_save_stored;
    [| exact Hvalid | exact (find_stored_id _ _ _ Hfind)].
  unfold bind at 1, deref.
  cbn [Device_populate PopulatedDevice.user PopulatedDevice.shop].
  rewrite Hu. unfold ret at 1. unfold bind at 1. rewrite User_save_eq.
  fold (unlocked_user u now). unfold bind at 1. rewrite Hh.
  unfold ret at 1. unfold bind at 1.
  match goal with
  | |- context [Shop_updateStatistics h ?st] =>
      destruct (Shop_updateStatistics_frame h st) as [saved [-> _]]
  end.
  exists saved. reflexivity.
Qed.

(** An unlock of a device that is not locked answers 400 and writes nothing. *)
Lemma unlockDevice_not_locked (cu : PopulatedUser.t) (id : ObjectId) (now : Z)
    (s : Store) (f : option ObjectId) (d : Device.t) :
  lock_scope cu "Access denied. Users cannot unlock devices." s = (Value f, s) ->
  find (device_filter id f) (devices s) = Some d ->
  LockStatus.isLocked (Device.lockStatus d) = false ->
  unlockDevice cu id now s = (failure 400 "Device is not locked", s).
Proof.
  intros Hscope Hfind Hlocked.
  unfold unlockDevice, handler, bind at 1. rewrite Hscope.
  unfold bind at 1, get. now rewrite Hfind, Hlocked.
Qed.

(** After a lock that answered 200, the same caller's unlock answers 200;
    the stored device is then unlocked with [unlockedAt] set, and still
    carries the reason of the lock, while the reason of the user is null. *)
Lemma unlock_after_lock (cu : PopulatedUser.t) (id : ObjectId)
    (body_reason : option string) (t1 t2 : Z) (s s1 : Store) (r1 : Response) :
  lockDevice cu id body_reason t1 s = (r1, s1) ->
  status r1 = 200%nat ->
  exists r2 s2 d u,
    unlockDevice cu id t2 s1 = (r2, s2)
    /\ status r2 = 200%nat
    /\ Device_findById id s2 = Some d
    /\ LockStatus.isLocked (Device.lockStatus d) = false
    /\ LockStatus.unlockedAt (Device.lockStatus d) = Some t2
    /\ LockStatus.lockReason (Device.lockStatus d)
       = Some (effective_reason body_reason)
    /\ User_findById (Device.user d) s2 = Some u
    /\ DeviceStatus.isLocked (User.deviceStatus u) = false
    /\ DeviceStatus.lockReason (User.deviceStatus u) = None.
Proof.
  intros Hrun Hok.
  destruct (lockDevice_200 _ _ _ _ _ _ _ Hrun Hok)
    as (f & d & u & h & saved & Hfind & Hscope & _ & Hu & Hh & Hvalid & _ & ->).
  set (reason := default "emi_default" body_reason) in *.
  set (d' := locked_device d reason (User._id (PopulatedUser.doc cu)) t1) in *.
  set (u' := locked_user u reason t1) in *.
  pose proof (device_filter_id _ _ _ _ Hfind) as Hid.
  pose proof (find_by_id_key User._id _ _ _ Hu) as Huid.
  assert (Hfilter : device_filter id f d' = true)
    by (apply find_some in Hfind; tauto).
  set (s1 := mkStore (upsert User._id u' (users s))
               (upsert Device._id d' (devices s))
               (upsert Shop._id saved (shops s)) (logs s)
               (aggregations s ++ [Shop._id h])).
  assert (Hu1 : User_findById (Device.user d') s1 = Some u').
  { change (Device.user d') with (Device.user d). rewrite <- Huid.
    rewrite <- (locked_user_id u reason t1). apply stored_after_upsert_user. }
  destruct (Shop_findById (Device.shop d') s1) as [h1|] eqn:Hh1.
  2:{ exfalso. revert Hh1. unfold Shop_findById, s1. cbn [shops].
      apply (find_upsert_is_some Shop._id (Device.shop d) saved (shops s)).
      unfold Shop_findById in Hh. now rewrite Hh. }
  destruct (unlockDevice_runs cu id t2 s1 f d' u' h1) as [saved2 Hun].
  - exact (lock_scope_value _ _ _ _ _ _ _ Hscope).
  - exact (find_filter_upsert id f (devices s) d d' Hfind Hfilter).
  - reflexivity.
  - exact Hvalid.
  - exact Hu1.
  - exact Hh1.
  - eexists. eexists. exists (unlocked_device d' t2), (unlocked_user u' t2).
    split; [exact Hun|]. split; [reflexivity|].
    split; [rewrite <- Hid; apply (stored_after_upsert_device (unlocked_device d' t2))|].
    split; [reflexivity|]. split; [reflexivity|]. split; [reflexivity|].
    split.
    + change (Device.user (unlocked_device d' t2)) with (Device.user d).
      rewrite <- Huid, <- (locked_user_id u reason t1 : User._id u' = User._id u).
      rewrite <- (unlocked_user_id u' t2). apply stored_after_upsert_user.
    + unfold unlocked_user. rewrite User_preSave_deviceStatus. now split.
Qed.

(** A second unlock in a row answers 400 and writes nothing. *)
Lemma unlock_twice (cu : PopulatedUser.t) (id : ObjectId) (t1 t2 : Z)
    (s s1 : Store) (r1 : Response) :
  unlockDevice cu id t1 s = (r1, s1) ->
  status r1 = 200%nat ->
  unlockDevice cu id t2 s1 = (failure 400 "Device is not locked", s1).
Proof.
  intros Hrun Hok.
  destruct (unlockDevice_200 _ _ _ _ _ _ Hrun Hok)
    as (f & d & u & h & saved & Hfind & Hscope & _ & _ & _ & _ & ->).
  apply (unlockDevice_not_locked cu id t2 _ f (unlocked_device d t1)).
  - exact (lock_scope_value _ _ _ _ _ _ _ Hscope).
  - apply (find_filter_upsert id f (devices s) d (unlocked_device d t1) Hfind).
    apply find_some in Hfind. tauto.
  - reflexivity.
Qed.

(** C2. What lock followed immediately by unlock leaves. The device is back
    to [isLocked = false] with [unlockedAt] set, but it still carries the
    [lockReason] of the lock, where the claim states null; the same request
    resets the [deviceStatus.lockReason] of the owning user to null, so that
    the two copies of the lock state disagree: the method [unlockDevice] of
    the device misses the reset that the controller makes on the user. The other half
    of the claim holds: an unlock of an unlocked device in the caller's
    scope answers 400 "Device is not locked" and leaves the store as it was,
    and so does the second of two unlocks in a row. *)
Theorem C2_lock_unlock_keeps_reason :
  (forall (cu : PopulatedUser.t) (id : ObjectId) (body_reason : option string)
          (t1 t2 : Z) (s s1 : Store) (r1 : Response),
      lockDevice cu id body_reason t1 s = (r1, s1) ->
      status r1 = 200%nat ->
      exists r2 s2 d u,
        unlockDevice cu id t2 s1 = (r2, s2)
        /\ status r2 = 200%nat
        /\ Device_findById id s2 = Some d
        /\ LockStatus.isLocked (Device.lockStatus d) = false
        /\ LockStatus.unlockedAt (Device.lockStatus d) = Some t2
        /\ LockStatus.lockReason (Device.lockStatus d)
           = Some (effective_reason body_reason)
        /\ User_findById (Device.user d) s2 = Some u
        /\ DeviceStatus.lockReason (User.deviceStatus u) = None)
  /\ (forall (cu : PopulatedUser.t) (id : ObjectId) (now : Z) (s : Store)
             (f : option ObjectId) (d : Device.t),
      lock_scope cu "Access denied. Users cannot unlock devices." s = (Value f, s) ->
      find (device_filter id f) (devices s) = Some d ->
      LockStatus.isLocked (Device.lockStatus d) = false ->
      unlockDevice cu id now s = (failure 400 "Device is not locked", s))
  /\ (forall (cu : PopulatedUser.t) (id : ObjectId) (t1 t2 : Z) (s s1 : Store)
             (r1 : Response),
      unlockDevice cu id t1 s = (r1, s1) ->
      status r1 = 200%nat ->
      unlockDevice cu id t2 s1 = (failure 400 "Device is not locked", s1)).
Proof.
  split; [|split; [exact unlockDevice_not_locked | exact unlock_twice]].
  - intros cu id body_reason t1 t2 s s1 r1 Hrun Hok.
    destruct (unlock_after_lock cu id body_reason t1 t2 s s1 r1 Hrun Hok)
      as (r2 & s2 & d & u & H1 & H2 & H3 & H4 & H5 & H6 & H7 & _ & H9).
    exists r2, s2, d, u. repeat split; assumption.
Qed.

Lemma C2_lock_unlock_keeps_reason_witness :
  let locked := lockDevice Sample.as_owner (Sample.device_id 3) None 200
                  Sample.store in
  (exists r2 s2 d u,
      unlockDevice Sample.as_owner (Sample.device_id 3) 300 (snd locked) = (r2, s2)
      /\ status r2 = 200%nat
      /\ Device_findById (Sample.device_id 3) s2 = Some d
      /\ LockStatus.isLocked (Device.lockStatus d) = false
      /\ LockStatus.unlockedAt (Device.lockStatus d) = Some 300
      /\ LockStatus.lockReason (Device.lockStatus d) = Some "emi_default"
      /\ User_findById (Device.user d) s2 = Some u
      /\ DeviceStatus.lockReason (User.deviceStatus u) = None)
  /\ unlockDevice Sample.as_owner (Sample.device_id 3) 300 Sample.store
     = (failure 400 "Device is not locked", Sample.store).
Proof.
  split.
  - apply (proj1 C2_lock_unlock_keeps_reason Sample.as_owner
             (Sample.device_id 3) None 200 300 Sample.store _
             (fst (lockDevice Sample.as_owner (Sample.device_id 3) None 200
                     Sample.store)));
      vm_compute; reflexivity.
  - apply (proj1 (proj2 C2_lock_unlock_keeps_reason) Sample.as_owner
             (Sample.device_id 3) 300 Sample.store (Some Sample.shopA_id)
             (Sample.device 3 false));
      vm_compute; reflexivity.
Defined.

(** On the sample tenant: the owner locks device 3 without giving a reason
    and unlocks it again; the stored device is unlocked, but its
    [lockReason] is "emi_default", not null. *)
Lemma C2_counterexample :
  let locked := lockDevice Sample.as_owner (Sample.device_id 3) None 200
                  Sample.store in
  let unlocked := unlockDevice Sample.as_owner (Sample.device_id 3) 300
                    (snd locked) in
  status (fst locked) = 200%nat
  /\ status (fst unlocked) = 200%nat
  /\ option_map (fun d => LockStatus.isLocked (Device.lockStatus d))
       (Device_findById (Sample.device_id 3) (snd unlocked)) = Some false
  /\ option_map (fun d => LockStatus.lockReason (Device.lockStatus d))
       (Device_findById (Sample.device_id 3) (snd unlocked))
     = Some (Some "emi_default")
  /\ option_map (fun d => LockStatus.lockReason (Device.lockStatus d))
       (Device_findById (Sample.device_id 3) (snd unlocked))
     <> Some None.
Proof. vm_compute. repeat split; discriminate. Qed.

(** ** Bulk operations *)




















(** On the sample tenant both devices belong to one shop, and the batch adds
    one recomputation. *)
Example bulk_lock_sample_recomputes_once :
  aggregations
    (snd (bulkLockDevices Sample.as_root
            [Sample.device_id 1; Sample.device_id 3] (Some "manual_lock") 200
            Sample.store))
  = [Sample.shopA_id].
Proof. vm_compute. reflexivity. Qed.

(** The statistics of the sample shop are stale before the batch; after it
    they count device 3, which the batch has locked, among the locked
    devices. *)
Example bulk_lock_sample_recount :
  option_map Shop.statistics (Shop_findById Sample.shopA_id Sample.store)
  = Some (Statistics.mk 4 4 0 1000)
  /\ option_map Shop.statistics
       (Shop_findById Sample.shopA_id
          (snd (bulkLockDevices Sample.as_root
                  [Sample.device_id 1; Sample.device_id 3] (Some "manual_lock")
                  200 Sample.store)))
     = Some (Statistics.mk 5 3 2 52000).
Proof. split; vm_compute; reflexivity. Qed.

(** *** The default reason of a bulk lock *)








(** The failing request on the sample tenant, evaluated: device 1 is already
    locked, device 3 is not; the owner sends no reason. *)
Example bulk_lock_sample_default_reason :
  data (fst (bulkLockDevices Sample.as_owner
               [Sample.device_id 1; Sample.device_id 3] None 200 Sample.store))
  = BulkData
      (mkBulkResults []
         [ mkBulkFailure (Sample.device_id 1) "DEV-1" "Already locked";
           mkBulkFailure (Sample.device_id 3) "DEV-3"
             "Device validation failed: lockStatus.lockReason: `bulk_operation` is not a valid enum value for path `lockStatus.lockReason`." ]).
Proof. vm_compute. reflexivity. Qed.

(** With a reason that the schema accepts the same request gives the result
    that the claim describes. *)
Example bulk_lock_sample_valid_reason :
  data (fst (bulkLockDevices Sample.as_owner
               [Sample.device_id 1; Sample.device_id 3] (Some "manual_lock") 200
               Sample.store))
  = BulkData
      (mkBulkResults
         [ mkBulkSuccess (Sample.device_id 3) "DEV-3" "Customer 3" ]
         [ mkBulkFailure (Sample.device_id 1) "DEV-1" "Already locked" ]).
Proof. vm_compute. reflexivity. Qed.

(** ** Registering a device *)

Lemma register_access_frame (cu : PopulatedUser.t) (userId : ObjectId)
    (target : PopulatedUser.t) (s : Store) :
  snd (register_access cu userId target s) = s
  /\ forall r, fst (register_access cu userId target s) = Reply r ->
               status r = 403%nat.
Proof.
  unfold register_access, shop_id, deref, bind, ret, reply, throw.
  destruct (User.role (PopulatedUser.doc cu)).
  - split; [reflexivity|discriminate].
  - destruct (PopulatedUser.shop target); [|split; [reflexivity|discriminate]].
    destruct (PopulatedUser.shop cu); [|split; [reflexivity|discriminate]].
    destruct (negb _); (split; [reflexivity|]); cbn [fst];
      [now intros r [= <-] | discriminate].
  - destruct (negb _); (split; [reflexivity|]); cbn [fst];
      [now intros r [= <-] | discriminate].
Qed.

(** C8. Registering a device whose [deviceId] or [imeiNumber] is that of a
    stored device fails and writes nothing: no device is created and no
    user or shop is modified. When the user to register for exists and the
    caller passes the access check, the answer is the duplicate conflict,
    status 400. *)
Theorem C8_duplicate_device_rejected (cu : PopulatedUser.t) (userId : ObjectId)
    (deviceId imeiNumber : string) (newId : ObjectId) (now : Z) (s : Store)
    (existing : Device.t) :
  In existing (devices s) ->
  Device.deviceId existing = deviceId \/ Device.imeiNumber existing = imeiNumber ->
  exists r,
    registerDevice cu userId deviceId imeiNumber newId now s = (r, s)
    /\ status r <> 201%nat
    /\ forall u,
         User_findById userId s = Some u ->
         register_access cu userId (User_populate u s) s = (Value tt, s) ->
         r = failure 400 "Device with this ID or IMEI already exists".
Proof.
  intros Hin Hsame.
  assert (Hdup : find (same_device deviceId imeiNumber) (devices s) <> None).
  { intros Hnone. apply (find_none _ _ Hnone) in Hin.
    unfold same_device in Hin. apply orb_false_iff in Hin.
    destruct Hin as [H1 H2]. apply String.eqb_neq in H1, H2. tauto. }
  unfold registerDevice, handler, bind at 1, get.
  destruct (User_findById userId s) as [u|] eqn:Hu.
  2:{ eexists. split; [reflexivity|]. split; [discriminate|discriminate]. }
  unfold bind at 1.
  destruct (register_access_frame cu userId (User_populate u s) s) as [Hs Hr].
  destruct (register_access cu userId (User_populate u s) s)
    as [[[]|r0|msg] s0] eqn:Hacc;
    cbn [snd fst] in Hs, Hr; subst s0.
  - destruct (find (same_device deviceId imeiNumber) (devices s)); [|congruence].
    eexists. split; [reflexivity|]. split; [discriminate|].
    now intros u' [= <-] _.
  - exists r0. split; [reflexivity|]. split.
    + rewrite (Hr r0 eq_refl). discriminate.
    + intros u' [= <-] Hpass. rewrite Hacc in Hpass. discriminate.
  - eexists. split; [reflexivity|]. split; [discriminate|].
    intros u' [= <-] Hpass. rewrite Hacc in Hpass. discriminate.
Qed.

Lemma C8_duplicate_device_rejected_witness :
  exists r,
    registerDevice Sample.as_owner (Sample.customer_id 2) "DEV-1"
      "490154203237518" "64d000000000000000000002" 200 Sample.store
    = (r, Sample.store)
    /\ status r <> 201%nat
    /\ forall u,
         User_findById (Sample.customer_id 2) Sample.store = Some u ->
         register_access Sample.as_owner (Sample.customer_id 2)
           (User_populate u Sample.store) Sample.store = (Value tt, Sample.store) ->
         r = failure 400 "Device with this ID or IMEI already exists".
Proof.
  apply (C8_duplicate_device_rejected Sample.as_owner (Sample.customer_id 2)
           "DEV-1" "490154203237518" "64d000000000000000000002" 200 Sample.store
           (Sample.device 1 true)).
  - left. reflexivity.
  - left. reflexivity.
Defined.

(** On the sample tenant the owner is within scope, and the answer is the
    conflict, whether the clash is on the device id or on the IMEI. *)
Example register_duplicate_sample :
  registerDevice Sample.as_owner (Sample.customer_id 2) "DEV-1"
    "490154203237518" "64d000000000000000000002" 200 Sample.store
  = (failure 400 "Device with this ID or IMEI already exists", Sample.store)
  /\ registerDevice Sample.as_owner (Sample.customer_id 2) "DEV-2"
       "356938035643803" "64d000000000000000000002" 200 Sample.store
     = (failure 400 "Device with this ID or IMEI already exists", Sample.store).
Proof. split; vm_compute; reflexivity. Qed.

(** Without a clash the registration goes through, so the rejection above
    is due to the duplicate. *)
Example register_fresh_sample :
  status (fst (registerDevice Sample.as_owner (Sample.customer_id 2) "DEV-2"
                 "490154203237518" "64d000000000000000000002" 200 Sample.store))
  = 201%nat.
Proof. vm_compute. reflexivity. Qed.

(** ** Access control at the routes *)

Lemma verifyToken_user_role (userId : ObjectId) (path : string) (s : Store)
    (u : User.t) :
  User_findById userId s = Some u ->
  User.isActive u = true ->
  User.role u = user ->
  verifyToken (Token userId) path s =
    if String.prefix "/api/mobile" path
    then (Value (User_populate u s), s)
    else (Reply (failure 403 "Web platform access restricted to admin users only"), s).
Proof.
  intros Hu Hactive Hrole. unfold verifyToken, bind, get.
  rewrite Hu, Hactive, Hrole. cbn [negb Role_eqb andb].
  now destruct (String.prefix "/api/mobile" path).
Qed.

(** C9. An authenticated (known, active) caller of role [user] who calls
    lock gets 403 for every device id, and nothing is written. The answer
    depends on the request path only: it is the same for every content of
    the device collection, so whether the device exists or not. The
    controller function itself denies a user-role caller before it queries
    the devices. *)
Theorem C9_user_lock_denied (userId : ObjectId) (path deviceId : string)
    (body_reason : option string) (now : Z) (s : Store) (u : User.t) :
  User_findById userId s = Some u ->
  User.isActive u = true ->
  User.role u = user ->
  status (lock_denial path) = 403%nat
  /\ (forall ds : list Device.t,
        device_lock_route (Token userId) path deviceId body_reason now
          (set_devices ds s)
        = (lock_denial path, set_devices ds s))
  /\ (forall (shop : option Shop.t) (ds : list Device.t),
        lockDevice (PopulatedUser.mk u shop) deviceId body_reason now
          (set_devices ds s)
        = (failure 403 "Access denied. Users cannot lock devices.",
           set_devices ds s)).
Proof.
  intros Hu Hactive Hrole. split; [|split].
  - unfold lock_denial. now destruct (String.prefix "/api/mobile" path).
  - intros ds. unfold device_lock_route, middleware at 1.
    rewrite (verifyToken_user_role userId path (set_devices ds s) u Hu Hactive Hrole).
    unfold lock_denial. destruct (String.prefix "/api/mobile" path); [|reflexivity].
    unfold middleware at 1, authorize.
    cbn [User_populate PopulatedUser.doc]. rewrite Hrole. reflexivity.
  - intros shop ds. unfold lockDevice, handler, bind at 1, lock_scope.
    cbn [PopulatedUser.doc]. rewrite Hrole. reflexivity.
Qed.

Lemma C9_user_lock_denied_witness :
  status (lock_denial "/64d000000000000000000003/lock") = 403%nat
  /\ (forall ds : list Device.t,
        device_lock_route (Token (Sample.customer_id 3))
          "/64d000000000000000000003/lock" (Sample.device_id 3) None 200
          (set_devices ds Sample.store)
        = (lock_denial "/64d000000000000000000003/lock",
           set_devices ds Sample.store))
  /\ (forall (shop : option Shop.t) (ds : list Device.t),
        lockDevice
          (PopulatedUser.mk (Sample.customer 3 true false 70000 14000) shop)
          (Sample.device_id 3) None 200 (set_devices ds Sample.store)
        = (failure 403 "Access denied. Users cannot lock devices.",
           set_devices ds Sample.store)).
Proof.
  apply (C9_user_lock_denied (Sample.customer_id 3)
           "/64d000000000000000000003/lock" (Sample.device_id 3) None 200
           Sample.store (Sample.customer 3 true false 70000 14000));
    reflexivity.
Defined.

(** The two runs of the scenario: device 3 exists in the first and not in
    the second. *)
Example lock_denied_with_and_without_device :
  fst (device_lock_route (Token (Sample.customer_id 3))
         "/64d000000000000000000003/lock" (Sample.device_id 3) None 200
         Sample.store)
  = fst (device_lock_route (Token (Sample.customer_id 3))
           "/64d000000000000000000003/lock" (Sample.device_id 3) None 200
           (set_devices [] Sample.store)).
Proof. vm_compute. reflexivity. Qed.

(** *** Listing users *)

Lemma In_firstn {A} (n : nat) (l : list A) (x : A) :
  In x (firstn n l) -> In x l.
Proof.
  revert l. induction n as [|n IH]; intros [|y l]; cbn; try tauto.
  intros [-> | H]; [now left | right; now apply IH].
Qed.

Lemma In_skipn {A} (n : nat) (l : list A) (x : A) :
  In x (skipn n l) -> In x l.
Proof.
  revert l. induction n as [|n IH]; intros [|y l]; cbn; try tauto.
  intros H. right. now apply IH.
Qed.

Section ListUsers.
Variable regex_i : string -> string -> bool.
Variable sort_users : string -> bool -> list User.t -> list User.t.

(** The filter that [getUsers] builds for a user-role caller selects
    records with the caller's [_id] only. *)
Lemma getUsers_filter_self (currentUser : User.t) (f : option ObjectId)
    (q : Query) (x : User.t) :
  User.role currentUser = user ->
  getUsers_filter regex_i currentUser f q x = true ->
  User._id x = User._id currentUser.
Proof.
  intros Hrole. unfold getUsers_filter. rewrite Hrole.
  intros H. repeat (apply andb_true_iff in H; destruct H as [H _]).
  now apply String.eqb_eq.
Qed.

(** C3, as the code has it. For an authenticated, active caller of role
    [user], a list-users request on a path outside [/api/mobile] is
    answered 403 by [verifyToken]; [getUsers] does not run and nothing is
    written. [getUsers] itself, given a user-role caller, returns records
    of the caller only. *)
Theorem C3_user_list_stopped_at_gate (userId : ObjectId) (path : string)
    (q : Query) (s : Store) (u : User.t) :
  User_findById userId s = Some u ->
  User.isActive u = true ->
  User.role u = user ->
  String.prefix "/api/mobile" path = false ->
  users_list_route regex_i sort_users (Token userId) path q s
  = (failure 403 "Web platform access restricted to admin users only", s)
  /\ ((forall by_ desc l x, In x (sort_users by_ desc l) -> In x l) ->
      exists found pagination,
        getUsers regex_i sort_users (User_populate u s) q s
        = (mkResponse 200 true "" (UsersData found pagination), s)
        /\ forall x, In x found -> User._id x = User._id u /\ In x (users s)).
Proof.
  intros Hu Hactive Hrole Hpath. split.
  - unfold users_list_route, middleware at 1.
    rewrite (verifyToken_user_role userId path s u Hu Hactive Hrole), Hpath.
    reflexivity.
  - intros Hsort. unfold getUsers, handler, bind at 1.
    cbn [User_populate PopulatedUser.doc]. rewrite Hrole.
    cbn [ret]. unfold bind, get, ret.
    eexists. eexists. split; [reflexivity|].
    intros x Hx. apply In_firstn, In_skipn, Hsort, filter_In in Hx.
    destruct Hx as [Hin Hx]. split; [|exact Hin].
    now apply (getUsers_filter_self u None q x Hrole).
Qed.
End ListUsers.

Lemma C3_user_list_stopped_at_gate_witness :
  users_list_route (fun _ _ => false) (fun _ _ l => l)
    (Token (Sample.customer_id 3)) "/"
    (mkQuery None None None None None None None) Sample.store
  = (failure 403 "Web platform access restricted to admin users only",
     Sample.store)
  /\ ((forall (by_ : string) (desc : bool) (l : list User.t) (x : User.t),
         In x l -> In x l) ->
      exists found pagination,
        getUsers (fun _ _ => false) (fun _ _ l => l)
          (User_populate (Sample.customer 3 true false 70000 14000) Sample.store)
          (mkQuery None None None None None None None) Sample.store
        = (mkResponse 200 true "" (UsersData found pagination), Sample.store)
        /\ forall x, In x found ->
             User._id x = User._id (Sample.customer 3 true false 70000 14000)
             /\ In x (users Sample.store)).
Proof.
  apply (C3_user_list_stopped_at_gate (fun _ _ => false) (fun _ _ l => l)
           (Sample.customer_id 3) "/"
           (mkQuery None None None None None None None) Sample.store
           (Sample.customer 3 true false 70000 14000));
    reflexivity.
Defined.

(** The claim as stated fails on the sample tenant: customer 3, active and
    authenticated, asks for the list of users and is denied with 403; no
    record is returned. *)
Lemma C3_counterexample :
  let answer :=
    fst (users_list_route (fun _ _ => false) (fun _ _ l => l)
           (Token (Sample.customer_id 3)) "/"
           (mkQuery None None None None None None None) Sample.store) in
  User_findById (Sample.customer_id 3) Sample.store
  = Some (Sample.customer 3 true false 70000 14000)
  /\ status answer = 403%nat
  /\ success answer = false
  /\ data answer = NoData
  /\ status answer <> 200%nat.
Proof. vm_compute. repeat split; discriminate. Qed.

(** * Further properties of the code *)

(** ** The lock engine: scope, rejected transitions, frame *)

Lemma find_all_false {A} (p : A -> bool) (l : list A) :
  (forall x, In x l -> p x = false) -> find p l = None.
Proof.
  induction l as [|x l IH]; intros H; [reflexivity|].
  cbn [find]. rewrite (H x (or_introl eq_refl)).
  apply IH. intros y Hy. apply H. now right.
Qed.

Lemma lock_scope_owner (cu : PopulatedUser.t) (h : Shop.t) (denied : string)
    (s : Store) :
  User.role (PopulatedUser.doc cu) = shopowner ->
  PopulatedUser.shop cu = Some h ->
  lock_scope cu denied s = (Value (Some (Shop._id h)), s).
Proof.
  intros Hrole Hshop. unfold lock_scope, shop_id, deref, bind, ret.
  now rewrite Hrole, Hshop.
Qed.

Lemma lock_scope_root (cu : PopulatedUser.t) (denied : string) (s : Store) :
  User.role (PopulatedUser.doc cu) = superadmin ->
  lock_scope cu denied s = (Value None, s).
Proof. intros Hrole. unfold lock_scope. now rewrite Hrole. Qed.

(** X1. A shop owner who locks or unlocks, by an id in the canonical
    spelling of an ObjectId, a device that no device of the owner's shop
    carries gets 404 "Device not found" and writes nothing; a device of
    another shop is answered like a device that does not exist. *)
Theorem lock_outside_own_shop_not_found (cu : PopulatedUser.t) (h : Shop.t)
    (id : ObjectId) (body_reason : option string) (now : Z) (s : Store) :
  canonical id = true ->
  User.role (PopulatedUser.doc cu) = shopowner ->
  PopulatedUser.shop cu = Some h ->
  (forall d, In d (devices s) -> Device._id d = id ->
             Device.shop d <> Shop._id h) ->
  lockDevice cu id body_reason now s = (failure 404 "Device not found", s)
  /\ unlockDevice cu id now s = (failure 404 "Device not found", s).
Proof.
  intros _ Hrole Hshop Hout.
  assert (Hnone : find (device_filter id (Some (Shop._id h))) (devices s) = None).
  { apply find_all_false. intros d Hd. unfold device_filter.
    destruct (String.eqb (Device._id d) id) eqn:E; [|reflexivity].
    apply String.eqb_eq in E. cbn [andb].
    apply String.eqb_neq. now apply Hout. }
  split.
  - unfold lockDevice, handler, bind at 1.
    rewrite (lock_scope_owner cu h _ s Hrole Hshop).
    unfold bind, get. now rewrite Hnone.
  - unfold unlockDevice, handler, bind at 1.
    rewrite (lock_scope_owner cu h _ s Hrole Hshop).
    unfold bind, get. now rewrite Hnone.
Qed.

Lemma lock_outside_own_shop_not_found_witness :
  lockDevice Neighbour.as_owner Neighbour.deviceB_id None 200 Neighbour.store
  = (failure 404 "Device not found", Neighbour.store)
  /\ unlockDevice Neighbour.as_owner Neighbour.deviceB_id 200 Neighbour.store
     = (failure 404 "Device not found", Neighbour.store).
Proof.
  apply (lock_outside_own_shop_not_found Neighbour.as_owner Sample.shopA
           Neighbour.deviceB_id None 200 Neighbour.store eq_refl eq_refl
           eq_refl).
  intros d Hd Hid. vm_compute in Hd.
  destruct Hd as [<- | [<- | [<- | []]]]; vm_compute in Hid |- *;
    discriminate.
Defined.

Lemma lockDevice_already_locked (cu : PopulatedUser.t) (id : ObjectId)
    (body_reason : option string) (now : Z) (s : Store) (f : option ObjectId)
    (d : Device.t) :
  lock_scope cu "Access denied. Users cannot lock devices." s = (Value f, s) ->
  find (device_filter id f) (devices s) = Some d ->
  LockStatus.isLocked (Device.lockStatus d) = true ->
  lockDevice cu id body_reason now s
  = (failure 400 "Device is already locked", s).
Proof.
  intros Hscope Hfind Hlocked.
  unfold lockDevice, handler, bind at 1. rewrite Hscope.
  unfold bind at 1, get. now rewrite Hfind, Hlocked.
Qed.

(** X2. A lock that follows a successful lock of the same device is rejected
    with 400 "Device is already locked", whatever reason it gives, and
    writes nothing. *)
Theorem lock_twice_rejected (cu : PopulatedUser.t) (id : ObjectId)
    (reason1 reason2 : option string) (t1 t2 : Z) (s s1 : Store)
    (r1 : Response) :
  lockDevice cu id reason1 t1 s = (r1, s1) ->
  status r1 = 200%nat ->
  lockDevice cu id reason2 t2 s1 = (failure 400 "Device is already locked", s1).
Proof.
  intros Hrun Hok.
  destruct (lockDevice_200 _ _ _ _ _ _ _ Hrun Hok)
    as (f & d & u & h & saved & Hfind & Hscope & _ & _ & _ & _ & _ & ->).
  apply (lockDevice_already_locked cu id reason2 t2 _ f
           (locked_device d (default "emi_default" reason1)
              (User._id (PopulatedUser.doc cu)) t1)).
  - exact (lock_scope_value _ _ _ _ _ _ _ Hscope).
  - apply (find_filter_upsert id f (devices s) d _ Hfind).
    apply find_some in Hfind. tauto.
  - reflexivity.
Qed.

Lemma lock_twice_rejected_witness :
  lockDevice Sample.as_owner (Sample.device_id 3) (Some "maintenance") 300
    (snd (lockDevice Sample.as_owner (Sample.device_id 3) None 200 Sample.store))
  = (failure 400 "Device is already locked",
     snd (lockDevice Sample.as_owner (Sample.device_id 3) None 200 Sample.store)).
Proof.
  apply (lock_twice_rejected Sample.as_owner (Sample.device_id 3) None
           (Some "maintenance") 200 300 Sample.store _
           (fst (lockDevice Sample.as_owner (Sample.device_id 3) None 200
                   Sample.store)));
    vm_compute; reflexivity.
Defined.

Lemma Device_validate_rejects_reason (d : Device.t) (reason : string)
    (by_ : ObjectId) (now : Z) :
  reason <> "" ->
  mem_string reason lockReason_enum = false ->
  exists msg, Device_validate (locked_device d reason by_ now) = Some msg.
Proof.
  intros Hne Hout. unfold Device_validate, locked_device.
  cbn [Device.deviceId Device.imeiNumber Device.lockStatus Device.with_lockStatus
       LockStatus.lockReason].
  destruct (String.eqb (Device.deviceId d) ""); [eexists; reflexivity|].
  destruct (String.eqb (Device.imeiNumber d) ""); [eexists; reflexivity|].
  destruct (negb (imei_valid (Device.imeiNumber d))); [eexists; reflexivity|].
  apply String.eqb_neq in Hne. rewrite Hne, Hout. eexists. reflexivity.
Qed.

(** X3. A lock whose reason is a non-empty string outside the enum of
    [lockStatus.lockReason] ends in 500 "Server error while locking device":
    the save of the device is rejected, and neither the device nor the user
    nor the shop is written. *)
Theorem lock_unknown_reason_server_error (cu : PopulatedUser.t) (id : ObjectId)
    (reason : string) (now : Z) (s : Store) (f : option ObjectId)
    (d : Device.t) :
  lock_scope cu "Access denied. Users cannot lock devices." s = (Value f, s) ->
  find (device_filter id f) (devices s) = Some d ->
  LockStatus.isLocked (Device.lockStatus d) = false ->
  reason <> "" ->
  mem_string reason lockReason_enum = false ->
  lockDevice cu id (Some reason) now s
  = (failure 500 "Server error while locking device", s).
Proof.
  intros Hscope Hfind Hlocked Hne Hout.
  unfold lockDevice, handler, bind at 1. rewrite Hscope.
  unfold bind at 1, get. rewrite Hfind, Hlocked.
  unfold bind at 1, Device_lockDevice, Device_save. cbn [default].
  fold (locked_device d reason (User._id (PopulatedUser.doc cu)) now).
  destruct (Device_validate_rejects_reason d reason
              (User._id (PopulatedUser.doc cu)) now Hne Hout) as [msg ->].
  reflexivity.
Qed.

Lemma lock_unknown_reason_server_error_witness :
  lockDevice Sample.as_owner (Sample.device_id 3) (Some "bulk_operation") 200
    Sample.store
  = (failure 500 "Server error while locking device", Sample.store).
Proof.
  apply (lock_unknown_reason_server_error Sample.as_owner (Sample.device_id 3)
           "bulk_operation" 200 Sample.store (Some Sample.shopA_id)
           (Sample.device 3 false));
    try reflexivity; discriminate.
Defined.

Lemma map_key_upsert {A} (key : A -> ObjectId) (doc : A) (l : list A) :
  existsb (by_id key (key doc)) l = true ->
  map key (upsert key doc l) = map key l.
Proof.
  induction l as [|x l IH]; cbn [existsb upsert map]; [discriminate|].
  unfold by_id at 1. destruct (String.eqb (key x) (key doc)) eqn:E.
  - intros _. apply String.eqb_eq in E. cbn [map]. now rewrite E.
  - cbn [orb map]. intros H. now rewrite IH.
Qed.

Lemma find_existsb {A} (p : A -> bool) (l : list A) (x : A) :
  find p l = Some x -> existsb p l = true.
Proof.
  intros H. apply find_some in H. apply existsb_exists. now exists x.
Qed.

Lemma touched_only_refl (id : ObjectId) (s : Store) : touched_only id s s.
Proof. repeat split; reflexivity. Qed.

(** The writes of lock and unlock, whatever the rest of the handler does. *)
Lemma lock_tail_touches (id : ObjectId) (f : option ObjectId) (s : Store)
    (d d' : Device.t) (mirror : User.t -> User.t)
    (serverError : string) (r : Response) (s' : Store)
    (respond : Device.t -> User.t -> Response) :
  find (device_filter id f) (devices s) = Some d ->
  Device._id d' = Device._id d ->
  (forall u, User._id (mirror u) = User._id u) ->
  handler serverError
    (locked <- Device_save d' ;;
     u <- deref "deviceStatus" (PopulatedDevice.user (Device_populate d s)) ;;
     saved <- User_save (mirror u) ;;
     h <- deref "updateStatistics" (PopulatedDevice.shop (Device_populate d s)) ;;
     Shop_updateStatistics h ;;;
     ret (respond locked saved)) s = (r, s') ->
  touched_only id s s'.
Proof.
  intros Hfind Hid' Hmirror.
  pose proof (device_filter_id _ _ _ _ Hfind) as Hid.
  assert (Hin : In d (devices s)) by (apply find_some in Hfind; tauto).
  assert (Hdev : forall id', id' <> id ->
            find (by_id Device._id id') (upsert Device._id d' (devices s))
            = find (by_id Device._id id') (devices s)).
  { intros id' Hne. apply find_upsert_other. congruence. }
  assert (Hids : map Device._id (upsert Device._id d' (devices s))
                 = map Device._id (devices s)).
  { apply map_key_upsert. rewrite Hid'.
    apply existsb_exists. exists d. split; [exact Hin|].
    unfold by_id. apply String.eqb_refl. }
  unfold handler, bind at 1.
  destruct (Device_save_cases d' s) as [[-> _] | [msg ->]];
    [|intros [= <- <-]; apply touched_only_refl].
  unfold bind at 1, deref.
  cbn [Device_populate PopulatedDevice.user PopulatedDevice.shop].
  destruct (User_findById (Device.user d) s) as [u|] eqn:Hu.
  2:{ intros [= <- <-]. unfold touched_only, Device_findById, User_findById.
      cbn [logs devices users shops set_devices]. now repeat split. }
  pose proof (find_by_id_key User._id _ _ _ Hu) as Huid.
  assert (Husr : forall uid,
            (forall x, In x (devices s) -> Device._id x = id -> Device.user x <> uid) ->
            find (by_id User._id uid)
              (upsert User._id (User_preSave (mirror u)) (users s))
            = find (by_id User._id uid) (users s)).
  { intros uid Hnot. apply find_upsert_other.
    rewrite User_preSave_id, Hmirror, Huid. now apply Hnot. }
  assert (Huids : map User._id (upsert User._id (User_preSave (mirror u)) (users s))
                  = map User._id (users s)).
  { apply map_key_upsert. rewrite User_preSave_id, Hmirror, Huid.
    exact (find_existsb _ _ _ Hu). }
  unfold ret at 1. unfold bind at 1. rewrite User_save_eq. unfold bind at 1.
  destruct (Shop_findById (Device.shop d) s) as [h|] eqn:Hh.
  2:{ intros [= <- <-]. unfold touched_only, Device_findById, User_findById.
      cbn [logs devices users shops set_devices set_users]. now repeat split. }
  unfold ret at 1. unfold bind at 1.
  match goal with
  | |- context [Shop_updateStatistics h ?st] =>
      destruct (Shop_updateStatistics_frame h st) as [saved [-> Hsaved]]
  end.
  cbn [ret]. intros [= <- <-].
  unfold touched_only, Device_findById, User_findById.
  cbn [logs devices users shops set_devices set_users].
  repeat split; try assumption.
  apply map_key_upsert.
  rewrite Hsaved, (find_by_id_key Shop._id _ _ _ Hh).
  exact (find_existsb _ _ _ Hh).
Qed.

Lemma lockDevice_tail (cu : PopulatedUser.t) (id : ObjectId)
    (body_reason : option string) (now : Z) (s : Store) (f : option ObjectId)
    (d : Device.t) :
  lock_scope cu "Access denied. Users cannot lock devices." s = (Value f, s) ->
  find (device_filter id f) (devices s) = Some d ->
  LockStatus.isLocked (Device.lockStatus d) = false ->
  lockDevice cu id body_reason now s =
    handler "Server error while locking device"
      (locked <- Device_save
                   (locked_device d (default "emi_default" body_reason)
                      (User._id (PopulatedUser.doc cu)) now) ;;
       u <- deref "deviceStatus" (PopulatedDevice.user (Device_populate d s)) ;;
       saved <- User_save
                  (User.with_deviceStatus
                     (DeviceStatus.mk true (Some now)
                        (DeviceStatus.lastUnlockedAt (User.deviceStatus u))
                        (Some (default "emi_default" body_reason)))
                     u) ;;
       h <- deref "updateStatistics" (PopulatedDevice.shop (Device_populate d s)) ;;
       Shop_updateStatistics h ;;;
       ret (mkResponse 200 true "Device locked successfully"
              (DeviceData locked saved))) s.
Proof.
  intros Hscope Hfind Hlocked.
  unfold lockDevice, handler, bind at 1. rewrite Hscope.
  unfold bind at 1, get. rewrite Hfind, Hlocked. reflexivity.
Qed.

Lemma unlockDevice_tail (cu : PopulatedUser.t) (id : ObjectId) (now : Z)
    (s : Store) (f : option ObjectId) (d : Device.t) :
  lock_scope cu "Access denied. Users cannot unlock devices." s = (Value f, s) ->
  find (device_filter id f) (devices s) = Some d ->
  LockStatus.isLocked (Device.lockStatus d) = true ->
  unlockDevice cu id now s =
    handler "Server error while unlocking device"
      (unlocked <- Device_save (unlocked_device d now) ;;
       u <- deref "deviceStatus" (PopulatedDevice.user (Device_populate d s)) ;;
       saved <- User_save
                  (User.with_deviceStatus
                     (DeviceStatus.mk false
                        (DeviceStatus.lastLockedAt (User.deviceStatus u))
                        (Some now) None)
                     u) ;;
       h <- deref "updateStatistics" (PopulatedDevice.shop (Device_populate d s)) ;;
       Shop_updateStatistics h ;;;
       ret (mkResponse 200 true "Device unlocked successfully"
              (DeviceData unlocked saved))) s.
Proof.
  intros Hscope Hfind Hlocked.
  unfold unlockDevice, handler, bind at 1. rewrite Hscope.
  unfold bind at 1, get. rewrite Hfind, Hlocked. reflexivity.
Qed.

Lemma run_op_touched_only (op : LockOp) (cu : PopulatedUser.t)
    (id : ObjectId) (now : Z) (s s' : Store) (r : Response) :
  run_op op cu id now s = (r, s') -> touched_only id s s'.
Proof.
  destruct op as [body_reason|]; cbn [run_op]; intros Hrun.
  - destruct (lock_scope_cases cu "Access denied. Users cannot lock devices." s)
      as [[f [Hscope _]] | [[Hscope _] | [msg Hscope]]].
    2,3: revert Hrun; unfold lockDevice, handler, bind at 1; rewrite Hscope;
         intros [= <- <-]; apply touched_only_refl.
    destruct (find (device_filter id f) (devices s)) as [d|] eqn:Hfind.
    2:{ revert Hrun. unfold lockDevice, handler, bind at 1. rewrite Hscope.
        unfold bind, get. rewrite Hfind. intros [= <- <-].
        apply touched_only_refl. }
    destruct (LockStatus.isLocked (Device.lockStatus d)) eqn:Hlocked.
    { rewrite (lockDevice_already_locked _ _ _ _ _ _ _ Hscope Hfind Hlocked)
        in Hrun.
      injection Hrun as <- <-. apply touched_only_refl. }
    rewrite (lockDevice_tail _ _ _ _ _ _ _ Hscope Hfind Hlocked) in Hrun.
    exact (lock_tail_touches id f s d
             (locked_device d (default "emi_default" body_reason)
                (User._id (PopulatedUser.doc cu)) now)
             (fun u =>
                User.with_deviceStatus
                  (DeviceStatus.mk true (Some now)
                     (DeviceStatus.lastUnlockedAt (User.deviceStatus u))
                     (Some (default "emi_default" body_reason)))
                  u)
             "Server error while locking device" r s'
             (fun locked saved =>
                mkResponse 200 true "Device locked successfully"
                  (DeviceData locked saved))
             Hfind eq_refl (fun _ => eq_refl) Hrun).
  - destruct (lock_scope_cases cu "Access denied. Users cannot unlock devices." s)
      as [[f [Hscope _]] | [[Hscope _] | [msg Hscope]]].
    2,3: revert Hrun; unfold unlockDevice, handler, bind at 1; rewrite Hscope;
         intros [= <- <-]; apply touched_only_refl.
    destruct (find (device_filter id f) (devices s)) as [d|] eqn:Hfind.
    2:{ revert Hrun. unfold unlockDevice, handler, bind at 1. rewrite Hscope.
        unfold bind, get. rewrite Hfind. intros [= <- <-].
        apply touched_only_refl. }
    destruct (LockStatus.isLocked (Device.lockStatus d)) eqn:Hlocked.
    2:{ rewrite (unlockDevice_not_locked _ _ _ _ _ _ Hscope Hfind Hlocked)
          in Hrun.
        injection Hrun as <- <-. apply touched_only_refl. }
    rewrite (unlockDevice_tail _ _ _ _ _ _ Hscope Hfind Hlocked) in Hrun.
    exact (lock_tail_touches id f s d (unlocked_device d now)
             (fun u =>
                User.with_deviceStatus
                  (DeviceStatus.mk false
                     (DeviceStatus.lastLockedAt (User.deviceStatus u))
                     (Some now) None)
                  u)
             "Server error while unlocking device" r s'
             (fun unlocked saved =>
                mkResponse 200 true "Device unlocked successfully"
                  (DeviceData unlocked saved))
             Hfind eq_refl (fun _ => eq_refl) Hrun).
Qed.

(** X4. Whatever its outcome, a single lock or unlock by an id in the
    canonical spelling of an ObjectId writes at most the device with that
    id, the user that owns that device and the statistics of a shop: no
    document is created or deleted, every other device and every other
    user, looked up by an id in that spelling, is read back as before, and
    no audit entry is written by the controller. *)
Theorem lock_writes_only_its_target (op : LockOp) (cu : PopulatedUser.t)
    (id : ObjectId) (now : Z) (s s' : Store) (r : Response) :
  canonical id = true ->
  run_op op cu id now s = (r, s') ->
  logs s' = logs s
  /\ map Device._id (devices s') = map Device._id (devices s)
  /\ map User._id (users s') = map User._id (users s)
  /\ map Shop._id (shops s') = map Shop._id (shops s)
  /\ (forall id', canonical id' = true -> id' <> id ->
        Device_findById id' s' = Device_findById id' s)
  /\ (forall uid, canonical uid = true ->
        (forall d, In d (devices s) -> Device._id d = id -> Device.user d <> uid) ->
        User_findById uid s' = User_findById uid s).
Proof.
  intros _ Hrun.
  destruct (run_op_touched_only op cu id now s s' r Hrun)
    as (Hl & Hd & Hu & Hs & Hdev & Husr).
  split; [exact Hl|]. split; [exact Hd|]. split; [exact Hu|].
  split; [exact Hs|]. split.
  - intros id' _. apply Hdev.
  - intros uid _. apply Husr.
Qed.

Lemma lock_writes_only_its_target_witness :
  let out := run_op (Lock None) Neighbour.as_root Neighbour.deviceB_id 200
               Neighbour.store in
  logs (snd out) = logs Neighbour.store
  /\ map Device._id (devices (snd out)) = map Device._id (devices Neighbour.store)
  /\ map User._id (users (snd out)) = map User._id (users Neighbour.store)
  /\ map Shop._id (shops (snd out)) = map Shop._id (shops Neighbour.store)
  /\ (forall id', canonical id' = true -> id' <> Neighbour.deviceB_id ->
        Device_findById id' (snd out) = Device_findById id' Neighbour.store)
  /\ (forall uid, canonical uid = true ->
        (forall d, In d (devices Neighbour.store) ->
                   Device._id d = Neighbour.deviceB_id -> Device.user d <> uid) ->
        User_findById uid (snd out) = User_findById uid Neighbour.store).
Proof.
  apply (lock_writes_only_its_target (Lock None) Neighbour.as_root
           Neighbour.deviceB_id 200 Neighbour.store _
           (fst (run_op (Lock None) Neighbour.as_root Neighbour.deviceB_id 200
                   Neighbour.store)));
    vm_compute; reflexivity.
Defined.

Lemma locked_device_valid (d : Device.t) (body_reason : option string)
    (by_ : ObjectId) (now : Z) :
  Device_validate d = None ->
  reason_accepted body_reason = true ->
  Device_validate
    (locked_device d (default "emi_default" body_reason) by_ now) = None.
Proof.
  unfold Device_validate, locked_device, reason_accepted, effective_reason.
  cbn [Device.deviceId Device.imeiNumber Device.lockStatus Device.with_lockStatus
       LockStatus.lockReason].
  destruct (String.eqb (Device.deviceId d) ""); [discriminate|].
  destruct (String.eqb (Device.imeiNumber d) ""); [discriminate|].
  destruct (negb (imei_valid (Device.imeiNumber d))); [discriminate|].
  intros _ Hok. cbn zeta in Hok. now rewrite Hok.
Qed.

(** A lock whose preconditions hold, step by step. *)
Lemma lockDevice_runs (cu : PopulatedUser.t) (id : ObjectId)
    (body_reason : option string) (now : Z) (s : Store) (f : option ObjectId)
    (d : Device.t) (u : User.t) (h : Shop.t) :
  lock_scope cu "Access denied. Users cannot lock devices." s = (Value f, s) ->
  find (device_filter id f) (devices s) = Some d ->
  LockStatus.isLocked (Device.lockStatus d) = false ->
  Device_validate
    (locked_device d (default "emi_default" body_reason)
       (User._id (PopulatedUser.doc cu)) now) = None ->
  User_findById (Device.user d) s = Some u ->
  Shop_findById (Device.shop d) s = Some h ->
  let reason := default "emi_default" body_reason in
  let d' := locked_device d reason (User._id (PopulatedUser.doc cu)) now in
  let u' := locked_user u reason now in
  lockDevice cu id body_reason now s =
    (mkResponse 200 true "Device locked successfully" (DeviceData d' u'),
     snd (Shop_updateStatistics h (after_lock_writes d' u' s))).
Proof.
  intros Hscope Hfind Hlocked Hvalid Hu Hh reason d' u'.
  rewrite (lockDevice_tail _ _ _ _ _ _ _ Hscope Hfind Hlocked).
  unfold handler, bind at 1. fold reason. fold d'.
  rewrite (Device_save_stored d' s Hvalid (find_stored_id _ _ _ Hfind)).
  unfold bind at 1, deref.
  cbn [Device_populate PopulatedDevice.user PopulatedDevice.shop].
  rewrite Hu. unfold ret at 1. unfold bind at 1. rewrite User_save_eq.
  fold (locked_user u reason now). fold u'. unfold bind at 1. rewrite Hh.
  unfold ret at 1. unfold bind at 1.
  change (set_users (upsert User._id u' (users (set_devices (upsert Device._id d' (devices s)) s)))
            (set_devices (upsert Device._id d' (devices s)) s))
    with (after_lock_writes d' u' s).
  destruct (Shop_updateStatistics_frame h (after_lock_writes d' u' s))
    as [saved [-> _]].
  reflexivity.
Qed.

(** X5. A lock of an unlocked device in the caller's scope, with a reason
    that the schema accepts, a valid stored device and an existing owner and
    shop, answers 200. The stored device is then locked at [now] by the
    caller with the reason [reason || 'emi_default'], its [unlockedAt] and
    its other fields are kept; the stored owner is locked at [now] with the
    reason of the request. *)
Theorem lock_succeeds (cu : PopulatedUser.t) (id : ObjectId)
    (body_reason : option string) (now : Z) (s : Store) (f : option ObjectId)
    (d : Device.t) (u : User.t) (h : Shop.t) :
  lock_scope cu "Access denied. Users cannot lock devices." s = (Value f, s) ->
  find (device_filter id f) (devices s) = Some d ->
  LockStatus.isLocked (Device.lockStatus d) = false ->
  Device_validate d = None ->
  reason_accepted body_reason = true ->
  User_findById (Device.user d) s = Some u ->
  Shop_findById (Device.shop d) s = Some h ->
  exists r s' d' u',
    lockDevice cu id body_reason now s = (r, s')
    /\ status r = 200%nat
    /\ Device_findById id s' = Some d'
    /\ Device.lockStatus d' =
         LockStatus.mk true (Some now) (LockStatus.unlockedAt (Device.lockStatus d))
           (Some (effective_reason body_reason))
           (Some (User._id (PopulatedUser.doc cu)))
    /\ Device.with_lockStatus (Device.lockStatus d) d' = d
    /\ User_findById (Device.user d) s' = Some u'
    /\ User.deviceStatus u' =
         DeviceStatus.mk true (Some now)
           (DeviceStatus.lastUnlockedAt (User.deviceStatus u))
           (Some (default "emi_default" body_reason)).
Proof.
  intros Hscope Hfind Hlocked Hvalid Hreason Hu Hh.
  pose proof (locked_device_valid d body_reason
                (User._id (PopulatedUser.doc cu)) now Hvalid Hreason) as Hvalid'.
  pose proof (lockDevice_runs cu id body_reason now s f d u h
                Hscope Hfind Hlocked Hvalid' Hu Hh) as Hrun.
  cbn zeta in Hrun.
  pose proof (device_filter_id _ _ _ _ Hfind) as Hid.
  pose proof (find_by_id_key User._id _ _ _ Hu) as Huid.
  destruct (Shop_updateStatistics_frame h
              (after_lock_writes
                 (locked_device d (default "emi_default" body_reason)
                    (User._id (PopulatedUser.doc cu)) now)
                 (locked_user u (default "emi_default" body_reason) now) s))
    as [saved [Hstat _]].
  rewrite Hstat in Hrun. cbn [snd after_lock_writes users devices] in Hrun.
  eexists. eexists.
  exists (locked_device d (default "emi_default" body_reason)
            (User._id (PopulatedUser.doc cu)) now),
         (locked_user u (default "emi_default" body_reason) now).
  split; [exact Hrun|]. split; [reflexivity|]. split.
  { rewrite <- Hid. apply (stored_after_upsert_device (locked_device d _ _ now)). }
  split; [reflexivity|]. split; [now destruct d|]. split.
  { rewrite <- Huid.
    rewrite <- (locked_user_id u (default "emi_default" body_reason) now).
    apply stored_after_upsert_user. }
  unfold locked_user. now rewrite User_preSave_deviceStatus.
Qed.

Lemma lock_succeeds_witness :
  exists r s' d' u',
    lockDevice Sample.as_owner (Sample.device_id 3) (Some "maintenance") 200
      Sample.store = (r, s')
    /\ status r = 200%nat
    /\ Device_findById (Sample.device_id 3) s' = Some d'
    /\ Device.lockStatus d' =
         LockStatus.mk true (Some 200) None (Some "maintenance")
           (Some Sample.owner_id)
    /\ Device.with_lockStatus (Device.lockStatus (Sample.device 3 false)) d'
       = Sample.device 3 false
    /\ User_findById (Sample.customer_id 3) s' = Some u'
    /\ User.deviceStatus u' =
         DeviceStatus.mk true (Some 200) None (Some "maintenance").
Proof.
  apply (lock_succeeds Sample.as_owner (Sample.device_id 3) (Some "maintenance")
           200 Sample.store (Some Sample.shopA_id) (Sample.device 3 false)
           (Sample.customer 3 true false 70000 14000) Sample.shopA);
    reflexivity.
Defined.

(** The empty reason: the device stores the default, the user the empty
    string. *)
Example lock_empty_reason_sample :
  let s' := snd (lockDevice Sample.as_owner (Sample.device_id 3) (Some "") 200
                   Sample.store) in
  option_map (fun d => LockStatus.lockReason (Device.lockStatus d))
    (Device_findById (Sample.device_id 3) s') = Some (Some "emi_default")
  /\ option_map (fun u => DeviceStatus.lockReason (User.deviceStatus u))
       (User_findById (Sample.customer_id 3) s') = Some (Some "").
Proof. vm_compute. split; reflexivity. Qed.

(** An unlock whose preconditions hold, step by step. *)
Lemma unlockDevice_runs_store (cu : PopulatedUser.t) (id : ObjectId) (now : Z)
    (s : Store) (f : option ObjectId) (d : Device.t) (u : User.t) (h : Shop.t) :
  lock_scope cu "Access denied. Users cannot unlock devices." s = (Value f, s) ->
  find (device_filter id f) (devices s) = Some d ->
  LockStatus.isLocked (Device.lockStatus d) = true ->
  Device_validate d = None ->
  User_findById (Device.user d) s = Some u ->
  Shop_findById (Device.shop d) s = Some h ->
  unlockDevice cu id now s =
    (mkResponse 200 true "Device unlocked successfully"
       (DeviceData (unlocked_device d now) (unlocked_user u now)),
     snd (Shop_updateStatistics h
            (after_lock_writes (unlocked_device d now) (unlocked_user u now) s))).
Proof.
  intros Hscope Hfind Hlocked Hvalid Hu Hh.
  rewrite (unlockDevice_tail _ _ _ _ _ _ Hscope Hfind Hlocked).
  unfold handler, bind at 1.
  rewrite (Device_save_stored (unlocked_device d now) s Hvalid
             (find_stored_id _ _ _ Hfind)).
  unfold bind at 1, deref.
  cbn [Device_populate PopulatedDevice.user PopulatedDevice.shop].
  rewrite Hu. unfold ret at 1. unfold bind at 1. rewrite User_save_eq.
  fold (unlocked_user u now). unfold bind at 1. rewrite Hh.
  unfold ret at 1. unfold bind at 1.
  change (set_users (upsert User._id (unlocked_user u now)
                       (users (set_devices (upsert Device._id (unlocked_device d now) (devices s)) s)))
            (set_devices (upsert Device._id (unlocked_device d now) (devices s)) s))
    with (after_lock_writes (unlocked_device d now) (unlocked_user u now) s).
  destruct (Shop_updateStatistics_frame h
              (after_lock_writes (unlocked_device d now) (unlocked_user u now) s))
    as [saved [-> _]].
  reflexivity.
Qed.

Lemma recount_after (h : Shop.t) (mid : Store) :
  let s' := snd (Shop_updateStatistics h mid) in
  aggregations s' = (aggregations mid ++ [Shop._id h])%list
  /\ users s' = users mid
  /\ devices s' = devices mid
  /\ (users_of_shop (Shop._id h) s' <> [] ->
      exists h', Shop_findById (Shop._id h) s' = Some h'
                 /\ Shop.statistics h' = recomputed (Shop._id h) s').
Proof.
  destruct (users_of_shop (Shop._id h) mid) as [|x xs] eqn:E.
  - rewrite (Shop_updateStatistics_none h mid E). cbn [snd aggregations users devices].
    repeat split. intros Hne. exfalso. apply Hne. exact E.
  - assert (Hne : users_of_shop (Shop._id h) mid <> []) by congruence.
    rewrite (Shop_updateStatistics_some h mid Hne).
    cbn [snd aggregations users devices]. repeat split. intros _.
    eexists. split.
    + unfold Shop_findById. cbn [shops].
      exact (find_upsert_same Shop._id
               (Shop.with_statistics (recomputed (Shop._id h) mid) h) (shops mid)).
    + reflexivity.
Qed.

(** X6. After a single lock or unlock that answers 200 the aggregator has
    run once, for the shop of the device, and when that shop has users its
    stored statistics are the recount over the users as the request leaves
    them: the mirror write is counted. *)
Theorem lock_refreshes_statistics (op : LockOp) (cu : PopulatedUser.t)
    (id : ObjectId) (now : Z) (s s' : Store) (r : Response) :
  run_op op cu id now s = (r, s') ->
  status r = 200%nat ->
  exists d,
    Device_findById id s' = Some d
    /\ aggregations s' = (aggregations s ++ [Device.shop d])%list
    /\ (users_of_shop (Device.shop d) s' <> [] ->
        exists h', Shop_findById (Device.shop d) s' = Some h'
                   /\ Shop.statistics h' = recomputed (Device.shop d) s').
Proof.
  destruct op as [body_reason|]; cbn [run_op]; intros Hrun Hok.
  - destruct (lockDevice_200 _ _ _ _ _ _ _ Hrun Hok)
      as (f & d & u & h & saved & Hfind & Hscope & Hlocked & Hu & Hh & Hvalid & _ & _).
    rewrite (lockDevice_runs cu id body_reason now s f d u h
               Hscope Hfind Hlocked Hvalid Hu Hh) in Hrun.
    injection Hrun as _ <-.
    pose proof (find_by_id_key Shop._id _ _ _ Hh) as Hhid.
    pose proof (device_filter_id _ _ _ _ Hfind) as Hid.
    match goal with
    | |- context [Shop_updateStatistics h ?mid] =>
        destruct (recount_after h mid) as (Ha & _ & Hd & Hstat)
    end.
    exists (locked_device d (default "emi_default" body_reason)
              (User._id (PopulatedUser.doc cu)) now).
    split; [|split].
    + unfold Device_findById. rewrite Hd, <- Hid.
      apply (stored_after_upsert_device (locked_device d _ _ now)).
    + rewrite Ha. cbn [after_lock_writes aggregations]. now rewrite Hhid.
    + change (Device.shop (locked_device d (default "emi_default" body_reason)
                (User._id (PopulatedUser.doc cu)) now)) with (Device.shop d).
      rewrite <- Hhid. exact Hstat.
  - destruct (unlockDevice_200 _ _ _ _ _ _ Hrun Hok)
      as (f & d & u & h & saved & Hfind & Hscope & Hlocked & Hu & Hh & _ & Hs').
    assert (Hvalid : Device_validate d = None).
    { revert Hrun. rewrite (unlockDevice_tail _ _ _ _ _ _ Hscope Hfind Hlocked).
      unfold handler, bind at 1.
      destruct (Device_save_cases (unlocked_device d now) s)
        as [[_ Hv] | [msg ->]]; [intros _; exact Hv|].
      intros [= <- _]. discriminate. }
    rewrite (unlockDevice_runs_store cu id now s f d u h
               Hscope Hfind Hlocked Hvalid Hu Hh) in Hrun.
    injection Hrun as _ <-.
    pose proof (find_by_id_key Shop._id _ _ _ Hh) as Hhid.
    pose proof (device_filter_id _ _ _ _ Hfind) as Hid.
    match goal with
    | |- context [Shop_updateStatistics h ?mid] =>
        destruct (recount_after h mid) as (Ha & _ & Hd & Hstat)
    end.
    exists (unlocked_device d now).
    split; [|split].
    + unfold Device_findById. rewrite Hd, <- Hid.
      apply (stored_after_upsert_device (unlocked_device d now)).
    + rewrite Ha. cbn [after_lock_writes aggregations]. now rewrite Hhid.
    + change (Device.shop (unlocked_device d now)) with (Device.shop d).
      rewrite <- Hhid. exact Hstat.
Qed.

Lemma lock_refreshes_statistics_witness :
  let out := run_op (Lock None) Sample.as_owner (Sample.device_id 3) 200
               Sample.store in
  exists d,
    Device_findById (Sample.device_id 3) (snd out) = Some d
    /\ aggregations (snd out) = (aggregations Sample.store ++ [Device.shop d])%list
    /\ (users_of_shop (Device.shop d) (snd out) <> [] ->
        exists h', Shop_findById (Device.shop d) (snd out) = Some h'
                   /\ Shop.statistics h' = recomputed (Device.shop d) (snd out)).
Proof.
  apply (lock_refreshes_statistics (Lock None) Sample.as_owner
           (Sample.device_id 3) 200 Sample.store _
           (fst (run_op (Lock None) Sample.as_owner (Sample.device_id 3) 200
                   Sample.store)));
    vm_compute; reflexivity.
Defined.

(** On the sample tenant the lock of device 3 raises the count of locked
    devices of the shop from the stale 0 to 2. *)
Example lock_sample_statistics :
  option_map Shop.statistics
    (Shop_findById Sample.shopA_id
       (snd (lockDevice Sample.as_owner (Sample.device_id 3) None 200
               Sample.store)))
  = Some (Statistics.mk 5 3 2 52000).
Proof. vm_compute. reflexivity. Qed.

(** ** The statistics aggregator: bounds and repetition *)

Lemma filter_length_le {A} (p : A -> bool) (l : list A) :
  (List.length (filter p l) <= List.length l)%nat.
Proof.
  induction l as [|x l IH]; [reflexivity|].
  cbn [filter]. destruct (p x); cbn [List.length]; lia.
Qed.

(** X7. When a shop has users, [updateStatistics] stores counters that are
    consistent with each other: at least one user, and neither more active
    users nor more locked devices than users. *)
Theorem updateStatistics_counters_bounded (this : Shop.t) (s : Store) :
  users_of_shop (Shop._id this) s <> [] ->
  exists saved s',
    Shop_updateStatistics this s = (Value saved, s')
    /\ Shop_findById (Shop._id this) s' = Some saved
    /\ 1 <= Statistics.totalUsers (Shop.statistics saved)
    /\ 0 <= Statistics.activeUsers (Shop.statistics saved)
         <= Statistics.totalUsers (Shop.statistics saved)
    /\ 0 <= Statistics.lockedDevices (Shop.statistics saved)
         <= Statistics.totalUsers (Shop.statistics saved).
Proof.
  intros Hne. eexists. eexists.
  split; [apply Shop_updateStatistics_some; exact Hne|]. split.
  - unfold Shop_findById. cbn [shops].
    exact (find_upsert_same Shop._id
             (Shop.with_statistics (recomputed (Shop._id this) s) this) (shops s)).
  - cbn [Shop.statistics Shop.with_statistics recomputed
         Statistics.totalUsers Statistics.activeUsers Statistics.lockedDevices].
    pose proof (filter_length_le User.isActive (users_of_shop (Shop._id this) s)).
    pose proof (filter_length_le
                  (fun u => DeviceStatus.isLocked (User.deviceStatus u))
                  (users_of_shop (Shop._id this) s)).
    destruct (users_of_shop (Shop._id this) s) as [|x xs]; [congruence|].
    cbn [List.length] in *. lia.
Qed.

Lemma updateStatistics_counters_bounded_witness :
  exists saved s',
    Shop_updateStatistics Sample.shopA Sample.store = (Value saved, s')
    /\ Shop_findById Sample.shopA_id s' = Some saved
    /\ 1 <= Statistics.totalUsers (Shop.statistics saved)
    /\ 0 <= Statistics.activeUsers (Shop.statistics saved)
         <= Statistics.totalUsers (Shop.statistics saved)
    /\ 0 <= Statistics.lockedDevices (Shop.statistics saved)
         <= Statistics.totalUsers (Shop.statistics saved).
Proof.
  apply (updateStatistics_counters_bounded Sample.shopA Sample.store).
  vm_compute. discriminate.
Defined.

Lemma recomputed_users (shopId : ObjectId) (s1 s2 : Store) :
  users s1 = users s2 -> recomputed shopId s1 = recomputed shopId s2.
Proof. intros H. unfold recomputed, users_of_shop. now rewrite H. Qed.

(** X8. Recomputing the statistics of a shop a second time, with no write
    in between, changes nothing but the trace of the aggregator: the shop
    that the first run stored is stored again as it is. *)
Theorem updateStatistics_twice (this : Shop.t) (s : Store) :
  let first := Shop_updateStatistics this s in
  exists saved s1 s2,
    first = (Value saved, s1)
    /\ Shop_updateStatistics saved s1 = (Value saved, s2)
    /\ shops s2 = shops s1
    /\ users s2 = users s /\ devices s2 = devices s /\ logs s2 = logs s.
Proof.
  cbn zeta. destruct (users_of_shop (Shop._id this) s) as [|x xs] eqn:E.
  - rewrite (Shop_updateStatistics_none this s E).
    eexists. eexists. eexists. split; [reflexivity|].
    split; [apply Shop_updateStatistics_none; exact E|].
    cbn [shops users devices logs]. repeat split.
    apply upsert_stored. apply find_upsert_same.
  - assert (Hne : users_of_shop (Shop._id this) s <> []) by congruence.
    rewrite (Shop_updateStatistics_some this s Hne).
    set (saved := Shop.with_statistics (recomputed (Shop._id this) s) this).
    set (s1 := mkStore (users s) (devices s) (upsert Shop._id saved (shops s))
                 (logs s) (aggregations s ++ [Shop._id this])).
    assert (Hne1 : users_of_shop (Shop._id saved) s1 <> []) by exact Hne.
    eexists. eexists. eexists. split; [reflexivity|].
    split.
    + rewrite (Shop_updateStatistics_some saved s1 Hne1).
      assert (Hsame : Shop.with_statistics (recomputed (Shop._id saved) s1) saved
                      = saved).
      { rewrite (recomputed_users (Shop._id saved) s1 s eq_refl). reflexivity. }
      rewrite Hsame. reflexivity.
    + cbn [shops users devices logs]. repeat split.
      apply upsert_stored. apply find_upsert_same.
Qed.

(** ** Bulk operations: rejections, accounting, frame *)

Lemma bulk_scope_frame (cu : PopulatedUser.t) (ids : list ObjectId) (s : Store) :
  snd (bulk_scope cu ids s) = s.
Proof.
  unfold bulk_scope, shop_id, deref, bind, get, ret, reply, throw.
  destruct ids; [reflexivity|].
  destruct (User.role (PopulatedUser.doc cu)); try reflexivity.
  - now destruct (filter _ (devices s)).
  - destruct (PopulatedUser.shop cu); [|reflexivity].
    now destruct (filter _ (devices s)).
Qed.

Lemma bulk_rejected (op : LockOp) (cu : PopulatedUser.t) (ids : list ObjectId)
    (now : Z) (s : Store) (r : Response) :
  fst (bulk_scope cu ids s) = Reply r ->
  run_bulk op cu ids now s = (r, s).
Proof.
  intros H. pose proof (bulk_scope_frame cu ids s) as Hs.
  destruct (bulk_scope cu ids s) as [o s0] eqn:E. cbn [fst snd] in *. subst.
  destruct op; cbn [run_bulk];
    unfold bulkLockDevices, bulkUnlockDevices, handler, bind at 1;
    now rewrite E.
Qed.

(** X9. The rejections of a bulk lock or unlock, none of which writes: an
    empty id list is answered 400 for every caller, a user-role caller 403,
    and a request of ids in the canonical spelling of an ObjectId, none of
    which is a device in the caller's scope, 404. *)
Theorem bulk_rejections (op : LockOp) (cu : PopulatedUser.t)
    (ids : list ObjectId) (now : Z) (s : Store) :
  (ids = [] ->
   run_bulk op cu ids now s = (failure 400 "Device IDs array is required", s))
  /\ (ids <> [] -> User.role (PopulatedUser.doc cu) = user ->
      run_bulk op cu ids now s
      = (failure 403 "Access denied. Users cannot perform bulk operations.", s))
  /\ (ids <> [] -> User.role (PopulatedUser.doc cu) <> user ->
      (User.role (PopulatedUser.doc cu) = shopowner ->
       PopulatedUser.shop cu <> None) ->
      forallb canonical ids = true ->
      processed cu ids s = [] ->
      run_bulk op cu ids now s = (failure 404 "No devices found", s)).
Proof.
  split; [|split].
  - intros ->. now apply bulk_rejected.
  - intros Hne Hrole. apply bulk_rejected. unfold bulk_scope, bind.
    destruct ids; [congruence|]. now rewrite Hrole.
  - intros Hne Hrole Hshop _ Hnone. apply bulk_rejected.
    unfold bulk_scope, processed, caller_scope in *.
    unfold shop_id, deref, bind, get, ret.
    destruct ids; [congruence|].
    destruct (User.role (PopulatedUser.doc cu)); [| |congruence].
    + now rewrite Hnone.
    + destruct (PopulatedUser.shop cu); [|now destruct (Hshop eq_refl)].
      cbn [option_map] in Hnone. now rewrite Hnone.
Qed.

Lemma bulk_rejections_witness :
  run_bulk Unlock Sample.as_owner [] 200 Sample.store
  = (failure 400 "Device IDs array is required", Sample.store)
  /\ run_bulk (Lock None)
       (User_populate (Sample.customer 3 true false 70000 14000) Sample.store)
       [Sample.device_id 3] 200 Sample.store
     = (failure 403 "Access denied. Users cannot perform bulk operations.",
        Sample.store)
  /\ run_bulk (Lock None) Neighbour.as_ownerB [Sample.device_id 3] 200
       Neighbour.store
     = (failure 404 "No devices found", Neighbour.store).
Proof.
  split; [|split].
  - apply (proj1 (bulk_rejections Unlock Sample.as_owner [] 200 Sample.store)).
    reflexivity.
  - apply (proj1 (proj2 (bulk_rejections (Lock None)
             (User_populate (Sample.customer 3 true false 70000 14000) Sample.store)
             [Sample.device_id 3] 200 Sample.store)));
      [discriminate|reflexivity].
  - apply (proj2 (proj2 (bulk_rejections (Lock None) Neighbour.as_ownerB
             [Sample.device_id 3] 200 Neighbour.store)));
      [discriminate|discriminate|discriminate|reflexivity|reflexivity].
Defined.













(** On the neighbouring tenants: the owner of shop A asks for device 3 and
    for the device of shop B; device 3 is locked, the device of shop B is
    not even reported. *)
Example bulk_lock_across_shops :
  data (fst (run_bulk (Lock (Some "manual_lock")) Neighbour.as_owner
               [Sample.device_id 3; Neighbour.deviceB_id] 200 Neighbour.store))
  = BulkData
      (mkBulkResults [mkBulkSuccess (Sample.device_id 3) "DEV-3" "Customer 3"] []).
Proof. vm_compute. reflexivity. Qed.

(** ** Registering a device: success and access *)

Lemma upsert_fresh {A} (key : A -> ObjectId) (doc : A) (l : list A) :
  find (by_id key (key doc)) l = None -> upsert key doc l = (l ++ [doc])%list.
Proof.
  induction l as [|x l IH]; cbn [find upsert app]; [reflexivity|].
  unfold by_id at 1. destruct (String.eqb (key x) (key doc)); [discriminate|].
  intros H. now rewrite IH.
Qed.

(** X12. A registration that answers 201, the new ObjectId being fresh: the
    user to register for exists and its shop is a stored shop, no stored
    device had the device id or the IMEI, the IMEI has 15 digits; the
    collection has grown by exactly the new device, which is unlocked,
    online since [now] and attached to the user and to the user's shop; the
    user carries the device id and the IMEI and keeps its lock state. *)
Theorem register_success (cu : PopulatedUser.t) (userId : ObjectId)
    (deviceId imeiNumber : string) (newId : ObjectId) (now : Z) (s s' : Store)
    (r : Response) :
  registerDevice cu userId deviceId imeiNumber newId now s = (r, s') ->
  status r = 201%nat ->
  Device_findById newId s = None ->
  exists u h u',
    User_findById userId s = Some u
    /\ User.shop u = Some (Shop._id h)
    /\ Shop_findById (Shop._id h) s = Some h
    /\ find (same_device deviceId imeiNumber) (devices s) = None
    /\ imei_valid imeiNumber = true
    /\ devices s' =
         (devices s ++
          [registered_device newId userId (Shop._id h) deviceId imeiNumber now])%list
    /\ r = mkResponse 201 true "Device registered successfully"
             (RegisteredData
                (registered_device newId userId (Shop._id h) deviceId imeiNumber now))
    /\ User_findById userId s' = Some u'
    /\ User.deviceId u' = Some deviceId
    /\ User.imeiNumber u' = Some imeiNumber
    /\ User.deviceStatus u' = User.deviceStatus u
    /\ logs s' = logs s.
Proof.
  unfold registerDevice, handler, bind at 1, get.
  destruct (User_findById userId s) as [u|] eqn:Hu;
    [|intros [= <- <-]; discriminate].
  unfold bind at 1.
  destruct (register_access_frame cu userId (User_populate u s) s) as [Hs Hr].
  destruct (register_access cu userId (User_populate u s) s)
    as [[[]|r0|msg] s0] eqn:Hacc; cbn [snd fst] in Hs, Hr; subst s0.
  2:{ intros [= <- <-] Hok. rewrite (Hr r0 eq_refl) in Hok. discriminate. }
  2:{ intros [= <- <-]; discriminate. }
  destruct (find (same_device deviceId imeiNumber) (devices s)) eqn:Hdup;
    [intros [= <- <-]; discriminate|].
  unfold bind at 1, shop_id, deref, bind at 1.
  cbn [User_populate PopulatedUser.shop].
  destruct (User.shop u) as [hid|] eqn:Hshop; [|intros [= <- <-]; discriminate].
  destruct (Shop_findById hid s) as [h|] eqn:Hh; [|intros [= <- <-]; discriminate].
  pose proof (find_by_id_key Shop._id _ _ _ Hh) as Hhid.
  cbn [ret]. unfold bind at 1.
  fold (registered_device newId userId (Shop._id h) deviceId imeiNumber now).
  set (dev := registered_device newId userId (Shop._id h) deviceId imeiNumber now).
  destruct (Device_save_cases dev s) as [[-> Hvalid] | [msg ->]];
    [|intros [= <- <-]; discriminate].
  unfold bind at 1. rewrite User_save_eq. unfold bind at 1.
  unfold bind at 1.
  match goal with
  | |- context [Shop_updateStatistics h ?st] =>
      destruct (Shop_updateStatistics_frame h st) as [saved [-> _]]
  end.
  cbn [ret].
  intros [= <- <-] _ Hfresh.
  exists u, h, (User_preSave (User.with_device deviceId imeiNumber u)).
  pose proof (find_by_id_key User._id _ _ _ Hu) as Huid.
  split; [reflexivity|]. split; [now rewrite Hhid|].
  split; [now rewrite Hhid|]. split; [reflexivity|].
  split.
  { revert Hvalid. unfold Device_validate, dev, registered_device.
    cbn [Device.deviceId Device.imeiNumber].
    destruct (String.eqb deviceId ""); [discriminate|].
    destruct (String.eqb imeiNumber ""); [discriminate|].
    now destruct (imei_valid imeiNumber). }
  split.
  { cbn [devices set_users set_devices]. apply upsert_fresh. exact Hfresh. }
  split; [reflexivity|]. split.
  { unfold User_findById. cbn [users set_users set_devices].
    rewrite <- Huid.
    change (User._id u) with (User._id (User.with_device deviceId imeiNumber u)).
    rewrite <- (User_preSave_id (User.with_device deviceId imeiNumber u)).
    apply find_upsert_same. }
  unfold User_preSave. destruct (_ && _); now repeat split.
Qed.

Lemma register_success_witness :
  let out := registerDevice Sample.as_owner (Sample.customer_id 2) "DEV-2"
               "490154203237518" "64d000000000000000000002" 200 Sample.store in
  exists u h u',
    User_findById (Sample.customer_id 2) Sample.store = Some u
    /\ User.shop u = Some (Shop._id h)
    /\ Shop_findById (Shop._id h) Sample.store = Some h
    /\ find (same_device "DEV-2" "490154203237518") (devices Sample.store) = None
    /\ imei_valid "490154203237518" = true
    /\ devices (snd out) =
         (devices Sample.store ++
          [registered_device "64d000000000000000000002" (Sample.customer_id 2)
             (Shop._id h) "DEV-2" "490154203237518" 200])%list
    /\ fst out = mkResponse 201 true "Device registered successfully"
             (RegisteredData
                (registered_device "64d000000000000000000002"
                   (Sample.customer_id 2) (Shop._id h) "DEV-2"
                   "490154203237518" 200))
    /\ User_findById (Sample.customer_id 2) (snd out) = Some u'
    /\ User.deviceId u' = Some "DEV-2"
    /\ User.imeiNumber u' = Some "490154203237518"
    /\ User.deviceStatus u' = User.deviceStatus u
    /\ logs (snd out) = logs Sample.store.
Proof.
  apply (register_success Sample.as_owner (Sample.customer_id 2) "DEV-2"
           "490154203237518" "64d000000000000000000002" 200 Sample.store);
    vm_compute; reflexivity.
Defined.

(** X13. The access check of a registration: a user-role caller who
    registers for another user, and a shop owner who registers for a user of
    another shop, get 403 and write nothing; this is decided before the
    device id and the IMEI are looked at. *)
Theorem register_for_others_denied (cu : PopulatedUser.t) (userId : ObjectId)
    (deviceId imeiNumber : string) (newId : ObjectId) (now : Z) (s : Store)
    (u : User.t) :
  User_findById userId s = Some u ->
  (User.role (PopulatedUser.doc cu) = user
   /\ User._id (PopulatedUser.doc cu) <> userId
   \/ User.role (PopulatedUser.doc cu) = shopowner
      /\ exists mine theirs,
           PopulatedUser.shop cu = Some mine
           /\ PopulatedUser.shop (User_populate u s) = Some theirs
           /\ Shop._id theirs <> Shop._id mine) ->
  exists msg,
    registerDevice cu userId deviceId imeiNumber newId now s
    = (failure 403 msg, s).
Proof.
  intros Hu Hwho. unfold registerDevice, handler, bind at 1, get.
  rewrite Hu. unfold bind at 1, register_access.
  destruct Hwho as [[Hrole Hne] | [Hrole (mine & theirs & Hm & Ht & Hne)]];
    rewrite Hrole.
  - apply String.eqb_neq in Hne. rewrite Hne. eexists. reflexivity.
  - unfold shop_id, deref, bind. rewrite Ht, Hm. cbn [ret].
    apply String.eqb_neq in Hne. rewrite Hne. eexists. reflexivity.
Qed.

Lemma register_for_others_denied_witness :
  exists msg,
    registerDevice Neighbour.as_ownerB (Sample.customer_id 2) "DEV-2"
      "490154203237518" "64d000000000000000000002" 200 Neighbour.store
    = (failure 403 msg, Neighbour.store).
Proof.
  apply (register_for_others_denied Neighbour.as_ownerB (Sample.customer_id 2)
           "DEV-2" "490154203237518" "64d000000000000000000002" 200
           Neighbour.store (Sample.customer 2 false false 60000 12000) eq_refl).
  right. split; [reflexivity|].
  exists Neighbour.shopB, Sample.shopA.
  split; [reflexivity|]. split; [reflexivity|]. discriminate.
Defined.

(** ** The identity gate *)

Lemma verifyToken_cases (credential : Credential)
    (path : string) (s s' : Store) (o : Outcome PopulatedUser.t) :
  verifyToken credential path s = (o, s') ->
  s' = s
  /\ match o with
     | Value reqUser =>
         exists userId,
           credential = Token userId
           /\ User_findById userId s = Some (PopulatedUser.doc reqUser)
           /\ User.isActive (PopulatedUser.doc reqUser) = true
           /\ (User.role (PopulatedUser.doc reqUser) = user ->
               String.prefix "/api/mobile" path = true)
           /\ reqUser = User_populate (PopulatedUser.doc reqUser) s
     | Reply r =>
         data r = NoData
         /\ (status r = 401%nat
             \/ status r = 403%nat
                /\ exists userId u,
                     credential = Token userId
                     /\ User_findById userId s = Some u
                     /\ User.isActive u = true /\ User.role u = user)
         /\ (forall userId u,
               credential = Token userId -> User_findById userId s = Some u ->
               User.isActive u = false -> status r = 401%nat)
     | Throw _ => False
     end.
Proof.
  unfold verifyToken, bind, get.
  destruct credential as [| | |userId];
    try (intros [= <- <-]; split; [reflexivity|];
         split; [reflexivity|]; split; [now left|discriminate]).
  destruct (User_findById userId s) as [u|] eqn:Hu.
  2:{ intros [= <- <-]. split; [reflexivity|]. split; [reflexivity|].
      split; [now left|]. intros i u' [= <-]. congruence. }
  destruct (User.isActive u) eqn:Hactive; cbn [negb].
  2:{ intros [= <- <-]. split; [reflexivity|]. split; [reflexivity|].
      split; [now left|reflexivity]. }
  destruct (String.prefix "/api/mobile" path) eqn:Hpath; cbn [negb andb].
  - intros [= <- <-]. split; [reflexivity|]. exists userId.
    cbn [User_populate PopulatedUser.doc]. now repeat split.
  - destruct (Role_eqb (User.role u) user) eqn:Hrole.
    + intros [= <- <-]. split; [reflexivity|]. split; [reflexivity|]. split.
      * right. split; [reflexivity|]. exists userId, u.
        repeat split; try assumption. now destruct (User.role u).
      * intros i u' [= <-] Hu'. rewrite Hu in Hu'. injection Hu' as <-.
        congruence.
    + intros [= <- <-]. split; [reflexivity|]. exists userId.
      cbn [User_populate PopulatedUser.doc]. repeat split; try assumption.
      intros Hr. rewrite Hr in Hrole. discriminate.
Qed.

(** X14. [verifyToken] never writes and never throws. It lets a request
    pass only with a token of a stored, active user who is not of role
    [user] unless the path starts with [/api/mobile]; the caller that it
    hands on is that user, populated. Every other request is answered 401,
    or 403 for the role gate; a deactivated account is answered 401
    whatever its role. *)
Theorem verifyToken_admits_active_callers (credential : Credential)
    (path : string) (s s' : Store) (o : Outcome PopulatedUser.t) :
  verifyToken credential path s = (o, s') ->
  s' = s
  /\ match o with
     | Value reqUser =>
         exists userId,
           credential = Token userId
           /\ User_findById userId s = Some (PopulatedUser.doc reqUser)
           /\ User.isActive (PopulatedUser.doc reqUser) = true
           /\ (User.role (PopulatedUser.doc reqUser) = user ->
               String.prefix "/api/mobile" path = true)
           /\ reqUser = User_populate (PopulatedUser.doc reqUser) s
     | Reply r =>
         data r = NoData
         /\ (status r = 401%nat
             \/ status r = 403%nat
                /\ exists userId u,
                     credential = Token userId
                     /\ User_findById userId s = Some u
                     /\ User.isActive u = true /\ User.role u = user)
         /\ (forall userId u,
               credential = Token userId -> User_findById userId s = Some u ->
               User.isActive u = false -> status r = 401%nat)
     | Throw _ => False
     end.
Proof. exact (verifyToken_cases credential path s s' o). Qed.

Lemma verifyToken_admits_active_callers_witness :
  snd (verifyToken (Token Sample.owner_id) "/" Sample.store) = Sample.store
  /\ exists userId,
       Token Sample.owner_id = Token userId
       /\ User_findById userId Sample.store = Some (PopulatedUser.doc Sample.as_owner)
       /\ User.isActive (PopulatedUser.doc Sample.as_owner) = true
       /\ (User.role (PopulatedUser.doc Sample.as_owner) = user ->
           String.prefix "/api/mobile" "/" = true)
       /\ Sample.as_owner
          = User_populate (PopulatedUser.doc Sample.as_owner) Sample.store.
Proof.
  exact (verifyToken_admits_active_callers (Token Sample.owner_id) "/"
           Sample.store Sample.store (Value Sample.as_owner) eq_refl).
Defined.

(** The deactivated customer 2 and the deactivated administrator alike. *)
Example deactivated_rejected :
  fst (verifyToken (Token (Sample.customer_id 2)) "/api/mobile/x" Sample.store)
  = Reply (failure 401 "Account is deactivated.").
Proof. vm_compute. reflexivity. Qed.

(** ** Viewing a shop *)

Lemma own_shop_only_cases (cu : PopulatedUser.t) (shopId denied : string)
    (s : Store) :
  (own_shop_only cu shopId denied s = (Value tt, s)
   /\ (User.role (PopulatedUser.doc cu) = shopowner ->
       exists h, PopulatedUser.shop cu = Some h /\ Shop._id h = shopId))
  \/ (own_shop_only cu shopId denied s = (Reply (failure 403 denied), s)
      /\ User.role (PopulatedUser.doc cu) = shopowner)
  \/ (exists msg, own_shop_only cu shopId denied s = (Throw msg, s)).
Proof.
  unfold own_shop_only, shop_id, deref, bind, ret, reply, throw.
  destruct (User.role (PopulatedUser.doc cu)) eqn:R.
  - left. split; [reflexivity|discriminate].
  - destruct (PopulatedUser.shop cu) as [h|].
    + destruct (String.eqb (Shop._id h) shopId) eqn:E; cbn [negb].
      * left. split; [reflexivity|]. intros _. exists h.
        split; [reflexivity|]. now apply String.eqb_eq.
      * right. left. now split.
    + right. right. eexists. reflexivity.
  - left. split; [reflexivity|discriminate].
Qed.

(** X15. Viewing a shop writes: an answer 200 of [getShopById] carries the
    shop as it is stored after the request, the aggregator has run once for
    it, and when the shop has users its statistics are their recount; users,
    devices and audit log are untouched. A shop owner is only ever answered
    200 for the owner's own shop, and any other answer leaves the store as
    it was. *)
Theorem shop_view_refreshes_statistics (cu : PopulatedUser.t) (shopId : ObjectId)
    (s s' : Store) (a : Answer Shop.t) :
  getShopById cu shopId s = (a, s') ->
  users s' = users s /\ devices s' = devices s /\ logs s' = logs s
  /\ (a_status a <> 200%nat -> s' = s /\ a_data a = None)
  /\ (a_status a = 200%nat ->
      exists shop,
        a_data a = Some shop
        /\ Shop._id shop = shopId
        /\ Shop_findById shopId s' = Some shop
        /\ aggregations s' = (aggregations s ++ [shopId])%list
        /\ (users_of_shop shopId s <> [] ->
            Shop.statistics shop = recomputed shopId s)
        /\ (User.role (PopulatedUser.doc cu) = shopowner ->
            exists h, PopulatedUser.shop cu = Some h /\ Shop._id h = shopId)).
Proof.
  unfold getShopById, handler_of, bind at 1.
  destruct (own_shop_only_cases cu shopId
              "Access denied. You can only view your own shop." s)
    as [[-> Hown] | [[-> _] | [msg ->]]].
  2,3: intros [= <- <-]; repeat split; try reflexivity; cbn; intros H;
       now try congruence.
  unfold bind at 1, get.
  destruct (Shop_findById shopId s) as [shop|] eqn:Hshop.
  2:{ intros [= <- <-]. repeat split; try reflexivity; cbn; intros H;
      now try congruence. }
  pose proof (find_by_id_key Shop._id _ _ _ Hshop) as Hid.
  unfold bind at 1.
  destruct (users_of_shop (Shop._id shop) s) as [|x xs] eqn:E.
  - rewrite (Shop_updateStatistics_none shop s E). cbn [ret].
    intros [= <- <-]. cbn [users devices logs a_status a_data found_payload].
    repeat split; try congruence.
    intros _. exists shop. split; [reflexivity|]. split; [exact Hid|].
    split.
    { unfold Shop_findById. cbn [shops]. rewrite <- Hid.
      apply find_upsert_same. }
    split; [cbn [aggregations]; now rewrite Hid|].
    split; [rewrite <- Hid, E; congruence|exact Hown].
  - assert (Hne : users_of_shop (Shop._id shop) s <> []) by congruence.
    rewrite (Shop_updateStatistics_some shop s Hne). cbn [ret].
    intros [= <- <-]. cbn [users devices logs a_status a_data found_payload].
    repeat split; try congruence.
    intros _. eexists. split; [reflexivity|]. split; [exact Hid|].
    split.
    { unfold Shop_findById. cbn [shops]. rewrite <- Hid.
      exact (find_upsert_same Shop._id
               (Shop.with_statistics (recomputed (Shop._id shop) s) shop)
               (shops s)). }
    split; [cbn [aggregations]; now rewrite Hid|].
    split; [intros _; now rewrite <- Hid|exact Hown].
Qed.

Lemma shop_view_refreshes_statistics_witness :
  let out := getShopById Sample.as_owner Sample.shopA_id Sample.store in
  users (snd out) = users Sample.store
  /\ devices (snd out) = devices Sample.store
  /\ logs (snd out) = logs Sample.store
  /\ (a_status (fst out) <> 200%nat ->
      snd out = Sample.store /\ a_data (fst out) = None)
  /\ (a_status (fst out) = 200%nat ->
      exists shop,
        a_data (fst out) = Some shop
        /\ Shop._id shop = Sample.shopA_id
        /\ Shop_findById Sample.shopA_id (snd out) = Some shop
        /\ aggregations (snd out)
           = (aggregations Sample.store ++ [Sample.shopA_id])%list
        /\ (users_of_shop Sample.shopA_id Sample.store <> [] ->
            Shop.statistics shop = recomputed Sample.shopA_id Sample.store)
        /\ (User.role (PopulatedUser.doc Sample.as_owner) = shopowner ->
            exists h, PopulatedUser.shop Sample.as_owner = Some h
                      /\ Shop._id h = Sample.shopA_id)).
Proof.
  apply (shop_view_refreshes_statistics Sample.as_owner Sample.shopA_id
           Sample.store _
           (fst (getShopById Sample.as_owner Sample.shopA_id Sample.store))).
  vm_compute. reflexivity.
Defined.

(** X16. [verifyShopOwnership] lets through the super-administrator and the
    owner of the requested shop and nobody else; after it, the access check
    of [getShopById] never fires: the answer is 200 or 404. *)
Theorem shop_gate_then_view (cu : PopulatedUser.t) (shopId : ObjectId)
    (s s0 : Store) :
  verifyShopOwnership cu shopId s = (Value tt, s0) ->
  s0 = s
  /\ (User.role (PopulatedUser.doc cu) = superadmin
      \/ User.role (PopulatedUser.doc cu) = shopowner
         /\ exists h, PopulatedUser.shop cu = Some h /\ Shop._id h = shopId)
  /\ (a_status (fst (getShopById cu shopId s)) = 200%nat
      \/ fst (getShopById cu shopId s) = no_payload (failure 404 "Shop not found")).
Proof.
  unfold verifyShopOwnership.
  destruct (User.role (PopulatedUser.doc cu)) eqn:R; [| |discriminate].
  - intros [= <-]. split; [reflexivity|]. split; [now left|].
    unfold getShopById, handler_of, own_shop_only. rewrite R.
    unfold bind, get, ret.
    destruct (Shop_findById shopId s) as [shop|]; [|right; reflexivity].
    left. destruct (Shop_updateStatistics_frame shop s) as [saved [-> _]].
    reflexivity.
  - destruct (PopulatedUser.shop cu) as [h|] eqn:Hh; [|discriminate].
    destruct (String.eqb (Shop._id h) shopId) eqn:E; cbn [negb]; [|discriminate].
    intros [= <-]. split; [reflexivity|]. split.
    { right. split; [reflexivity|]. exists h. split; [reflexivity|].
      now apply String.eqb_eq. }
    unfold getShopById, handler_of, own_shop_only. rewrite R.
    unfold shop_id, deref. rewrite Hh. unfold bind, get, ret. rewrite E.
    cbn [negb].
    destruct (Shop_findById shopId s) as [shop|]; [|right; reflexivity].
    left. destruct (Shop_updateStatistics_frame shop s) as [saved [-> _]].
    reflexivity.
Qed.

Lemma shop_gate_then_view_witness :
  Sample.store = Sample.store
  /\ (User.role (PopulatedUser.doc Sample.as_owner) = superadmin
      \/ User.role (PopulatedUser.doc Sample.as_owner) = shopowner
         /\ exists h, PopulatedUser.shop Sample.as_owner = Some h
                      /\ Shop._id h = Sample.shopA_id)
  /\ (a_status (fst (getShopById Sample.as_owner Sample.shopA_id Sample.store))
      = 200%nat
      \/ fst (getShopById Sample.as_owner Sample.shopA_id Sample.store)
         = no_payload (failure 404 "Shop not found")).
Proof.
  exact (shop_gate_then_view Sample.as_owner Sample.shopA_id Sample.store
           Sample.store eq_refl).
Defined.

(** ** Viewing and deleting a user *)

Lemma user_filter_found (userId : ObjectId) (f : option ObjectId)
    (l : list User.t) (u : User.t) :
  find (user_filter userId f) l = Some u ->
  In u l /\ User._id u = userId
  /\ forall h, f = Some h -> User.shop u = Some h.
Proof.
  intros H. apply find_some in H. destruct H as [Hin H].
  unfold user_filter in H. apply andb_true_iff in H. destruct H as [Hid Hf].
  apply String.eqb_eq in Hid. repeat split; try assumption.
  intros h ->. unfold in_shop in Hf.
  destruct (User.shop u) as [x|]; [|discriminate].
  apply String.eqb_eq in Hf. now subst.
Qed.

(** X17. [getUserById] never writes, and an answer 200 carries a stored
    user with the requested id that is within the caller's scope: the
    caller's own record for a user, a user of the caller's shop for a shop
    owner. *)
Theorem user_view_scoped (cu : PopulatedUser.t) (userId : ObjectId)
    (s s' : Store) (a : Answer PopulatedUser.t) :
  getUserById cu userId s = (a, s') ->
  s' = s
  /\ (a_status a = 200%nat ->
      exists u,
        a_data a = Some (User_populate u s)
        /\ In u (users s)
        /\ User._id u = userId
        /\ (User.role (PopulatedUser.doc cu) = user ->
            userId = User._id (PopulatedUser.doc cu))
        /\ (User.role (PopulatedUser.doc cu) = shopowner ->
            exists h, PopulatedUser.shop cu = Some h
                      /\ User.shop u = Some (Shop._id h))).
Proof.
  unfold getUserById, handler_of.
  destruct (User.role (PopulatedUser.doc cu)) eqn:R.
  - unfold bind, get, ret, reply.
    destruct (find (user_filter userId None) (users s)) as [u|] eqn:Hf;
      intros [= <- <-]; (split; [reflexivity|]); [|discriminate].
    intros _. destruct (user_filter_found _ _ _ _ Hf) as (Hin & Hid & _).
    exists u. repeat split; try assumption; discriminate.
  - unfold shop_id, deref, bind, get, ret, reply, throw.
    destruct (PopulatedUser.shop cu) as [h|] eqn:Hh;
      [|intros [= <- <-]; split; [reflexivity|discriminate]].
    destruct (find (user_filter userId (Some (Shop._id h))) (users s))
      as [u|] eqn:Hf;
      intros [= <- <-]; (split; [reflexivity|]); [|discriminate].
    intros _. destruct (user_filter_found _ _ _ _ Hf) as (Hin & Hid & Hshop).
    exists u. repeat split; try assumption; try discriminate.
    intros _. exists h. split; [reflexivity|]. now apply Hshop.
  - unfold bind, get, ret, reply.
    destruct (String.eqb (User._id (PopulatedUser.doc cu)) userId) eqn:E;
      cbn [negb]; [|intros [= <- <-]; split; [reflexivity|discriminate]].
    destruct (find (user_filter userId None) (users s)) as [u|] eqn:Hf;
      intros [= <- <-]; (split; [reflexivity|]); [|discriminate].
    intros _. destruct (user_filter_found _ _ _ _ Hf) as (Hin & Hid & _).
    exists u. repeat split; try assumption; try discriminate.
    intros _. symmetry. now apply String.eqb_eq.
Qed.

Lemma user_view_scoped_witness :
  let out := getUserById Neighbour.as_owner (Sample.customer_id 3)
               Neighbour.store in
  snd out = Neighbour.store
  /\ (a_status (fst out) = 200%nat ->
      exists u,
        a_data (fst out) = Some (User_populate u Neighbour.store)
        /\ In u (users Neighbour.store)
        /\ User._id u = Sample.customer_id 3
        /\ (User.role (PopulatedUser.doc Neighbour.as_owner) = user ->
            Sample.customer_id 3 = User._id (PopulatedUser.doc Neighbour.as_owner))
        /\ (User.role (PopulatedUser.doc Neighbour.as_owner) = shopowner ->
            exists h, PopulatedUser.shop Neighbour.as_owner = Some h
                      /\ User.shop u = Some (Shop._id h))).
Proof.
  apply (user_view_scoped Neighbour.as_owner (Sample.customer_id 3)
           Neighbour.store _
           (fst (getUserById Neighbour.as_owner (Sample.customer_id 3)
                   Neighbour.store))).
  vm_compute. reflexivity.
Defined.

Lemma verifyUserAccess_cases (cu : PopulatedUser.t) (userId : ObjectId)
    (s s' : Store) (o : Outcome unit) :
  verifyUserAccess cu userId s = (o, s') ->
  s' = s
  /\ (forall msg, o <> Throw msg)
  /\ (o = Value tt <->
      User.role (PopulatedUser.doc cu) = superadmin
      \/ User.role (PopulatedUser.doc cu) = user
         /\ User._id (PopulatedUser.doc cu) = userId
      \/ User.role (PopulatedUser.doc cu) = shopowner
         /\ exists target h,
              User_findById userId s = Some target
              /\ PopulatedUser.shop cu = Some h
              /\ User.shop target = Some (Shop._id h))
  /\ (User.role (PopulatedUser.doc cu) = shopowner ->
      forall target,
        User_findById userId s = Some target -> User.shop target = None ->
        o = Reply (failure 500 "Server error during user verification.")).
Proof.
  unfold verifyUserAccess, try_catch.
  destruct (User.role (PopulatedUser.doc cu)) eqn:R.
  - intros [= <- <-]. split; [reflexivity|]. split; [discriminate|].
    split; [split; [now left|reflexivity]|discriminate].
  - unfold bind at 1, get.
    destruct (User_findById userId s) as [target|] eqn:Ht.
    2:{ intros [= <- <-]. split; [reflexivity|]. split; [discriminate|].
        split; [|intros _ t Hn; discriminate].
        split; [discriminate|].
        intros [H | [[H _] | [_ (t & h & Hn & _)]]]; discriminate. }
    unfold bind at 1, shop_ref.
    destruct (User.shop target) as [theirs|] eqn:Hs.
    2:{ intros [= <- <-]. split; [reflexivity|]. split; [discriminate|].
        split; [|reflexivity].
        split; [discriminate|].
        intros [H | [[H _] | [_ (t & h & [= <-] & _ & Hsh)]]];
          try discriminate. congruence. }
    cbn [ret]. unfold bind, shop_id, deref, bind.
    destruct (PopulatedUser.shop cu) as [h|] eqn:Hh.
    2:{ intros [= <- <-]. split; [reflexivity|]. split; [discriminate|].
        split; [|intros _ t [= <-] Hn; congruence].
        split; [discriminate|].
        intros [H | [[H _] | [_ (t & h & _ & Hn & _)]]]; discriminate. }
    cbn [ret]. destruct (String.eqb theirs (Shop._id h)) eqn:E; cbn [negb].
    + intros [= <- <-]. split; [reflexivity|]. split; [discriminate|]. split.
      * split; [|reflexivity]. intros _. right. right. split; [reflexivity|].
        exists target, h. apply String.eqb_eq in E. subst. now repeat split.
      * intros _ t [= <-] Hn. congruence.
    + intros [= <- <-]. split; [reflexivity|]. split; [discriminate|].
      split; [|intros _ t [= <-] Hn; congruence].
      split; [discriminate|].
      intros [H | [[H _] | [_ (t & h' & [= <-] & [= <-] & Hsh)]]];
        try discriminate.
      rewrite Hs in Hsh. injection Hsh as ->.
      rewrite String.eqb_refl in E. discriminate.
  - destruct (String.eqb (User._id (PopulatedUser.doc cu)) userId) eqn:E;
      cbn [negb]; intros [= <- <-]; (split; [reflexivity|]);
      (split; [discriminate|]); (split; [|discriminate]).
    + split; [|reflexivity]. intros _. right. left.
      split; [reflexivity|]. now apply String.eqb_eq.
    + split; [discriminate|].
      intros [H | [[_ H] | [H _]]]; try discriminate.
      apply String.eqb_neq in E. contradiction.
Qed.

(** X18. Who passes [verifyUserAccess]: the super-administrator, a user for
    the user's own id, and a shop owner for a stored user of the owner's
    shop; these callers pass, and for an id in the canonical spelling of an
    ObjectId nobody else does. It never writes, and it never lets an
    exception through: a shop owner who names a user without a shop, as the
    super-administrator is, is answered 500. *)
Theorem verifyUserAccess_admits (cu : PopulatedUser.t) (userId : ObjectId)
    (s s' : Store) (o : Outcome unit) :
  verifyUserAccess cu userId s = (o, s') ->
  s' = s
  /\ (forall msg, o <> Throw msg)
  /\ (User.role (PopulatedUser.doc cu) = superadmin
      \/ User.role (PopulatedUser.doc cu) = user
         /\ User._id (PopulatedUser.doc cu) = userId
      \/ User.role (PopulatedUser.doc cu) = shopowner
         /\ (exists target h,
               User_findById userId s = Some target
               /\ PopulatedUser.shop cu = Some h
               /\ User.shop target = Some (Shop._id h)) ->
      o = Value tt)
  /\ (canonical userId = true -> o = Value tt ->
      User.role (PopulatedUser.doc cu) = superadmin
      \/ User.role (PopulatedUser.doc cu) = user
         /\ User._id (PopulatedUser.doc cu) = userId
      \/ User.role (PopulatedUser.doc cu) = shopowner
         /\ exists target h,
              User_findById userId s = Some target
              /\ PopulatedUser.shop cu = Some h
              /\ User.shop target = Some (Shop._id h))
  /\ (User.role (PopulatedUser.doc cu) = shopowner ->
      forall target,
        User_findById userId s = Some target -> User.shop target = None ->
        o = Reply (failure 500 "Server error during user verification.")).
Proof.
  intros Hrun.
  destruct (verifyUserAccess_cases cu userId s s' o Hrun)
    as (Hs & Hthrow & [Hpass Hwho] & Hnoshop).
  split; [exact Hs|]. split; [exact Hthrow|]. split; [exact Hwho|].
  split; [intros _; exact Hpass|exact Hnoshop].
Qed.

Lemma verifyUserAccess_admits_witness :
  let out := verifyUserAccess Sample.as_owner (Sample.customer_id 3)
               Sample.store in
  snd out = Sample.store
  /\ (forall msg, fst out <> Throw msg)
  /\ (User.role (PopulatedUser.doc Sample.as_owner) = superadmin
      \/ User.role (PopulatedUser.doc Sample.as_owner) = user
         /\ User._id (PopulatedUser.doc Sample.as_owner) = Sample.customer_id 3
      \/ User.role (PopulatedUser.doc Sample.as_owner) = shopowner
         /\ (exists target h,
               User_findById (Sample.customer_id 3) Sample.store = Some target
               /\ PopulatedUser.shop Sample.as_owner = Some h
               /\ User.shop target = Some (Shop._id h)) ->
      fst out = Value tt)
  /\ (canonical (Sample.customer_id 3) = true -> fst out = Value tt ->
      User.role (PopulatedUser.doc Sample.as_owner) = superadmin
      \/ User.role (PopulatedUser.doc Sample.as_owner) = user
         /\ User._id (PopulatedUser.doc Sample.as_owner) = Sample.customer_id 3
      \/ User.role (PopulatedUser.doc Sample.as_owner) = shopowner
         /\ exists target h,
              User_findById (Sample.customer_id 3) Sample.store = Some target
              /\ PopulatedUser.shop Sample.as_owner = Some h
              /\ User.shop target = Some (Shop._id h))
  /\ (User.role (PopulatedUser.doc Sample.as_owner) = shopowner ->
      forall target,
        User_findById (Sample.customer_id 3) Sample.store = Some target ->
        User.shop target = None ->
        fst out = Reply (failure 500 "Server error during user verification.")).
Proof.
  apply (verifyUserAccess_admits Sample.as_owner (Sample.customer_id 3)
           Sample.store _
           (fst (verifyUserAccess Sample.as_owner (Sample.customer_id 3)
                   Sample.store))).
  vm_compute. reflexivity.
Defined.

(** The owner of the sample shop passes for customer 3 of the shop, and is
    answered 500 for the super-administrator, who has no shop. *)
Example owner_passes_for_own_customer :
  fst (verifyUserAccess Sample.as_owner (Sample.customer_id 3) Sample.store)
  = Value tt
  /\ fst (verifyUserAccess Neighbour.as_owner Sample.root_id Neighbour.store)
     = Reply (failure 500 "Server error during user verification.").
Proof. split; vm_compute; reflexivity. Qed.

(** The two answers to a shop owner who names a user of another shop: 403
    from the middleware, 404 from the controller function. *)
Example other_shop_user_403_or_404 :
  fst (verifyUserAccess Neighbour.as_owner Neighbour.customerB_id Neighbour.store)
  = Reply (failure 403 "Access denied. You can only access users in your shop.")
  /\ fst (getUserById Neighbour.as_owner Neighbour.customerB_id Neighbour.store)
     = no_payload (failure 404 "User not found").
Proof. split; vm_compute; reflexivity. Qed.

Lemma recompute_shop_frame (shopId : ObjectId) (s : Store) :
  exists s',
    recompute_shop tt shopId s = (Value tt, s')
    /\ users s' = users s /\ devices s' = devices s /\ logs s' = logs s.
Proof.
  unfold recompute_shop, bind at 1, get.
  destruct (Shop_findById shopId s) as [h|].
  - unfold bind. destruct (Shop_updateStatistics_frame h s) as [saved [-> _]].
    eexists. split; [reflexivity|]. now repeat split.
  - exists s. now repeat split.
Qed.

Lemma find_remove_first_unique {A} (key : A -> ObjectId) (id : ObjectId)
    (l : list A) :
  NoDup (map key l) -> find (by_id key id) (remove_first (by_id key id) l) = None.
Proof.
  induction l as [|x l IH]; intros Hnd; [reflexivity|].
  cbn [remove_first]. inversion Hnd as [|k ks Hnot Hrest]; subst.
  destruct (by_id key id x) eqn:E.
  - apply find_all_false. intros y Hy. unfold by_id in *.
    apply String.eqb_eq in E. apply String.eqb_neq. intros Heq.
    apply Hnot. rewrite E, <- Heq. now apply in_map.
  - cbn [find]. rewrite E. now apply IH.
Qed.

Lemma deleteUser_200 (cu : PopulatedUser.t) (userId : ObjectId)
    (s s' : Store) (r : Response) :
  deleteUser cu userId s = (r, s') ->
  status r = 200%nat ->
  exists u,
    In u (users s) /\ User._id u = userId
    /\ User.role (PopulatedUser.doc cu) <> user
    /\ (User.role (PopulatedUser.doc cu) = shopowner ->
        User.role u <> superadmin
        /\ exists h, PopulatedUser.shop cu = Some h
                     /\ User.shop u = Some (Shop._id h))
    /\ users s' = remove_first (by_id User._id userId) (users s)
    /\ devices s' =
         filter (fun d => negb (String.eqb (Device.user d) userId)) (devices s)
    /\ (forall d, In d (devices s') -> Device.user d <> userId)
    /\ logs s' =
         (logs s ++ [deletion_entry (User._id (PopulatedUser.doc cu)) u])%list
    /\ (NoDup (map User._id (users s)) -> User_findById userId s' = None).
Proof.
  unfold deleteUser, handler, bind at 1.
  assert (Hscope :
    (exists f, (match User.role (PopulatedUser.doc cu) with
                | user => reply (failure 403 "Access denied. Users cannot delete accounts.")
                | shopowner => h <- shop_id cu ;; ret (Some h)
                | superadmin => ret None
                end) s = (Value f, s)
               /\ User.role (PopulatedUser.doc cu) <> user
               /\ (User.role (PopulatedUser.doc cu) = shopowner ->
                   exists h, PopulatedUser.shop cu = Some h /\ f = Some (Shop._id h)))
    \/ (exists o, (match User.role (PopulatedUser.doc cu) with
                   | user => reply (failure 403 "Access denied. Users cannot delete accounts.")
                   | shopowner => h <- shop_id cu ;; ret (Some h)
                   | superadmin => ret None
                   end) s = (o, s)
                  /\ (o = Reply (failure 403 "Access denied. Users cannot delete accounts.")
                      \/ exists msg, o = Throw msg))).
  { unfold shop_id, deref, bind, ret, reply, throw.
    destruct (User.role (PopulatedUser.doc cu)) eqn:R.
    - left. exists None. split; [reflexivity|]. split; discriminate.
    - destruct (PopulatedUser.shop cu) as [h|].
      + left. exists (Some (Shop._id h)). split; [reflexivity|].
        split; [discriminate|]. intros _. now exists h.
      + right. eexists. split; [reflexivity|]. right. eexists. reflexivity.
    - right. eexists. split; [reflexivity|]. now left. }
  destruct Hscope as [(f & -> & Hrole & Hown) | (o & -> & [-> | [msg ->]])];
    [|intros [= <- <-]; discriminate|intros [= <- <-]; discriminate].
  unfold bind at 1, get.
  destruct (find (user_filter userId f) (users s)) as [u|] eqn:Hfind;
    [|intros [= <- <-]; discriminate].
  destruct (user_filter_found _ _ _ _ Hfind) as (Hin & Hid & Hshop).
  destruct (Role_eqb (User.role (PopulatedUser.doc cu)) shopowner
            && Role_eqb (User.role u) superadmin) eqn:Hsuper;
    [intros [= <- <-]; discriminate|].
  unfold bind at 1, Device_deleteMany, modify.
  unfold bind at 1, User_findByIdAndDelete, modify.
  unfold bind at 1.
  set (mid := set_users _ (set_devices _ s)).
  assert (Hrec : exists s1,
            (match User.shop u with
             | Some shopId => recompute_shop tt shopId
             | None => ret tt
             end) mid = (Value tt, s1)
            /\ users s1 = users mid /\ devices s1 = devices mid
            /\ logs s1 = logs mid).
  { destruct (User.shop u) as [shopId|].
    - apply recompute_shop_frame.
    - exists mid. now repeat split. }
  destruct Hrec as (s1 & -> & Hu1 & Hd1 & Hl1).
  unfold bind at 1, ActivityLog_createLog, ActivityLog_new.
  cbn [log_user log_performedBy log_action log_description log_category log_shop
       String.eqb Ascii.eqb Bool.eqb mem_string existsb action_enum category_enum
       negb orb append].
  unfold modify. cbn [ret]. intros [= <- <-] _.
  exists u. split; [exact Hin|]. split; [exact Hid|]. split; [exact Hrole|].
  split.
  { intros Hr. split.
    - rewrite Hr in Hsuper. cbn [Role_eqb andb] in Hsuper.
      intros Hu. rewrite Hu in Hsuper. discriminate.
    - destruct (Hown Hr) as (h & Hh & ->). exists h. split; [exact Hh|].
      now apply Hshop. }
  cbn [users devices logs set_logs]. rewrite Hu1, Hd1, Hl1.
  subst mid. cbn [users devices logs set_users set_devices].
  split; [reflexivity|]. split; [reflexivity|]. split.
  { intros d Hd. apply filter_In in Hd. destruct Hd as [_ Hd].
    apply negb_true_iff in Hd. now apply String.eqb_neq. }
  split.
  { unfold deletion_entry. now rewrite Hid. }
  intros Hnd. unfold User_findById. cbn [users set_logs].
  rewrite Hu1. cbn [users set_users set_devices].
  now apply find_remove_first_unique.
Qed.

(** X19. A deletion of a user that answers 200 has removed the user with
    the requested id, which was in the caller's scope (for a shop owner: a
    user of the owner's shop who is not a super-administrator), and every
    device of that user; no other user and no other device is removed or
    changed, and one audit entry "user_deleted", attributed to the caller,
    is appended. With unique ids the user is no longer found. *)
Theorem delete_user_cascades (cu : PopulatedUser.t) (userId : ObjectId)
    (s s' : Store) (r : Response) :
  deleteUser cu userId s = (r, s') ->
  status r = 200%nat ->
  exists u,
    In u (users s) /\ User._id u = userId
    /\ User.role (PopulatedUser.doc cu) <> user
    /\ (User.role (PopulatedUser.doc cu) = shopowner ->
        User.role u <> superadmin
        /\ exists h, PopulatedUser.shop cu = Some h
                     /\ User.shop u = Some (Shop._id h))
    /\ users s' = remove_first (by_id User._id userId) (users s)
    /\ devices s' =
         filter (fun d => negb (String.eqb (Device.user d) userId)) (devices s)
    /\ (forall d, In d (devices s') -> Device.user d <> userId)
    /\ logs s' =
         (logs s ++ [deletion_entry (User._id (PopulatedUser.doc cu)) u])%list
    /\ (NoDup (map User._id (users s)) -> User_findById userId s' = None).
Proof. exact (deleteUser_200 cu userId s s' r). Qed.

Lemma delete_user_cascades_witness :
  let out := deleteUser Sample.as_owner (Sample.customer_id 3) Sample.store in
  exists u,
    In u (users Sample.store) /\ User._id u = Sample.customer_id 3
    /\ User.role (PopulatedUser.doc Sample.as_owner) <> user
    /\ (User.role (PopulatedUser.doc Sample.as_owner) = shopowner ->
        User.role u <> superadmin
        /\ exists h, PopulatedUser.shop Sample.as_owner = Some h
                     /\ User.shop u = Some (Shop._id h))
    /\ users (snd out)
       = remove_first (by_id User._id (Sample.customer_id 3)) (users Sample.store)
    /\ devices (snd out) =
         filter (fun d => negb (String.eqb (Device.user d) (Sample.customer_id 3)))
           (devices Sample.store)
    /\ (forall d, In d (devices (snd out)) ->
                  Device.user d <> Sample.customer_id 3)
    /\ logs (snd out) =
         (logs Sample.store
          ++ [deletion_entry (User._id (PopulatedUser.doc Sample.as_owner)) u])%list
    /\ (NoDup (map User._id (users Sample.store)) ->
        User_findById (Sample.customer_id 3) (snd out) = None).
Proof.
  apply (delete_user_cascades Sample.as_owner (Sample.customer_id 3)
           Sample.store _
           (fst (deleteUser Sample.as_owner (Sample.customer_id 3) Sample.store)));
    vm_compute; reflexivity.
Defined.

(** ** Deleting a shop *)

Lemma createLog_without_user (shop : option ObjectId)
    (action description category : string) (by_ : option ObjectId) (s : Store) :
  ActivityLog_createLog (mkLogData None shop action description category by_) s
  = (Throw "ActivityLog validation failed: user: User is required", s).
Proof. reflexivity. Qed.

Lemma deleteShop_cases (cu : PopulatedUser.t) (shopId : ObjectId) (s : Store) :
  deleteShop cu shopId s =
    if negb (Role_eqb (User.role (PopulatedUser.doc cu)) superadmin)
    then (failure 403 "Access denied. Only superadmin can delete shops.", s)
    else match Shop_findById shopId s with
         | None => (failure 404 "Shop not found", s)
         | Some _ =>
             (failure 500 "Server error while deleting shop",
              mkStore (filter (fun u => negb (in_shop shopId u)) (users s))
                (devices s) (remove_first (by_id Shop._id shopId) (shops s))
                (logs s) (aggregations s))
         end.
Proof.
  unfold deleteShop, handler.
  destruct (negb (Role_eqb (User.role (PopulatedUser.doc cu)) superadmin));
    [reflexivity|].
  unfold bind at 1, get.
  destruct (Shop_findById shopId s) as [shop|]; [|reflexivity].
  unfold bind, User_deleteMany, Shop_findByIdAndDelete, modify.
  rewrite createLog_without_user. reflexivity.
Qed.



(** On the sample tenant: the shop and its five users are gone, its two
    devices remain, the audit log is empty, and the answer is 500. *)
Example delete_shop_sample :
  let out := deleteShop Sample.as_root Sample.shopA_id Sample.store in
  fst out = failure 500 "Server error while deleting shop"
  /\ shops (snd out) = []
  /\ users (snd out) = [Sample.root]
  /\ devices (snd out) = devices Sample.store
  /\ logs (snd out) = [].
Proof. vm_compute. repeat split. Qed.

(** X21. The route that deletes a shop never answers below 400 and leaves
    no audit entry: the entry of the controller is rejected, and
    [logActivity] only logs answers below 400. *)
Theorem shop_delete_route_unaudited (credential : Credential) (path : string)
    (shopId : string) (s : Store) :
  logs (snd (shop_delete_route credential path shopId s)) = logs s
  /\ (400 <= status (fst (shop_delete_route credential path shopId s)))%nat.
Proof.
  destruct (shop_delete_route credential path shopId s) as [r s'] eqn:Hrun.
  cbn [fst snd]. revert Hrun.
  unfold shop_delete_route, middleware at 1.
  destruct (verifyToken credential path s) as [o s0] eqn:Hv.
  destruct (verifyToken_cases _ _ _ _ _ Hv) as [-> Ho].
  destruct o as [reqUser|r0|msg]; [| |now destruct Ho].
  2:{ intros [= <- <-]. split; [reflexivity|].
      destruct Ho as (_ & [H | [H _]] & _); rewrite H; lia. }
  unfold middleware at 1, authorize.
  destruct (existsb _ [superadmin]);
    [|intros [= <- <-]; split; [reflexivity|cbn [status failure]; lia]].
  cbn [ret]. unfold middleware, validateObjectId.
  destruct (isMongoId shopId);
    [|intros [= <- <-]; split; [reflexivity|cbn [status failure]; lia]].
  cbn [ret]. unfold logActivity.
  rewrite deleteShop_cases.
  destruct (negb (Role_eqb (User.role (PopulatedUser.doc reqUser)) superadmin));
    [intros [= <- <-]; split; [reflexivity|cbn [status failure]; lia]|].
  destruct (Shop_findById shopId s);
    intros [= <- <-]; (split; [reflexivity|cbn [status failure]; lia]).
Qed.

(** ** Listing users: scope and pages *)

Section UserPages.
Variable regex_i : string -> string -> bool.
Variable sort_users : string -> bool -> list User.t -> list User.t.

(** The order of the database keeps the records that it orders. *)
Hypothesis sort_keeps :
  forall sortBy desc l,
    List.length (sort_users sortBy desc l) = List.length l
    /\ forall x, In x (sort_users sortBy desc l) -> In x l.



End UserPages.



(** Eight users, three to a page: three pages, and page 4 is empty. *)
Example user_list_page_four :
  data (fst (getUsers (fun _ _ => false) (fun _ _ l => l) Neighbour.as_root
               (mkQuery (Some 4) (Some 3) None None None None None)
               Neighbour.store))
  = UsersData [] (mkPagination 4 3 8 3 false true).
Proof. vm_compute. reflexivity. Qed.

(** ** Viewing a device *)

(** X24. [getDeviceById] never writes. An answer 200 carries a stored
    device with the requested id that is in the caller's scope: a device of
    the caller for a user, a device of the caller's shop for a shop owner.
    A device outside the scope, asked for by an id in the canonical spelling
    of an ObjectId, is answered like a device that does not exist, with
    404. *)
Theorem device_view_scoped (cu : PopulatedUser.t) (deviceId : ObjectId)
    (s s' : Store) (a : Answer PopulatedDevice.t) :
  getDeviceById cu deviceId s = (a, s') ->
  s' = s
  /\ (a_status a = 200%nat ->
      exists d,
        a_data a = Some (Device_populate d s)
        /\ In d (devices s)
        /\ Device._id d = deviceId
        /\ (User.role (PopulatedUser.doc cu) = user ->
            Device.user d = User._id (PopulatedUser.doc cu))
        /\ (User.role (PopulatedUser.doc cu) = shopowner ->
            exists h, PopulatedUser.shop cu = Some h
                      /\ Device.shop d = Shop._id h))
  /\ (canonical deviceId = true ->
      (forall d, In d (devices s) -> Device._id d = deviceId ->
         match User.role (PopulatedUser.doc cu) with
         | superadmin => False
         | shopowner =>
             forall h, PopulatedUser.shop cu = Some h -> Device.shop d <> Shop._id h
         | user => Device.user d <> User._id (PopulatedUser.doc cu)
         end) ->
      PopulatedUser.shop cu <> None ->
      a = no_payload (failure 404 "Device not found")).
Proof.
  unfold getDeviceById, handler_of.
  assert (Hview : forall f d,
            find (device_view_filter (PopulatedUser.doc cu) deviceId f)
                 (devices s) = Some d ->
            In d (devices s) /\ Device._id d = deviceId
            /\ (User.role (PopulatedUser.doc cu) = user ->
                Device.user d = User._id (PopulatedUser.doc cu))
            /\ (User.role (PopulatedUser.doc cu) = shopowner ->
                forall h, f = Some h -> Device.shop d = h)).
  { intros f d H. apply find_some in H. destruct H as [Hin H].
    unfold device_view_filter in H. apply andb_true_iff in H.
    destruct H as [Hid H]. apply String.eqb_eq in Hid.
    split; [exact Hin|]. split; [exact Hid|].
    destruct (User.role (PopulatedUser.doc cu)); split; try discriminate.
    - intros _ h ->. now apply String.eqb_eq.
    - intros _. now apply String.eqb_eq. }
  destruct (User.role (PopulatedUser.doc cu)) eqn:R.
  - unfold bind, get, ret, reply.
    destruct (find _ (devices s)) as [d|] eqn:Hf; intros [= <- <-].
    + destruct (Hview _ _ Hf) as (Hin & Hid & _ & _).
      split; [reflexivity|]. split.
      * intros _. exists d. repeat split; try assumption; discriminate.
      * intros _ Hout. now destruct (Hout d Hin Hid).
    + split; [reflexivity|]. split; [discriminate|reflexivity].
  - unfold shop_id, deref, bind, get, ret, reply, throw.
    destruct (PopulatedUser.shop cu) as [h|] eqn:Hh.
    2:{ intros [= <- <-]. split; [reflexivity|]. split; [discriminate|].
        intros _ _ Hn. now destruct Hn. }
    destruct (find _ (devices s)) as [d|] eqn:Hf; intros [= <- <-].
    + destruct (Hview _ _ Hf) as (Hin & Hid & _ & Hshop).
      split; [reflexivity|]. split.
      * intros _. exists d. repeat split; try assumption; try discriminate.
        intros _. exists h. split; [reflexivity|]. now apply Hshop.
      * intros _ Hout _. exfalso.
        apply (Hout d Hin Hid h eq_refl). now apply Hshop.
    + split; [reflexivity|]. split; [discriminate|reflexivity].
  - unfold bind, get, ret, reply.
    destruct (find _ (devices s)) as [d|] eqn:Hf; intros [= <- <-].
    + destruct (Hview _ _ Hf) as (Hin & Hid & Huser & _).
      split; [reflexivity|]. split.
      * intros _. exists d.
        repeat split; try assumption; try discriminate; try (now apply Huser).
      * intros _ Hout _. exfalso. apply (Hout d Hin Hid). now apply Huser.
    + split; [reflexivity|]. split; [discriminate|reflexivity].
Qed.

Lemma device_view_scoped_witness :
  let out := getDeviceById Neighbour.as_owner Neighbour.deviceB_id
               Neighbour.store in
  snd out = Neighbour.store
  /\ (a_status (fst out) = 200%nat ->
      exists d,
        a_data (fst out) = Some (Device_populate d Neighbour.store)
        /\ In d (devices Neighbour.store)
        /\ Device._id d = Neighbour.deviceB_id
        /\ (User.role (PopulatedUser.doc Neighbour.as_owner) = user ->
            Device.user d = User._id (PopulatedUser.doc Neighbour.as_owner))
        /\ (User.role (PopulatedUser.doc Neighbour.as_owner) = shopowner ->
            exists h, PopulatedUser.shop Neighbour.as_owner = Some h
                      /\ Device.shop d = Shop._id h))
  /\ (canonical Neighbour.deviceB_id = true ->
      (forall d, In d (devices Neighbour.store) ->
         Device._id d = Neighbour.deviceB_id ->
         match User.role (PopulatedUser.doc Neighbour.as_owner) with
         | superadmin => False
         | shopowner =>
             forall h, PopulatedUser.shop Neighbour.as_owner = Some h ->
                       Device.shop d <> Shop._id h
         | user => Device.user d <> User._id (PopulatedUser.doc Neighbour.as_owner)
         end) ->
      PopulatedUser.shop Neighbour.as_owner <> None ->
      fst out = no_payload (failure 404 "Device not found")).
Proof.
  apply (device_view_scoped Neighbour.as_owner Neighbour.deviceB_id
           Neighbour.store _
           (fst (getDeviceById Neighbour.as_owner Neighbour.deviceB_id
                   Neighbour.store))).
  vm_compute. reflexivity.
Defined.

(** The owner of shop A gets the same answer for the device of shop B and
    for an id that no device has. *)
Example other_shop_device_looks_absent :
  fst (getDeviceById Neighbour.as_owner Neighbour.deviceB_id Neighbour.store)
  = fst (getDeviceById Neighbour.as_owner "64d0000000000000000000ff"
           Neighbour.store).
Proof. vm_compute. reflexivity. Qed.

(** ** The audit trail of the lock route *)

(** X25. The lock route writes at most one audit entry per request, and
    only for an answer below 400: the entry is "device_locked", attributed
    to the caller of the token. An answer of 400 or more leaves the audit
    log as it was. *)
Theorem lock_route_audit (credential : Credential) (path deviceId : string)
    (body_reason : option string) (now : Z) (s s' : Store) (r : Response) :
  device_lock_route credential path deviceId body_reason now s = (r, s') ->
  ((400 <= status r)%nat -> logs s' = logs s)
  /\ ((status r < 400)%nat ->
      exists userId u,
        credential = Token userId
        /\ User_findById userId s = Some u
        /\ logs s' =
             (logs s ++
              [ActivityLog.mk userId
                 (option_map Shop._id (PopulatedUser.shop (User_populate u s)))
                 "device_locked" "Locked device" "device" userId])%list).
Proof.
  unfold device_lock_route, middleware at 1.
  destruct (verifyToken credential path s) as [o s0] eqn:Hv.
  destruct (verifyToken_cases _ _ _ _ _ Hv) as [-> Ho].
  destruct o as [reqUser|r0|msg]; [| |now destruct Ho].
  2:{ intros [= <- <-]. split; [reflexivity|].
      destruct Ho as (_ & [H | [H _]] & _); rewrite H; lia. }
  destruct Ho as (userId & -> & Hu & _ & _ & Hpop).
  pose proof (find_by_id_key User._id _ _ _ Hu) as Huid.
  unfold middleware at 1, authorize.
  destruct (existsb _ [shopowner; superadmin]);
    [|intros [= <- <-]; split; [reflexivity|cbn [status failure]; lia]].
  cbn [ret]. unfold middleware, validateObjectId.
  destruct (isMongoId deviceId);
    [|intros [= <- <-]; split; [reflexivity|cbn [status failure]; lia]].
  cbn [ret]. unfold logActivity.
  destruct (lockDevice reqUser deviceId body_reason now s) as [r1 s1] eqn:Hrun.
  destruct (run_op_touched_only (Lock body_reason) reqUser deviceId now
              s s1 r1 Hrun) as (Hlogs & _).
  destruct (status r1 <? 400)%nat eqn:Hlt; intros [= <- <-].
  - apply Nat.ltb_lt in Hlt. split; [lia|]. intros _.
    exists userId, (PopulatedUser.doc reqUser).
    split; [reflexivity|]. split; [exact Hu|].
    cbn [logs set_logs]. rewrite Hlogs, Huid, <- Hpop. reflexivity.
  - apply Nat.ltb_ge in Hlt. split; [intros _; exact Hlogs|lia].
Qed.

Lemma lock_route_audit_witness :
  let out := device_lock_route (Token Sample.owner_id)
               "/64d000000000000000000003/lock" (Sample.device_id 3) None 200
               Sample.store in
  ((400 <= status (fst out))%nat -> logs (snd out) = logs Sample.store)
  /\ ((status (fst out) < 400)%nat ->
      exists userId u,
        Token Sample.owner_id = Token userId
        /\ User_findById userId Sample.store = Some u
        /\ logs (snd out) =
             (logs Sample.store ++
              [ActivityLog.mk userId
                 (option_map Shop._id
                    (PopulatedUser.shop (User_populate u Sample.store)))
                 "device_locked" "Locked device" "device" userId])%list).
Proof.
  apply (lock_route_audit (Token Sample.owner_id)
           "/64d000000000000000000003/lock" (Sample.device_id 3) None 200
           Sample.store _
           (fst (device_lock_route (Token Sample.owner_id)
                   "/64d000000000000000000003/lock" (Sample.device_id 3) None
                   200 Sample.store))).
  vm_compute. reflexivity.
Defined.

(** On the sample tenant the owner's lock of device 3 is answered 200 and
    audited once. *)
Example lock_route_sample :
  let out := device_lock_route (Token Sample.owner_id)
               "/64d000000000000000000003/lock" (Sample.device_id 3) None 200
               Sample.store in
  status (fst out) = 200%nat
  /\ logs (snd out)
     = [ActivityLog.mk Sample.owner_id (Some Sample.shopA_id) "device_locked"
          "Locked device" "device" Sample.owner_id].
Proof. vm_compute. split; reflexivity. Qed.

(** ** The route that deletes a user *)

Lemma deleteUser_refused (cu : PopulatedUser.t) (userId : ObjectId)
    (s s' : Store) (r : Response) :
  deleteUser cu userId s = (r, s') ->
  status r <> 200%nat -> s' = s /\ (400 <= status r)%nat.
Proof.
  unfold deleteUser, handler, bind at 1.
  assert (Hscope :
    (exists f, (match User.role (PopulatedUser.doc cu) with
                | user => reply (failure 403 "Access denied. Users cannot delete accounts.")
                | shopowner => h <- shop_id cu ;; ret (Some h)
                | superadmin => ret None
                end) s = (Value f, s))
    \/ (exists o, (match User.role (PopulatedUser.doc cu) with
                   | user => reply (failure 403 "Access denied. Users cannot delete accounts.")
                   | shopowner => h <- shop_id cu ;; ret (Some h)
                   | superadmin => ret None
                   end) s = (o, s)
                  /\ (o = Reply (failure 403 "Access denied. Users cannot delete accounts.")
                      \/ exists msg, o = Throw msg))).
  { unfold shop_id, deref, bind, ret, reply, throw.
    destruct (User.role (PopulatedUser.doc cu)) eqn:R.
    - left. now exists None.
    - destruct (PopulatedUser.shop cu) as [h|].
      + left. now exists (Some (Shop._id h)).
      + right. eexists. split; [reflexivity|]. right. eexists. reflexivity.
    - right. eexists. split; [reflexivity|]. now left. }
  destruct Hscope as [(f & ->) | (o & -> & [-> | [msg ->]])];
    [|intros [= <- <-] _; split; [reflexivity|cbn [status failure]; lia]
     |intros [= <- <-] _; split; [reflexivity|cbn [status failure]; lia]].
  unfold bind at 1, get.
  destruct (find (user_filter userId f) (users s)) as [u|] eqn:Hfind;
    [|intros [= <- <-] _; split; [reflexivity|cbn [status failure]; lia]].
  destruct (Role_eqb (User.role (PopulatedUser.doc cu)) shopowner
            && Role_eqb (User.role u) superadmin) eqn:Hsuper;
    [intros [= <- <-] _; split; [reflexivity|cbn [status failure]; lia]|].
  unfold bind at 1, Device_deleteMany, modify.
  unfold bind at 1, User_findByIdAndDelete, modify.
  unfold bind at 1.
  set (mid := set_users _ (set_devices _ s)).
  assert (Hrec : exists s1,
            (match User.shop u with
             | Some shopId => recompute_shop tt shopId
             | None => ret tt
             end) mid = (Value tt, s1)).
  { destruct (User.shop u) as [shopId|].
    - destruct (recompute_shop_frame shopId mid) as (s1 & H1 & _).
      now exists s1.
    - now exists mid. }
  destruct Hrec as (s1 & ->).
  unfold bind at 1, ActivityLog_createLog, ActivityLog_new.
  cbn [log_user log_performedBy log_action log_description log_category log_shop
       String.eqb Ascii.eqb Bool.eqb mem_string existsb action_enum category_enum
       negb orb append].
  unfold modify. cbn [ret]. intros [= <- <-] Hne. exfalso. now apply Hne.
Qed.

Lemma verifyUserAccess_frame (cu : PopulatedUser.t) (userId : ObjectId)
    (s s' : Store) (o : Outcome unit) :
  verifyUserAccess cu userId s = (o, s') ->
  s' = s
  /\ match o with
     | Value _ => True
     | Reply r => (400 <= status r)%nat
     | Throw _ => False
     end.
Proof.
  unfold verifyUserAccess, try_catch, bind, get, shop_ref, shop_id, deref,
    bind, ret, reply, throw.
  destruct (User.role (PopulatedUser.doc cu)).
  - intros [= <- <-]. now split.
  - destruct (User_findById userId s) as [target|];
      [|intros [= <- <-]; split; [reflexivity|cbn [status failure]; lia]].
    destruct (User.shop target) as [theirs|];
      [|intros [= <- <-]; split; [reflexivity|cbn [status failure]; lia]].
    destruct (PopulatedUser.shop cu) as [h|];
      [|intros [= <- <-]; split; [reflexivity|cbn [status failure]; lia]].
    destruct (negb (String.eqb theirs (Shop._id h))); intros [= <- <-];
      (split; [reflexivity|]); [cbn [status failure]; lia|exact I].
  - destruct (negb (String.eqb (User._id (PopulatedUser.doc cu)) userId));
      intros [= <- <-]; (split; [reflexivity|]);
      [cbn [status failure]; lia|exact I].
Qed.

(** X26. The route that deletes a user either refuses, with an answer of
    400 or more and the whole store left as it was, or answers 200 to a
    caller who is not of role [user]; a deletion that is carried out is
    audited twice under the action "user_deleted", first by the controller
    function for the deleted user and then by the route for the caller. *)
Theorem user_delete_route_audited_twice (credential : Credential)
    (path userId : string) (s s' : Store) (r : Response) :
  user_delete_route credential path userId s = (r, s') ->
  ((400 <= status r)%nat /\ s' = s)
  \/ (status r = 200%nat
      /\ exists reqUser u,
           verifyToken credential path s = (Value reqUser, s)
           /\ User.role (PopulatedUser.doc reqUser) <> user
           /\ In u (users s) /\ User._id u = userId
           /\ logs s' =
                (logs s ++
                 [deletion_entry (User._id (PopulatedUser.doc reqUser)) u;
                  ActivityLog.mk (User._id (PopulatedUser.doc reqUser))
                    (option_map Shop._id (PopulatedUser.shop reqUser))
                    "user_deleted" "Deleted user" "user"
                    (User._id (PopulatedUser.doc reqUser))])%list).
Proof.
  unfold user_delete_route, middleware at 1.
  destruct (verifyToken credential path s) as [o s0] eqn:Hv.
  destruct (verifyToken_cases _ _ _ _ _ Hv) as [-> Ho].
  destruct o as [reqUser|r0|msg]; [| |now destruct Ho].
  2:{ intros [= <- <-]. left. split; [|reflexivity].
      destruct Ho as (_ & [H | [H _]] & _); rewrite H; lia. }
  clear Ho.
  unfold middleware at 1, authorize.
  destruct (existsb _ [shopowner; superadmin]);
    [|intros [= <- <-]; left; split; [cbn [status failure]; lia|reflexivity]].
  cbn [ret]. unfold middleware at 1, validateObjectId.
  destruct (isMongoId userId);
    [|intros [= <- <-]; left; split; [cbn [status failure]; lia|reflexivity]].
  cbn [ret]. unfold middleware.
  destruct (verifyUserAccess reqUser userId s) as [o1 s1] eqn:Ha.
  destruct (verifyUserAccess_frame _ _ _ _ _ Ha) as [-> Ho1].
  destruct o1 as [[]|r1|msg]; [| |now destruct Ho1].
  2:{ intros [= <- <-]. left. now split. }
  unfold logActivity.
  destruct (deleteUser reqUser userId s) as [r2 s2] eqn:Hrun.
  destruct (Nat.eq_dec (status r2) 200) as [H200|Hne].
  - destruct (deleteUser_200 _ _ _ _ _ Hrun H200)
      as (u & Hin & Hid & Hrole & _ & _ & _ & _ & Hlogs & _).
    rewrite H200. cbn [Nat.ltb Nat.leb]. intros [= <- <-]. right.
    split; [exact H200|]. exists reqUser, u.
    split; [reflexivity|]. split; [exact Hrole|]. split; [exact Hin|].
    split; [exact Hid|]. cbn [logs set_logs]. rewrite Hlogs.
    now rewrite <- app_assoc.
  - destruct (deleteUser_refused _ _ _ _ _ Hrun Hne) as [-> Hge].
    destruct (status r2 <? 400)%nat eqn:Hlt;
      [apply Nat.ltb_lt in Hlt; lia|].
    intros [= <- <-]. left. now split.
Qed.

Lemma user_delete_route_audited_twice_witness :
  let out := user_delete_route (Token Sample.owner_id)
               "/64c000000000000000000003" (Sample.customer_id 3)
               Sample.store in
  ((400 <= status (fst out))%nat /\ snd out = Sample.store)
  \/ (status (fst out) = 200%nat
      /\ exists reqUser u,
           verifyToken (Token Sample.owner_id) "/64c000000000000000000003"
             Sample.store = (Value reqUser, Sample.store)
           /\ User.role (PopulatedUser.doc reqUser) <> user
           /\ In u (users Sample.store) /\ User._id u = Sample.customer_id 3
           /\ logs (snd out) =
                (logs Sample.store ++
                 [deletion_entry (User._id (PopulatedUser.doc reqUser)) u;
                  ActivityLog.mk (User._id (PopulatedUser.doc reqUser))
                    (option_map Shop._id (PopulatedUser.shop reqUser))
                    "user_deleted" "Deleted user" "user"
                    (User._id (PopulatedUser.doc reqUser))])%list).
Proof.
  apply (user_delete_route_audited_twice (Token Sample.owner_id)
           "/64c000000000000000000003" (Sample.customer_id 3) Sample.store _
           (fst (user_delete_route (Token Sample.owner_id)
                   "/64c000000000000000000003" (Sample.customer_id 3)
                   Sample.store))).
  vm_compute. reflexivity.
Defined.

(** On the sample tenant the owner's deletion of customer 3 is answered 200
    and leaves two audit entries. *)
Example user_delete_route_sample :
  let out := user_delete_route (Token Sample.owner_id)
               "/64c000000000000000000003" (Sample.customer_id 3)
               Sample.store in
  status (fst out) = 200%nat
  /\ List.length (logs (snd out)) = 2%nat
  /\ User_findById (Sample.customer_id 3) (snd out) = None.
Proof. vm_compute. repeat split; reflexivity. Qed.
